(** * Inference-safe aggregation: protection strategies and inference attacks

    A shallow embedding of [src/database.py], [src/aggregation_methods.py]
    (the five strategies and the comparison of all five) and
    [src/attacks.py] (the gateway of the attacks, the Differencing, Tracker,
    Sum and Linear System attacks and the suite that runs them).

    - Python values that the store returns in a row are the inductive
      [Value]; a row (a [dict], insertion ordered) is an association list.
    - Python [float] is the kernel's binary64 [float]; Python [int] is [Z].
    - Everything outside the program (PostgreSQL behind psycopg2, numpy's
      random generator) is the [World]: the store answers the n-th statement
      it receives through [pg], and the two tables the program itself
      writes, [query_audit] and [query_history], are kept as lists.
    - [np.linalg.solve] is a function of the class [NumpyLinalg], of which
      only the shape of a solution is assumed.
    - Code that raises or touches the store runs in the monad [M], state
      passing over [World] with Python exceptions as [Raise].

    What the embedding leaves out:
    - [print]: no claim is about the console, and none of the calls raises;
    - connections, cursors, commit and rollback: a statement either returns
      its rows or raises, which is all the callers see;
    - statements of a caller that read or write [query_audit] or
      [query_history] themselves: only the program's own INSERTs change the
      two tables, and rows come back most recent first;
    - the special values of [Decimal] (NaN, infinities, negative zero), and
      rows with a repeated column name (a [dict] has none);
    - the difference between [datetime.date] and [datetime.datetime]: both
      are [VDate], and a message that names the type says datetime.date. *)

From Stdlib Require Import ZArith List String Ascii Bool Lia DecimalString.
From Stdlib Require Import Floats.PrimFloat Floats.SpecFloat Floats.FloatOps.
From Stdlib Require Import Floats.FloatAxioms.
Import ListNotations.
Open Scope string_scope.
Open Scope Z_scope.

Notation "a +++ b" := (String.append a b) (at level 60, right associativity).

(** ** Python strings

    Characters are code points below 256. *)

Module PyStr.

Definition code (c : ascii) : N := N_of_ascii c.

(** [str.lower] on one code point: A-Z, and the Latin-1 capitals
    U+00C0-U+00DE except the multiplication sign U+00D7. *)
Definition lower_char (c : ascii) : ascii :=
  let n := code c in
  if ((65 <=? n) && (n <=? 90))%N then ascii_of_N (n + 32)
  else if ((192 <=? n) && (n <=? 222) && negb (n =? 215))%N then ascii_of_N (n + 32)
  else c.

Fixpoint lower (s : string) : string :=
  match s with
  | EmptyString => EmptyString
  | String c s' => String (lower_char c) (lower s')
  end.

(** [str.isspace] on one code point. *)
Definition is_space (c : ascii) : bool :=
  let n := code c in
  (((9 <=? n) && (n <=? 13)) || ((28 <=? n) && (n <=? 32))
   || (n =? 133) || (n =? 160))%N.

Fixpoint lstrip (s : string) : string :=
  match s with
  | EmptyString => EmptyString
  | String c s' => if is_space c then lstrip s' else s
  end.

Fixpoint rstrip (s : string) : string :=
  match s with
  | EmptyString => EmptyString
  | String c s' =>
      match rstrip s' with
      | EmptyString => if is_space c then EmptyString else String c EmptyString
      | r => String c r
      end
  end.

(** [s.strip()] *)
Definition strip (s : string) : string := rstrip (lstrip s).

(** [s.startswith(p)] *)
Fixpoint startswith (s p : string) {struct p} : bool :=
  match p, s with
  | EmptyString, _ => true
  | String _ _, EmptyString => false
  | String a p', String b s' => Ascii.eqb a b && startswith s' p'
  end.

(** [s.find(p)]: the lowest index where [p] occurs, [None] for -1. *)
Fixpoint find (s p : string) : option nat :=
  if startswith s p then Some O
  else match s with
       | EmptyString => None
       | String _ s' => option_map S (find s' p)
       end.

(** [p in s] *)
Definition contains (s p : string) : bool :=
  match find s p with Some _ => true | None => false end.

(** [s[n:]] for [n >= 0] *)
Fixpoint slice_from (n : nat) (s : string) : string :=
  match n, s with
  | O, _ => s
  | S n', EmptyString => EmptyString
  | S n', String _ s' => slice_from n' s'
  end.

(** [str(n)] for an [int]. *)
Definition of_int (n : Z) : string := NilZero.string_of_int (Z.to_int n).

End PyStr.

(** ** Python values and exceptions *)

(** What psycopg2 hands back in a row, and what the code computes from it. *)
Inductive Value : Type :=
| VNone
| VBool (b : bool)
| VInt (n : Z)
| VFloat (x : float)
| VDecimal (coef exp : Z)   (* a finite decimal.Decimal, coef * 10^exp *)
| VStr (s : string)
| VDate (iso : string).     (* datetime.date, datetime.datetime *)

(** A row: [dict(row)] of a RealDictCursor row, in column order. *)
Definition Row : Type := list (string * Value).

Inductive exn : Type :=
| DatabaseError (msg : string)   (* anything psycopg2 raises *)
| TypeError (msg : string)
| KeyError (msg : string)
| IndexError (msg : string)
| ValueError (msg : string)
| ZeroDivisionError (msg : string)
| OverflowError (msg : string).

(** [str(e)] *)
Definition str_exn (e : exn) : string :=
  match e with
  | DatabaseError m | TypeError m | KeyError m | IndexError m
  | ValueError m | ZeroDivisionError m | OverflowError m => m
  end.

Inductive Result (A : Type) : Type :=
| Ok (a : A)
| Raise (e : exn).
Arguments Ok {A} a.
Arguments Raise {A} e.

Definition rbind {A B} (r : Result A) (k : A -> Result B) : Result B :=
  match r with
  | Ok a => k a
  | Raise e => Raise e
  end.

Notation "'let?' x := r 'in' k" := (rbind r (fun x => k))
  (at level 10, x name, r at level 100, k at level 200).

(** The parts of the Python runtime that are used but not spelled out:
    float parsing and printing, [str] of a sorted result set, SHA-256. *)
Definition is_hex_char (c : ascii) : bool :=
  let n := PyStr.code c in
  (((48 <=? n) && (n <=? 57)) || ((97 <=? n) && (n <=? 102)))%N.

Fixpoint all_chars (p : ascii -> bool) (s : string) : bool :=
  match s with
  | EmptyString => true
  | String c s' => p c && all_chars p s'
  end.

(** The shape of [hashlib.sha256(...).hexdigest()]: 64 lowercase hex digits. *)
Definition is_hexdigest (s : string) : bool :=
  Nat.eqb (String.length s) 64 && all_chars is_hex_char s.

Class PyRuntime : Type := {
  (** [float(s)] for a [str]; [None] is ValueError *)
  float_of_str : string -> option float;
  (** [str(x)] for a [float] *)
  str_of_float : float -> string;
  (** [str(d)] for a [Decimal] *)
  str_of_decimal : Z -> Z -> string;
  (** [format(x, '.2f')] *)
  format_2f : float -> string;
  (** [str(sorted([str(sorted(r.items())) for r in results]))] *)
  str_sorted_rows : list Row -> string;
  (** [hashlib.sha256(s.encode()).hexdigest()] *)
  sha256_hexdigest : string -> string;
  sha256_hexdigest_shape : forall s, is_hexdigest (sha256_hexdigest s) = true
}.

Module Py.

Definition type_name (v : Value) : string :=
  match v with
  | VNone => "NoneType"
  | VBool _ => "bool"
  | VInt _ => "int"
  | VFloat _ => "float"
  | VDecimal _ _ => "decimal.Decimal"
  | VStr _ => "str"
  | VDate _ => "datetime.date"
  end.

(** [isinstance(v, (int, float))]; [bool] is a subclass of [int]. *)
Definition is_int_or_float (v : Value) : bool :=
  match v with
  | VBool _ | VInt _ | VFloat _ => true
  | _ => false
  end.

(** The nearest binary64 to an integer, ties to even. *)
Definition float_of_Z (z : Z) : float :=
  SF2Prim (binary_normalize prec emax z 0 false).

(** An [int] converted for float arithmetic. *)
Definition float_of_int (z : Z) : Result float :=
  let x := float_of_Z z in
  if is_infinity x then Raise (OverflowError "int too large to convert to float")
  else Ok x.

(** The nearest binary64 to [c * 10^e]. *)
Definition float_of_decimal (c e : Z) : float :=
  if 0 <=? e then float_of_Z (c * 10 ^ e)
  else match c with
       | Z0 => zero
       | Zpos p =>
           SF2Prim (SFdiv prec emax (S754_finite false p 0)
                      (S754_finite false (Z.to_pos (10 ^ (- e))) 0))
       | Zneg p =>
           SF2Prim (SFdiv prec emax (S754_finite true p 0)
                      (S754_finite false (Z.to_pos (10 ^ (- e))) 0))
       end.

Definition b2z (b : bool) : Z := if b then 1 else 0.

(** [float(v)] *)
Definition to_float `{PyRuntime} (v : Value) : Result float :=
  match v with
  | VBool b => float_of_int (b2z b)
  | VInt n => float_of_int n
  | VFloat x => Ok x
  | VDecimal c e => Ok (float_of_decimal c e)
  | VStr s =>
      match float_of_str s with
      | Some x => Ok x
      | None => Raise (ValueError ("could not convert string to float: '" +++ s +++ "'"))
      end
  | VNone | VDate _ =>
      Raise (TypeError ("float() argument must be a string or a real number, not '"
                          +++ type_name v +++ "'"))
  end.

(** Exact value of a number, for comparisons: Python compares [int],
    [float] and [Decimal] by value, without rounding. *)
Inductive num : Type :=
| NaN
| Inf (neg : bool)
| Rat (n : Z) (d : positive).

Definition num_of_float (x : float) : num :=
  match Prim2SF x with
  | S754_nan => NaN
  | S754_infinity s => Inf s
  | S754_zero _ => Rat 0 1
  | S754_finite s m e =>
      let z := if s then Zneg m else Zpos m in
      if 0 <=? e then Rat (z * 2 ^ e) 1 else Rat z (Z.to_pos (2 ^ (- e)))
  end.

Definition to_num (v : Value) : option num :=
  match v with
  | VBool b => Some (Rat (b2z b) 1)
  | VInt n => Some (Rat n 1)
  | VFloat x => Some (num_of_float x)
  | VDecimal c e =>
      Some (if 0 <=? e then Rat (c * 10 ^ e) 1 else Rat c (Z.to_pos (10 ^ (- e))))
  | VNone | VStr _ | VDate _ => None
  end.

Definition num_compare (a b : num) : option comparison :=
  match a, b with
  | NaN, _ | _, NaN => None
  | Inf s, Inf t => Some (if s then (if t then Eq else Lt) else (if t then Gt else Eq))
  | Inf s, Rat _ _ => Some (if s then Lt else Gt)
  | Rat _ _, Inf t => Some (if t then Gt else Lt)
  | Rat n d, Rat m k => Some ((n * Zpos k) ?= (m * Zpos d))
  end.

Definition unorderable (op : string) (v : Value) : exn :=
  TypeError ("'" +++ op +++ "' not supported between instances of '"
               +++ type_name v +++ "' and 'int'").

(** [v < k] for an [int] k *)
Definition lt_int (v : Value) (k : Z) : Result bool :=
  match to_num v with
  | Some a => Ok (match num_compare a (Rat k 1) with Some Lt => true | _ => false end)
  | None => Raise (unorderable "<" v)
  end.

(** [v > k] for an [int] k *)
Definition gt_int (v : Value) (k : Z) : Result bool :=
  match to_num v with
  | Some a => Ok (match num_compare a (Rat k 1) with Some Gt => true | _ => false end)
  | None => Raise (unorderable ">" v)
  end.

(** [v == k] for an [int] k; never raises. *)
Definition eq_int (v : Value) (k : Z) : bool :=
  match to_num v with
  | Some a => match num_compare a (Rat k 1) with Some Eq => true | _ => false end
  | None => false
  end.

Definition unsupported (op : string) (l r : string) : exn :=
  TypeError ("unsupported operand type(s) for " +++ op +++ ": '" +++ l
               +++ "' and '" +++ r +++ "'").

(** [v + x] for a [float] x; an [int] is converted first, and one too large
    for a float raises. *)
Definition add_float (v : Value) (x : float) : Result Value :=
  match v with
  | VBool b => let? y := float_of_int (b2z b) in Ok (VFloat (y + x)%float)
  | VInt n => let? y := float_of_int n in Ok (VFloat (y + x)%float)
  | VFloat y => Ok (VFloat (y + x)%float)
  | _ => Raise (unsupported "+" (type_name v) "float")
  end.

(** [x * v] for a [float] x *)
Definition float_mul (x : float) (v : Value) : Result float :=
  match v with
  | VBool b => let? y := float_of_int (b2z b) in Ok (x * y)%float
  | VInt n => let? y := float_of_int n in Ok (x * y)%float
  | VFloat y => Ok (x * y)%float
  | VStr _ => Raise (TypeError "can't multiply sequence by non-int of type 'float'")
  | _ => Raise (unsupported "*" "float" (type_name v))
  end.

(** [x / v] for a [float] x *)
Definition float_div (x : float) (v : Value) : Result float :=
  let div y :=
    if (y =? 0)%float then Raise (ZeroDivisionError "float division by zero")
    else Ok (x / y)%float in
  match v with
  | VBool b => let? y := float_of_int (b2z b) in div y
  | VInt n => let? y := float_of_int n in div y
  | VFloat y => div y
  | _ => Raise (unsupported "/" "float" (type_name v))
  end.

(** Number of decimal digits of a positive integer. *)
Definition digits10 (z : Z) : Z := Z.of_nat (String.length (PyStr.of_int z)).

(** A coefficient rounded to the 28 significant digits of the default
    decimal context (ROUND_HALF_EVEN). *)
Definition decimal_round (c e : Z) : Z * Z :=
  let a := Z.abs c in
  let k := digits10 a - 28 in
  if k <=? 0 then (c, e)
  else
    let q := a / 10 ^ k in
    let r := a mod 10 ^ k in
    let half := 5 * 10 ^ (k - 1) in
    let q' := if (half <? r) || ((half =? r) && Z.odd q) then q + 1 else q in
    let '(q'', e') := if q' =? 10 ^ 28 then (10 ^ 27, e + k + 1) else (q', e + k) in
    (Z.sgn c * q'', e').

(** [v - k] for an [int] k *)
Definition sub_int (v : Value) (k : Z) : Result Value :=
  match v with
  | VBool b => Ok (VInt (b2z b - k))
  | VInt n => Ok (VInt (n - k))
  | VFloat x => let? y := float_of_int k in Ok (VFloat (x - y)%float)
  | VDecimal c e =>
      let '(c', e') :=
        if 0 <=? e then decimal_round (c * 10 ^ e - k) 0
        else decimal_round (c - k * 10 ^ (- e)) e in
      Ok (VDecimal c' e')
  | _ => Raise (unsupported "-" (type_name v) "int")
  end.

(** [str(v)], what an f-string prints for [{v}] *)
Definition str `{PyRuntime} (v : Value) : string :=
  match v with
  | VNone => "None"
  | VBool true => "True"
  | VBool false => "False"
  | VInt n => PyStr.of_int n
  | VFloat x => str_of_float x
  | VDecimal c e => str_of_decimal c e
  | VStr s => s
  | VDate iso => iso
  end.

(** [row[key]] *)
Fixpoint getitem (row : Row) (key : string) : Result Value :=
  match row with
  | [] => Raise (KeyError ("'" +++ key +++ "'"))
  | (k, v) :: row' => if String.eqb k key then Ok v else getitem row' key
  end.

(** [rows[0]] *)
Definition first {A} (rows : list A) : Result A :=
  match rows with
  | [] => Raise (IndexError "list index out of range")
  | r :: _ => Ok r
  end.

(** [a > b]: numbers compare by value, text by code points; two dates are
    taken to be of one type and compare by their ISO text. *)
Definition gt (a b : Value) : Result bool :=
  match to_num a, to_num b with
  | Some x, Some y => Ok (match num_compare x y with Some Gt => true | _ => false end)
  | _, _ =>
      match a, b with
      | VStr s, VStr t => Ok (String.ltb t s)
      | VDate s, VDate t => Ok (String.ltb t s)
      | _, _ =>
          Raise (TypeError ("'>' not supported between instances of '"
                              +++ type_name a +++ "' and '" +++ type_name b +++ "'"))
      end
  end.

End Py.

(** ** The world outside the program *)

(** One call of [cursor.execute]: the text, the parameter tuple and the
    credentials the connection was opened with. *)
Record Statement : Type := mkStatement {
  sql : string;
  args : option (list Value);
  db_user : option string;
  db_password : option string
}.

(** What the store does with a statement: rows, or an error that psycopg2
    raises (bad credentials, permission denied, malformed SQL, lost
    connection). *)
Inductive Response : Type :=
| Rows (rs : list Row)
| Rejected (msg : string).

(** A row of table [query_audit]. *)
Record AuditRecord : Type := mkAudit {
  a_username : string;
  a_query_text : string;
  a_result_count : Value;
  a_was_blocked : bool;
  a_block_reason : option string
}.

(** A row of table [query_history]. *)
Record HistoryEntry : Type := mkHistory {
  h_username : string;
  h_query_hash : string;
  h_query_text : string;
  result_set_hash : option string
}.

Record World : Type := mkWorld {
  (** the store's answer to the n-th statement it receives *)
  pg : nat -> Statement -> Response;
  (** statements received so far *)
  clock : nat;
  (** table [query_audit], most recent first *)
  query_audit : list AuditRecord;
  (** table [query_history], most recent first *)
  query_history : list HistoryEntry;
  (** the n-th sample [np.random.laplace(loc, scale)] returns *)
  np_laplace : nat -> float -> float -> float;
  (** samples drawn so far *)
  draws : nat
}.

(** The world once the store has received one more statement. *)
Definition tick (w : World) : World :=
  mkWorld (pg w) (S (clock w)) (query_audit w) (query_history w) (np_laplace w) (draws w).

(** The world once a row is committed to [query_audit]. *)
Definition add_audit (r : AuditRecord) (w : World) : World :=
  mkWorld (pg w) (clock w) (r :: query_audit w) (query_history w) (np_laplace w) (draws w).

(** The world once a row is committed to [query_history]. *)
Definition add_history (h : HistoryEntry) (w : World) : World :=
  mkWorld (pg w) (clock w) (query_audit w) (h :: query_history w) (np_laplace w) (draws w).

(** The world once one more sample is drawn. *)
Definition drawn (w : World) : World :=
  mkWorld (pg w) (clock w) (query_audit w) (query_history w) (np_laplace w) (S (draws w)).

(** State passing over the world, with exceptions. *)
Definition M (A : Type) : Type := World -> Result A * World.

Definition ret {A} (a : A) : M A := fun w => (Ok a, w).

Definition raise {A} (e : exn) : M A := fun w => (Raise e, w).

Definition bind {A B} (c : M A) (k : A -> M B) : M B :=
  fun w => match c w with
           | (Ok a, w') => k a w'
           | (Raise e, w') => (Raise e, w')
           end.

(** [try: c except Exception as e: h e] *)
Definition try_except {A} (c : M A) (h : exn -> M A) : M A :=
  fun w => match c w with
           | (Ok a, w') => (Ok a, w')
           | (Raise e, w') => h e w'
           end.

(** A computation that raises but does not touch the world. *)
Definition lift {A} (r : Result A) : M A := fun w => (r, w).

Notation "x <- c ;; k" := (bind c (fun x => k))
  (at level 61, c at next level, right associativity).
Notation "' pat <- c ;; k" := (bind c (fun x => match x with pat => k end))
  (at level 61, pat pattern, c at next level, right associativity).
Notation "c ;; k" := (bind c (fun _ => k))
  (at level 61, right associativity).

(** ** src/database.py *)

Module Database.

Definition audit_query : string :=
  "
            INSERT INTO query_audit (username, query_text, result_count, was_blocked, block_reason)
            VALUES (%s, %s, %s, %s, %s)
        ".

Definition history_query : string :=
  "
            INSERT INTO query_history (username, query_hash, query_text, result_set_hash)
            VALUES (%s, %s, %s, %s)
        ".

Definition select_history_query : string :=
  "
            SELECT * FROM query_history
            WHERE username = %s
            ORDER BY execution_time DESC
            LIMIT %s
        ".

(** [Database.execute_query]: the statement goes to the store; an error is
    raised again after the rollback, rows come back when [fetch] is set. *)
Definition execute_query (query : string) (params : option (list Value))
    (user password : option string) (fetch : bool) : M (option (list Row)) :=
  fun w =>
    match pg w (clock w) (mkStatement query params user password) with
    | Rejected msg => (Raise (DatabaseError msg), tick w)
    | Rows rs => (Ok (if fetch then Some rs else None), tick w)
    end.

(** The effect of a committed INSERT on table [query_audit]. *)
Definition insert_audit (r : AuditRecord) : M unit :=
  fun w => (Ok tt, add_audit r w).

(** The effect of a committed INSERT on table [query_history]. *)
Definition insert_history (h : HistoryEntry) : M unit :=
  fun w => (Ok tt, add_history h w).

Definition opt_str (o : option string) : Value :=
  match o with Some s => VStr s | None => VNone end.

(** [Database.log_query_audit] *)
Definition log_query_audit (username query_text : string) (result_count : Value)
    (was_blocked : bool) (block_reason : option string) : M unit :=
  execute_query audit_query
    (Some [VStr username; VStr query_text; result_count; VBool was_blocked;
           opt_str block_reason]) None None false ;;
  insert_audit (mkAudit username query_text result_count was_blocked block_reason).

(** The result-set hash both [store_query_history] and
    [OverlapControl.aggregate] compute. *)
Definition hash_result_set `{PyRuntime} (results : list Row) : string :=
  sha256_hexdigest (str_sorted_rows results).

(** [Database.store_query_history] *)
Definition store_query_history `{PyRuntime} (username query_text : string)
    (result_set : option (list Row)) : M unit :=
  let query_hash := sha256_hexdigest query_text in
  let result_hash :=
    match result_set with
    | Some (r :: rs) => Some (hash_result_set (r :: rs))
    | _ => None
    end in
  execute_query history_query
    (Some [VStr username; VStr query_hash; VStr query_text; opt_str result_hash])
    None None false ;;
  insert_history (mkHistory username query_hash query_text result_hash).

(** What the SELECT of [get_query_history] returns from the table. *)
Definition recent (username : string) (limit : Z) (table : list HistoryEntry)
  : list HistoryEntry :=
  firstn (Z.to_nat limit)
    (filter (fun h => String.eqb (h_username h) username) table).

(** [Database.get_query_history] *)
Definition get_query_history (username : string) (limit : Z) : M (list HistoryEntry) :=
  execute_query select_history_query (Some [VStr username; VInt limit]) None None true ;;
  fun w => (Ok (recent username limit (query_history w)), w).

End Database.

(** ** src/aggregation_methods.py *)

(** The dict every [aggregate] returns.  [results = None] is the key
    holding [None]; [original_results = None] is the key being absent. *)
Record Outcome : Type := mkOutcome {
  method : string;
  blocked : bool;
  block_reason : option string;
  results : option (list Row);
  original_results : option (list Row);
  protection_applied : option string
}.

(** Truth value of an optional list: [None] and [[]] are false. *)
Definition truthy {A} (l : option (list A)) : bool :=
  match l with
  | Some (_ :: _) => true
  | _ => false
  end.

Fixpoint mapM {A B} (f : A -> M B) (l : list A) : M (list B) :=
  match l with
  | [] => ret []
  | a :: l' => b <- f a ;; bs <- mapM f l' ;; ret (b :: bs)
  end.

Module AggregationMethod.

(** [len(results) if results else 0] *)
Definition len_or_0 (results : option (list Row)) : Z :=
  match results with
  | Some rs => Z.of_nat (List.length rs)
  | None => 0
  end.

(** [AggregationMethod.execute_with_logging] *)
Definition execute_with_logging (username query : string)
    (params : option (list Value)) (user password : option string)
  : M (option (list Row) * bool * option string) :=
  try_except
    (results <- Database.execute_query query params user password true ;;
     let result_count := len_or_0 results in
     Database.log_query_audit username query (VInt result_count) false None ;;
     ret (results, false, None))
    (fun e =>
       Database.log_query_audit username query (VInt 0) true (Some (str_exn e)) ;;
       ret (None, true, Some (str_exn e))).

End AggregationMethod.

Module NoProtection.

Definition aggregate (username query : string) (params : option (list Value))
    (user password : option string) : M Outcome :=
  '(results, blocked, reason) <-
    AggregationMethod.execute_with_logging username query params user password ;;
  ret (mkOutcome "No Protection" blocked reason results None None).

End NoProtection.

Module MinimumSizeRestriction.

Definition _convert_to_count_query (query : string) : string :=
  let query_lower := PyStr.strip (PyStr.lower query) in
  let wrapped := "SELECT COUNT(*) as count FROM (" +++ query +++ ") as subquery" in
  if PyStr.startswith query_lower "select" then
    match PyStr.find query_lower "from" with
    | Some from_index =>
        "SELECT COUNT(*) as count FROM " +++ PyStr.slice_from (from_index + 4) query
    | None => wrapped
    end
  else wrapped.

(** [count_results[0]['count'] if count_results else 0] *)
Definition derived_count (count_results : option (list Row)) : Result Value :=
  match count_results with
  | Some (r :: _) => Py.getitem r "count"
  | _ => Ok (VInt 0)
  end.

(** [f"Result set too small: {count} < {self.min_size}"] *)
Definition too_small `{PyRuntime} (count : Value) (min_size : Z) : string :=
  "Result set too small: " +++ Py.str count +++ " < " +++ PyStr.of_int min_size.

Definition aggregate `{PyRuntime} (username : string) (min_size : Z) (query : string)
    (params : option (list Value)) (user password : option string) : M Outcome :=
  let count_query := _convert_to_count_query query in
  '(count_results, blocked, reason) <-
    AggregationMethod.execute_with_logging username count_query params user password ;;
  if blocked then
    ret (mkOutcome "Minimum Size Restriction" true reason None None
           (Some ("min_size=" +++ PyStr.of_int min_size)))
  else
    count <- lift (derived_count count_results) ;;
    small <- lift (Py.lt_int count min_size) ;;
    if small then
      Database.log_query_audit username query count true
        (Some (too_small count min_size)) ;;
      ret (mkOutcome "Minimum Size Restriction" true
             (Some (too_small count min_size)) None None
             (Some ("min_size=" +++ PyStr.of_int min_size)))
    else
      '(results, blocked, reason) <-
        AggregationMethod.execute_with_logging username query params user password ;;
      ret (mkOutcome "Minimum Size Restriction" blocked reason results None
             (Some ("min_size=" +++ PyStr.of_int min_size +++ ", actual_size="
                      +++ Py.str count))).

End MinimumSizeRestriction.

(** numpy's check of a scale: it refuses one whose sign bit is set, negative
    zero included, unless it is a NaN. *)
Definition negative_scale (scale : float) : bool :=
  match Prim2SF scale with
  | S754_zero s | S754_infinity s | S754_finite s _ _ => s
  | S754_nan => false
  end.

(** [np.random.laplace(loc, scale)]: numpy refuses a negative scale; the
    sample itself is the world's. *)
Definition laplace (loc scale : float) : M float :=
  fun w =>
    if negative_scale scale then (Raise (ValueError "scale < 0"), w)
    else (Ok (np_laplace w (draws w) loc scale), drawn w).

Module DifferentialPrivacy.

(** [1 / self.epsilon] *)
Definition scale (epsilon : float) : Result float :=
  if (epsilon =? 0)%float then Raise (ZeroDivisionError "float division by zero")
  else Ok (1 / epsilon)%float.

(** The body of the loop over [row.items()]. *)
Definition noisy_item (epsilon : float) (item : string * Value) : M (string * Value) :=
  let '(key, value) := item in
  if Py.is_int_or_float value then
    b <- lift (scale epsilon) ;;
    noise <- laplace 0 b ;;
    noisy <- lift (Py.add_float value noise) ;;
    ret (key, noisy)
  else ret (key, value).

Definition aggregate `{PyRuntime} (username : string) (epsilon : float) (query : string)
    (params : option (list Value)) (user password : option string) : M Outcome :=
  '(results, blocked, reason) <-
    AggregationMethod.execute_with_logging username query params user password ;;
  if blocked || negb (truthy results) then
    ret (mkOutcome "Differential Privacy" blocked reason None None
           (Some ("epsilon=" +++ str_of_float epsilon)))
  else
    noisy_results <- mapM (mapM (noisy_item epsilon)) (match results with
                                                       | Some rs => rs
                                                       | None => []
                                                       end) ;;
    ret (mkOutcome "Differential Privacy" false None (Some noisy_results) results
           (Some ("epsilon=" +++ str_of_float epsilon +++ ", laplace_noise_added"))).

End DifferentialPrivacy.

Module OverlapControl.

Definition hex_digit (c : ascii) : option Z :=
  let n := PyStr.code c in
  if ((48 <=? n) && (n <=? 57))%N then Some (Z.of_N n - 48)
  else if ((97 <=? n) && (n <=? 102))%N then Some (Z.of_N n - 87)
  else if ((65 <=? n) && (n <=? 70))%N then Some (Z.of_N n - 55)
  else None.

(** Hex digits with single underscores between them. *)
Fixpoint hex_digits (s : string) (acc : Z) (after_digit : bool) : option Z :=
  match s with
  | EmptyString => if after_digit then Some acc else None
  | String c s' =>
      if Ascii.eqb c "_" then
        if after_digit then hex_digits s' acc false else None
      else match hex_digit c with
           | Some d => hex_digits s' (16 * acc + d) true
           | None => None
           end
  end.

Definition unsigned16 (s : string) : option Z :=
  match s with
  | String "0" (String x s') =>
      if Ascii.eqb x "x" || Ascii.eqb x "X" then
        match s' with
        | String "_" s'' => hex_digits s'' 0 false
        | _ => hex_digits s' 0 false
        end
      else hex_digits s 0 false
  | _ => hex_digits s 0 false
  end.

(** [int(s, 16)] *)
Definition int16 (s : string) : Result Z :=
  let body := PyStr.strip s in
  let parsed :=
    match body with
    | String "-" s' => option_map Z.opp (unsigned16 s')
    | String "+" s' => unsigned16 s'
    | _ => unsigned16 body
    end in
  match parsed with
  | Some n => Ok n
  | None => Raise (ValueError ("invalid literal for int() with base 16: '" +++ s +++ "'"))
  end.

Fixpoint bits (p : positive) (acc : string) : string :=
  match p with
  | xH => String "1" acc
  | xO q => bits q (String "0" acc)
  | xI q => bits q (String "1" acc)
  end.

(** [bin(n)] *)
Definition bin (n : Z) : string :=
  match n with
  | Z0 => "0b0"
  | Zpos p => "0b" +++ bits p ""
  | Zneg p => "-0b" +++ bits p ""
  end.

Fixpoint zeros (n : nat) (s : string) : string :=
  match n with
  | O => s
  | S n' => String "0" (zeros n' s)
  end.

(** [s.zfill(width)] *)
Definition zfill (width : nat) (s : string) : string :=
  let pad := (width - String.length s)%nat in
  match s with
  | String c s' =>
      if Ascii.eqb c "+" || Ascii.eqb c "-" then String c (zeros pad s')
      else zeros pad s
  | EmptyString => zeros pad s
  end.

(** [sum(b1 == b2 for b1, b2 in zip(bin1, bin2))] *)
Fixpoint matches (bin1 bin2 : string) : Z :=
  match bin1, bin2 with
  | String b1 r1, String b2 r2 =>
      (if Ascii.eqb b1 b2 then 1 else 0) + matches r1 r2
  | _, _ => 0
  end.

Definition _calculate_overlap (hash1 hash2 : string) : Result float :=
  let? n1 := int16 hash1 in
  let bin1 := zfill 256 (PyStr.slice_from 2 (bin n1)) in
  let? n2 := int16 hash2 in
  let bin2 := zfill 256 (PyStr.slice_from 2 (bin n2)) in
  Ok (Py.float_of_Z (matches bin1 bin2) / Py.float_of_Z 256)%float.

(** The loop over [history]: the overlap of the first entry above the
    threshold, if there is one. *)
Fixpoint first_overlap (overlap_threshold : float) (current_hash : string)
    (history : list HistoryEntry) : Result (option float) :=
  match history with
  | [] => Ok None
  | hist_entry :: rest =>
      match result_set_hash hist_entry with
      | Some (String c h) =>
          let? overlap := _calculate_overlap current_hash (String c h) in
          if (overlap_threshold <? overlap)%float then Ok (Some overlap)
          else first_overlap overlap_threshold current_hash rest
      | _ => first_overlap overlap_threshold current_hash rest
      end
  end.

Definition aggregate `{PyRuntime} (username : string) (overlap_threshold : float)
    (query : string) (params : option (list Value)) (user password : option string)
  : M Outcome :=
  history <- Database.get_query_history username 20 ;;
  '(results, blocked, reason) <-
    AggregationMethod.execute_with_logging username query params user password ;;
  if blocked || negb (truthy results) then
    ret (mkOutcome "Overlap Control" blocked reason None None
           (Some ("threshold=" +++ str_of_float overlap_threshold)))
  else
    let rows := match results with Some rs => rs | None => [] end in
    let current_hash := Database.hash_result_set rows in
    hit <- lift (first_overlap overlap_threshold current_hash history) ;;
    match hit with
    | Some overlap =>
        Database.log_query_audit username query
          (VInt (Z.of_nat (List.length rows))) true
          (Some ("Query overlap too high: " +++ format_2f overlap +++ " > "
                   +++ str_of_float overlap_threshold)) ;;
        ret (mkOutcome "Overlap Control" true
               (Some ("Query overlap too high: " +++ format_2f overlap))
               None None
               (Some ("threshold=" +++ str_of_float overlap_threshold)))
    | None =>
        Database.store_query_history username query results ;;
        ret (mkOutcome "Overlap Control" false None results None
               (Some ("threshold=" +++ str_of_float overlap_threshold
                        +++ ", overlap_acceptable")))
    end.

End OverlapControl.

Module CellSuppression.

(** The first key whose lower-cased name contains "count". *)
Fixpoint count_col (row : Row) : option string :=
  match row with
  | [] => None
  | (key, _) :: rest =>
      if PyStr.contains (PyStr.lower key) "count" then Some key else count_col rest
  end.

(** [{k: ('SUPPRESSED' if k != count_col else None) for k in row.keys()}] *)
Definition suppressed_row (count_col : string) (row : Row) : Row :=
  map (fun '(k, _) => (k, if String.eqb k count_col then VNone else VStr "SUPPRESSED"))
    row.

(** The body of the loop over [results]: the row to append and whether it
    was suppressed. *)
Definition suppress_row (min_cell_size : Z) (row : Row) : Result (Row * bool) :=
  match count_col row with
  | Some c =>
      if String.eqb c "" then Ok (row, false)
      else
        let? v := Py.getitem row c in
        let? small := Py.lt_int v min_cell_size in
        Ok (if small then (suppressed_row c row, true) else (row, false))
  | None => Ok (row, false)
  end.

(** The loop over [results]: [suppressed_results] and [suppressed_count]. *)
Fixpoint suppress (min_cell_size : Z) (results : list Row) : Result (list Row * Z) :=
  match results with
  | [] => Ok ([], 0)
  | row :: rest =>
      let? r := suppress_row min_cell_size row in
      let? acc := suppress min_cell_size rest in
      Ok (fst r :: fst acc, (if snd r then 1 else 0) + snd acc)
  end.

Definition aggregate (username : string) (min_cell_size : Z) (query : string)
    (params : option (list Value)) (user password : option string)
    (group_by_column : option string) : M Outcome :=
  '(results, blocked, reason) <-
    AggregationMethod.execute_with_logging username query params user password ;;
  if blocked || negb (truthy results) then
    ret (mkOutcome "Cell Suppression" blocked reason None None
           (Some ("min_cell_size=" +++ PyStr.of_int min_cell_size)))
  else
    '(suppressed_results, suppressed_count) <-
      lift (suppress min_cell_size (match results with Some rs => rs | None => [] end)) ;;
    ret (mkOutcome "Cell Suppression" false None (Some suppressed_results) results
           (Some ("min_cell_size=" +++ PyStr.of_int min_cell_size +++ ", suppressed="
                    +++ PyStr.of_int suppressed_count))).

End CellSuppression.

(** ** src/attacks.py *)

Module InferenceAttack.

(** [InferenceAttack.execute_query]: the failure is printed and [None]
    returned. *)
Definition execute_query (query : string) (params : option (list Value))
    (user password : option string) : M (option (list Row)) :=
  try_except (Database.execute_query query params user password true)
    (fun e => ret None).

End InferenceAttack.

Module DifferencingAttack.

(** The dict [attack] returns; a field is [None] when its key is absent or
    holds [None]. *)
Record AttackResult : Type := mkResult {
  attack_type : string;
  success : bool;
  reason : option string;
  target : option string;
  department : option string;
  inferred_salary : option float;
  actual_salary : option float;
  error : option float;
  queries_used : option Z
}.

Definition query1 : string :=
  "
            SELECT 
                AVG(salary) as avg_salary,
                COUNT(*) as emp_count
            FROM employees
            WHERE department = %s
        ".

Definition query2 : string :=
  "
            SELECT 
                AVG(salary) as avg_salary,
                COUNT(*) as emp_count
            FROM employees
            WHERE department = %s AND name != %s
        ".

Definition verify_query : string := "SELECT salary FROM employees WHERE name = %s".

Definition failed (why : string) : AttackResult :=
  mkResult "Differencing" false (Some why) None None None None None None.

(** [float(rows[0][key])] *)
Definition float_field `{PyRuntime} (rows : option (list Row)) (key : string)
  : Result float :=
  let? row := Py.first (match rows with Some rs => rs | None => [] end) in
  let? v := Py.getitem row key in
  Py.to_float v.

(** [rows[0][key]] *)
Definition field (rows : option (list Row)) (key : string) : Result Value :=
  let? row := Py.first (match rows with Some rs => rs | None => [] end) in
  Py.getitem row key.

(** Truth value of an optional float: [None] and zero are false. *)
Definition nonzero (x : option float) : bool :=
  match x with
  | Some y => negb (y =? 0)%float
  | None => false
  end.

Definition attack `{PyRuntime} (target_name department : string)
    (user password : option string) : M AttackResult :=
  results1 <- InferenceAttack.execute_query query1 (Some [VStr department])
                user password ;;
  if negb (truthy results1) then ret (failed "Failed to execute first query")
  else
    avg_with_target <- lift (float_field results1 "avg_salary") ;;
    total_count <- lift (field results1 "emp_count") ;;
    results2 <- InferenceAttack.execute_query query2
                  (Some [VStr department; VStr target_name]) user password ;;
    if negb (truthy results2) then ret (failed "Failed to execute second query")
    else
      avg_without_target <- lift (float_field results2 "avg_salary") ;;
      count_without <- lift (field results2 "emp_count") ;;
      with_sum <- lift (Py.float_mul avg_with_target total_count) ;;
      without_sum <- lift (Py.float_mul avg_without_target count_without) ;;
      let inferred_salary := (with_sum - without_sum)%float in
      actual <- InferenceAttack.execute_query verify_query (Some [VStr target_name])
                  user password ;;
      actual_salary <- lift (if truthy actual
                             then let? x := float_field actual "salary" in Ok (Some x)
                             else Ok None) ;;
      ret (mkResult "Differencing" true None (Some target_name) (Some department)
             (Some inferred_salary) actual_salary
             (match actual_salary with
              | Some x => if nonzero actual_salary
                          then Some (abs (inferred_salary - x))%float else None
              | None => None
              end)
             (Some 2)).

End DifferencingAttack.

Module SumAttack.

Record AttackResult : Type := mkResult {
  attack_type : string;
  success : bool;
  reason : option string;
  department : option string;
  total_sum : option float;
  known_sum : option Value;
  unknown_sum : option float;
  unknown_count : option Value;
  inferred_salaries : option (list (Value * float));
  queries_used : option Z
}.

Definition query1 : string :=
  "
            SELECT 
                SUM(salary) as total_salary,
                COUNT(*) as emp_count
            FROM employees
            WHERE department = %s
        ".

Definition query2 : string :=
  "
                SELECT name, salary
                FROM employees
                WHERE department = %s
            ".

(** Equality of dict keys: numbers by value, text by content. *)
Definition key_eqb (a b : Value) : bool :=
  match Py.to_num a, Py.to_num b with
  | Some x, Some y => match Py.num_compare x y with Some Eq => true | _ => false end
  | None, None =>
      match a, b with
      | VNone, VNone => true
      | VStr s, VStr t => String.eqb s t
      | VDate s, VDate t => String.eqb s t
      | _, _ => false
      end
  | _, _ => false
  end.

(** [d[key] = x] on a dict kept in insertion order. *)
Fixpoint setitem (d : list (Value * float)) (key : Value) (x : float)
  : list (Value * float) :=
  match d with
  | [] => [(key, x)]
  | (k, y) :: d' => if key_eqb k key then (k, x) :: d' else (k, y) :: setitem d' key x
  end.

(** [name in known_salaries], the keys being [str]. *)
Definition known (known_salaries : list (string * float)) (name : Value) : bool :=
  match name with
  | VStr s => existsb (fun kv => String.eqb (fst kv) s) known_salaries
  | _ => false
  end.

(** [sum(known_salaries.values())]: the int 0 plus each value in turn, each
    addition rounded (CPython from 3.12 on compensates the rounding errors
    of a float sum; the sums of the examples are exact either way). *)
Definition sum_values (known_salaries : list (string * float)) : Value :=
  match known_salaries with
  | [] => VInt 0
  | _ => VFloat (fold_left (fun acc kv => (acc + snd kv)%float) known_salaries 0%float)
  end.

(** The loop over [all_emps]. *)
Fixpoint infer `{PyRuntime} (known_salaries : list (string * float))
    (unknown_sum : float) (all_emps : list Row) (inferred : list (Value * float))
  : Result (list (Value * float)) :=
  match all_emps with
  | [] => Ok inferred
  | emp :: rest =>
      let? name := Py.getitem emp "name" in
      if negb (known known_salaries name) then
        let inferred' := setitem inferred name unknown_sum in
        let? salary := Py.getitem emp "salary" in
        let? actual_salary := Py.to_float salary in
        infer known_salaries unknown_sum rest inferred'
      else infer known_salaries unknown_sum rest inferred
  end.

Definition attack `{PyRuntime} (department : string)
    (known_salaries : list (string * float)) (user password : option string)
  : M AttackResult :=
  result1 <- InferenceAttack.execute_query query1 (Some [VStr department])
               user password ;;
  if negb (truthy result1) then
    ret (mkResult "SUM" false (Some "Failed to get department totals")
           None None None None None None None)
  else
    total_sum <- lift (DifferencingAttack.float_field result1 "total_salary") ;;
    total_count <- lift (DifferencingAttack.field result1 "emp_count") ;;
    let known_sum := sum_values known_salaries in
    let known_count := Z.of_nat (List.length known_salaries) in
    let unknown_sum :=
      (total_sum - match known_sum with VFloat x => x | _ => 0 end)%float in
    unknown_count <- lift (Py.sub_int total_count known_count) ;;
    positive <- lift (Py.gt_int unknown_count 0) ;;
    lift (if positive
          then let? avg_unknown := Py.float_div unknown_sum unknown_count in Ok tt
          else Ok tt) ;;
    inferred_salaries <-
      (if Py.eq_int unknown_count 1 then
         all_emps <- InferenceAttack.execute_query query2 (Some [VStr department])
                       user password ;;
         match all_emps with
         | Some emps => lift (infer known_salaries unknown_sum emps [])
         | None => raise (TypeError "'NoneType' object is not iterable")
         end
       else ret []) ;;
    ret (mkResult "SUM" (Py.eq_int unknown_count 1) None (Some department)
           (Some total_sum) (Some known_sum) (Some unknown_sum) (Some unknown_count)
           (Some inferred_salaries) (Some 2)).

End SumAttack.

Module TrackerAttack.

Record AttackResult : Type := mkResult {
  attack_type : string;
  success : bool;
  reason : option string;
  target : option string;
  salary_threshold : option float;
  inferred_high_earner : option bool;
  actual_salary : option float;
  actual_high_earner : option bool;
  correct : option bool;
  queries_used : option Z
}.

Definition dept_query : string := "SELECT department FROM employees WHERE name = %s".

Definition query1 : string :=
  "
            SELECT COUNT(*) as high_earner_count
            FROM employees
            WHERE department = %s AND salary > %s
        ".

Definition query2 : string :=
  "
            SELECT COUNT(*) as high_earner_count
            FROM employees
            WHERE department = %s AND salary > %s AND name != %s
        ".

Definition verify_query : string := "SELECT salary FROM employees WHERE name = %s".

(** [result[0]['high_earner_count'] if result else 0] *)
Definition count_or_0 (result : option (list Row)) : Result Value :=
  match result with
  | Some (r :: _) => Py.getitem r "high_earner_count"
  | _ => Ok (VInt 0)
  end.

Definition attack `{PyRuntime} (target_name : string) (salary_threshold : float)
    (user password : option string) : M AttackResult :=
  dept_result <- InferenceAttack.execute_query dept_query (Some [VStr target_name])
                   user password ;;
  if negb (truthy dept_result) then
    ret (mkResult "Tracker" false (Some "Could not find target employee")
           None None None None None None None)
  else
    department <- lift (DifferencingAttack.field dept_result "department") ;;
    result1 <- InferenceAttack.execute_query query1
                 (Some [department; VFloat salary_threshold]) user password ;;
    count_with_all <- lift (count_or_0 result1) ;;
    result2 <- InferenceAttack.execute_query query2
                 (Some [department; VFloat salary_threshold; VStr target_name])
                 user password ;;
    count_without_target <- lift (count_or_0 result2) ;;
    is_high_earner <- lift (Py.gt count_with_all count_without_target) ;;
    actual <- InferenceAttack.execute_query verify_query (Some [VStr target_name])
                user password ;;
    actual_salary <- lift (if truthy actual
                           then let? x := DifferencingAttack.float_field actual "salary" in
                                Ok (Some x)
                           else Ok None) ;;
    let actual_is_high :=
      match actual_salary with
      | Some x => if DifferencingAttack.nonzero actual_salary
                  then Some (salary_threshold <? x)%float else None
      | None => None
      end in
    ret (mkResult "Tracker" true None (Some target_name) (Some salary_threshold)
           (Some is_high_earner) actual_salary actual_is_high
           (match actual_is_high with
            | Some b => Some (Bool.eqb is_high_earner b)
            | None => None
            end)
           (Some 2)).

End TrackerAttack.

(** [np.linalg.solve(A, b)] for a list of integer rows and a list of floats:
    the solution, or [None] where numpy raises LinAlgError.  A solution has
    one entry per row of [A]. *)
Class NumpyLinalg : Type := {
  linalg_solve : list (list Z) -> list float -> option (list float);
  linalg_solve_shape :
    forall A b x, linalg_solve A b = Some x -> List.length x = List.length A
}.

Module LinearSystemAttack.

(** One entry of the dict [results]. *)
Record Inference : Type := mkInference {
  inferred : float;
  actual : float;
  error : float;
  error_pct : float
}.

Record AttackResult : Type := mkResult {
  attack_type : string;
  success : bool;
  reason : option string;
  department : option string;
  employee_count : option Z;
  equations_used : option Z;
  results : option (list (Value * Inference));
  queries_used : option Z
}.

Definition emp_query : string :=
  "
            SELECT name, salary
            FROM employees
            WHERE department = %s
            ORDER BY name
        ".

Definition all_avg_query : string :=
  "
            SELECT AVG(salary) as avg_sal
            FROM employees
            WHERE department = %s
        ".

Definition query : string :=
  "
                SELECT AVG(salary) as avg_sal, COUNT(*) as cnt
                FROM employees
                WHERE department = %s AND name != %s
            ".

Definition failed (why : string) : AttackResult :=
  mkResult "Linear System" false (Some why) None None None None None.

(** [l[i] = x] on a list *)
Fixpoint set_index (l : list Z) (i : nat) (x : Z) : Result (list Z) :=
  match l, i with
  | [], _ => Raise (IndexError "list assignment index out of range")
  | _ :: l', O => Ok (x :: l')
  | y :: l', S i' => let? r := set_index l' i' x in Ok (y :: r)
  end.

(** [x[i]] on an array *)
Definition index (x : list float) (i : nat) : Result float :=
  match nth_error x i with
  | Some y => Ok y
  | None =>
      Raise (IndexError ("index " +++ PyStr.of_int (Z.of_nat i)
                           +++ " is out of bounds for axis 0 with size "
                           +++ PyStr.of_int (Z.of_nat (List.length x))))
  end.

(** The loop that excludes each employee in turn, from employee [i] on:
    [equations] and [constants] grow by one entry for every query that
    returns rows. *)
Fixpoint exclusions `{PyRuntime} (target_department : string) (n : nat)
    (user password : option string) (i : nat) (employees : list Row)
    (equations : list (list Z)) (constants : list float)
  : M (list (list Z) * list float) :=
  match employees with
  | [] => ret (equations, constants)
  | emp :: rest =>
      name <- lift (Py.getitem emp "name") ;;
      result <- InferenceAttack.execute_query query
                  (Some [VStr target_department; name]) user password ;;
      if truthy result then
        equation <- lift (set_index (repeat 1 n) i 0) ;;
        avg_sal <- lift (DifferencingAttack.float_field result "avg_sal") ;;
        cnt <- lift (DifferencingAttack.field result "cnt") ;;
        constant <- lift (Py.float_mul avg_sal cnt) ;;
        exclusions target_department n user password (S i) rest
          (equations ++ [equation]) (constants ++ [constant])
      else
        exclusions target_department n user password (S i) rest equations constants
  end.

(** The equations gathered for a department of [n] employees: the one over
    all employees, then the exclusions. *)
Definition gather `{PyRuntime} (target_department : string) (n : nat)
    (user password : option string) (employees : list Row)
  : M (list (list Z) * list float) :=
  result <- InferenceAttack.execute_query all_avg_query
              (Some [VStr target_department]) user password ;;
  '(equations, constants) <-
    (if truthy result then
       avg_sal <- lift (DifferencingAttack.float_field result "avg_sal") ;;
       constant <- lift (Py.float_mul avg_sal (VInt (Z.of_nat n))) ;;
       ret ([repeat 1 n], [constant])
     else ret ([], [])) ;;
  exclusions target_department n user password 0 employees equations constants.

(** [d[key] = x] on a dict kept in insertion order. *)
Fixpoint setitem (d : list (Value * Inference)) (key : Value) (x : Inference)
  : list (Value * Inference) :=
  match d with
  | [] => [(key, x)]
  | (k, y) :: d' =>
      if SumAttack.key_eqb k key then (k, x) :: d' else (k, y) :: setitem d' key x
  end.

(** The loop that compares the solution with the salaries, from employee
    [i] on. *)
Fixpoint compare `{PyRuntime} (inferred_salaries : list float) (i : nat)
    (employees : list Row) (results : list (Value * Inference))
  : Result (list (Value * Inference)) :=
  match employees with
  | [] => Ok results
  | emp :: rest =>
      let? inferred := index inferred_salaries i in
      let? salary := Py.getitem emp "salary" in
      let? actual := Py.to_float salary in
      let error := abs (inferred - actual)%float in
      let error_pct := (error / actual * 100)%float in
      let? name := Py.getitem emp "name" in
      compare inferred_salaries (S i) rest
        (setitem results name (mkInference inferred actual error error_pct))
  end.

Definition attack `{PyRuntime} `{NumpyLinalg} (target_department : string)
    (user password : option string) : M AttackResult :=
  employees <- InferenceAttack.execute_query emp_query (Some [VStr target_department])
                 user password ;;
  let emps := match employees with Some rs => rs | None => [] end in
  if negb (truthy employees) || (Z.of_nat (List.length emps) <? 2) then
    ret (failed "Not enough employees in department")
  else
    let n := List.length emps in
    '(equations, constants) <- gather target_department n user password emps ;;
    if (n <=? List.length equations)%nat then
      match linalg_solve (firstn n equations) (firstn n constants) with
      | Some inferred_salaries =>
          results <- lift (compare inferred_salaries 0 emps []) ;;
          ret (mkResult "Linear System" true None (Some target_department)
                 (Some (Z.of_nat n)) (Some (Z.of_nat (List.length equations)))
                 (Some results) (Some (Z.of_nat (List.length equations))))
      | None => ret (failed "System is singular or unsolvable")
      end
    else
      ret (failed ("Not enough equations ("
                     +++ PyStr.of_int (Z.of_nat (List.length equations)) +++ " < "
                     +++ PyStr.of_int (Z.of_nat n) +++ ")")).

End LinearSystemAttack.

Module AttackSuite.

(** The dict [run_all_attacks] returns, one field per key. *)
Record Results : Type := mkResults {
  differencing_alice : DifferencingAttack.AttackResult;
  tracker_bob : TrackerAttack.AttackResult;
  sum_operations : SumAttack.AttackResult;
  linear_finance : LinearSystemAttack.AttackResult
}.

Definition run_all_attacks `{PyRuntime} `{NumpyLinalg} (user password : option string)
  : M Results :=
  differencing <- DifferencingAttack.attack "Alice Johnson" "Engineering"
                    user password ;;
  tracker <- TrackerAttack.attack "Bob Smith" 90000%float user password ;;
  sum <- SumAttack.attack "Operations" [("Dana Cox", 72000%float)] user password ;;
  linear_system <- LinearSystemAttack.attack "Finance" user password ;;
  ret (mkResults differencing tracker sum linear_system).

End AttackSuite.

Module AggregationComparator.

(** [compare_all]: the five strategies in the order of the dict [methods],
    each with the parameters of [__init__]; 0.8 is written as the binary64
    it denotes. *)
Definition compare_all `{PyRuntime} (username query : string)
    (params : option (list Value)) (user password : option string)
  : M (list (string * Outcome)) :=
  no_protection <- NoProtection.aggregate username query params user password ;;
  min_size <- MinimumSizeRestriction.aggregate username 5 query params user password ;;
  differential_privacy <-
    DifferentialPrivacy.aggregate username 1%float query params user password ;;
  overlap_control <-
    OverlapControl.aggregate username 0x1.999999999999ap-1%float query params user
      password ;;
  cell_suppression <-
    CellSuppression.aggregate username 3 query params user password None ;;
  ret [("no_protection", no_protection); ("min_size", min_size);
       ("differential_privacy", differential_privacy);
       ("overlap_control", overlap_control);
       ("cell_suppression", cell_suppression)].

End AggregationComparator.

(** ** Assumptions on the store, and concrete stores *)

(** The store accepts every INSERT into [query_audit]. *)
Definition audit_accepted (w : World) : Prop :=
  forall n st msg, sql st = Database.audit_query -> pg w n st <> Rejected msg.

(** The store accepts every SELECT on [query_history]. *)
Definition history_readable (w : World) : Prop :=
  forall n st msg, sql st = Database.select_history_query -> pg w n st <> Rejected msg.

Module Fixtures.

Definition digest : string :=
  "e3b0c44298fc1c149afbf4c8996fb92427ae41e4649b934ca495991b7852b855".

(** A runtime for running examples: it prints the few floats the examples
    use, parses no text as a float and gives every text the same digest. *)
Definition runtime : PyRuntime :=
  {| float_of_str := fun _ => None;
     str_of_float := fun x => if (x =? 1)%float then "1.0" else "0.8";
     str_of_decimal := fun _ _ => "0";
     format_2f := fun x => if (x =? 1)%float then "1.00" else "0.50";
     str_sorted_rows := fun _ => "[]";
     sha256_hexdigest := fun _ => digest;
     sha256_hexdigest_shape := fun _ => eq_refl |}.

(** A fresh world around a store: empty tables, every sample 1.0. *)
Definition world (store : nat -> Statement -> Response) : World :=
  mkWorld store 0 [] [] (fun _ _ _ => 1%float) 0.

(** A store that answers every statement with the same rows. *)
Definition always (rs : list Row) : nat -> Statement -> Response :=
  fun _ _ => Rows rs.

(** A store that rejects one query text and answers the rest with rows. *)
Definition rejecting (query msg : string) (rs : list Row) : nat -> Statement -> Response :=
  fun _ st => if String.eqb (sql st) query then Rejected msg else Rows rs.

Definition salary_query : string :=
  "SELECT AVG(salary) as avg_sal FROM employees WHERE department = 'Engineering'".

(** A store that answers the count rewrite of a query with one count and
    the query itself with [answer]; every other statement is accepted. *)
Definition counted (query : string) (count : Z) (answer : Response)
  : nat -> Statement -> Response :=
  fun _ st =>
    if String.eqb (sql st) (MinimumSizeRestriction._convert_to_count_query query)
    then Rows [[("count", VInt count)]]
    else if String.eqb (sql st) query then answer
    else Rows [].

Definition bonus_query : string := "SELECT bonus FROM employees".

(** The default overlap threshold, 0.8 as a binary64. *)
Definition threshold : float := 0x1.999999999999ap-1%float.

(** A world in which the caller "system" has one history entry. *)
Definition seen (rs : list Row) : World :=
  mkWorld (always rs) 0 []
    [mkHistory "system" digest salary_query (Some digest)]
    (fun _ _ _ => 1%float) 0.

(** A store that answers the two aggregate queries of the Differencing
    attack with one row each, and every other statement with no rows. *)
Definition averages (avg1 : float) (n1 : Z) (avg2 : float) (n2 : Z)
  : nat -> Statement -> Response :=
  fun _ st =>
    if String.eqb (sql st) DifferencingAttack.query1
    then Rows [[("avg_salary", VFloat avg1); ("emp_count", VInt n1)]]
    else if String.eqb (sql st) DifferencingAttack.query2
    then Rows [[("avg_salary", VFloat avg2); ("emp_count", VInt n2)]]
    else Rows [].

(** The Operations department of the Sum attack example: five employees
    whose salaries sum to 350000. *)
Definition operations_staff : list Row :=
  [[("name", VStr "Dana Cox"); ("salary", VDecimal 7200000 (-2))];
   [("name", VStr "Ethan Howard"); ("salary", VDecimal 7500000 (-2))];
   [("name", VStr "Faye Ward"); ("salary", VDecimal 6800000 (-2))];
   [("name", VStr "Greg Torres"); ("salary", VDecimal 8000000 (-2))];
   [("name", VStr "Hana Lee"); ("salary", VDecimal 5500000 (-2))]].

Definition operations : nat -> Statement -> Response :=
  fun _ st =>
    if String.eqb (sql st) SumAttack.query1
    then Rows [[("total_salary", VDecimal 35000000 (-2)); ("emp_count", VInt 5)]]
    else if String.eqb (sql st) SumAttack.query2 then Rows operations_staff
    else Rows [].

(** A store that rejects the statements it receives at the given times and
    answers every other one with rows. *)
Definition failing_at (times : list nat) (msg : string) (rs : list Row)
  : nat -> Statement -> Response :=
  fun n _ => if existsb (Nat.eqb n) times then Rejected msg else Rows rs.

(** A store for the Tracker attack: the target's department, the two counts
    of high earners, and the target's salary for every other statement. *)
Definition tracked (department : string) (count_with_all count_without_target : Response)
    (salary : Value) : nat -> Statement -> Response :=
  fun _ st =>
    if String.eqb (sql st) TrackerAttack.dept_query
    then Rows [[("department", VStr department)]]
    else if String.eqb (sql st) TrackerAttack.query1 then count_with_all
    else if String.eqb (sql st) TrackerAttack.query2 then count_without_target
    else Rows [[("salary", salary)]].

(** A solver for running examples: Cramer's rule on two equations, and no
    solution for a system of another size or with determinant zero. *)
Definition solve2 (A : list (list Z)) (b : list float) : option (list float) :=
  match A, b with
  | [[a11; a12]; [a21; a22]], [b1; b2] =>
      let det := a11 * a22 - a12 * a21 in
      if det =? 0 then None
      else
        let d := Py.float_of_Z det in
        Some [((Py.float_of_Z a22 * b1 - Py.float_of_Z a12 * b2) / d)%float;
              ((Py.float_of_Z a11 * b2 - Py.float_of_Z a21 * b1) / d)%float]
  | _, _ => None
  end.

Definition solver : NumpyLinalg :=
  {| linalg_solve :=
       fun A b =>
         match solve2 A b with
         | Some x => if Nat.eqb (List.length x) (List.length A) then Some x else None
         | None => None
         end;
     linalg_solve_shape :=
       fun A b x =>
         match solve2 A b as s
               return match s with
                      | Some x0 =>
                          if Nat.eqb (List.length x0) (List.length A) then Some x0 else None
                      | None => None
                      end = Some x -> List.length x = List.length A
         with
         | Some x0 =>
             (if Nat.eqb (List.length x0) (List.length A) as c
                 return Nat.eqb (List.length x0) (List.length A) = c ->
                        (if c then Some x0 else None) = Some x ->
                        List.length x = List.length A
              then fun E H =>
                     eq_ind x0 (fun y => List.length y = List.length A)
                       (proj1 (Nat.eqb_eq _ _) E) x
                       (f_equal (fun o => match o with Some y => y | None => x0 end) H)
              else fun _ H =>
                     match H in _ = o return match o with
                                             | Some _ => List.length x = List.length A
                                             | None => True
                                             end
                     with eq_refl => I end) eq_refl
         | None =>
             fun H =>
               match H in _ = o return match o with
                                       | Some _ => List.length x = List.length A
                                       | None => True
                                       end
               with eq_refl => I end
         end |}.

(** The Finance department of a Linear System example: two employees, who
    earn 90000 and 70000. *)
Definition finance_staff : list Row :=
  [[("name", VStr "Ivy Chen"); ("salary", VDecimal 9000000 (-2))];
   [("name", VStr "Jack Moore"); ("salary", VDecimal 7000000 (-2))]].

Definition finance : nat -> Statement -> Response :=
  fun _ st =>
    if String.eqb (sql st) LinearSystemAttack.emp_query then Rows finance_staff
    else if String.eqb (sql st) LinearSystemAttack.all_avg_query
    then Rows [[("avg_sal", VFloat 80000)]]
    else if String.eqb (sql st) LinearSystemAttack.query then
      match args st with
      | Some [_; VStr "Ivy Chen"] => Rows [[("avg_sal", VFloat 70000); ("cnt", VInt 1)]]
      | _ => Rows [[("avg_sal", VFloat 90000); ("cnt", VInt 1)]]
      end
    else Rows [].

End Fixtures.

(** ** What the claims speak about *)



(** [blocked=true] implies that the rows are absent. *)
Definition rows_absent_when_blocked (o : Outcome) : Prop :=
  blocked o = true -> results o = None.

(** [blocked=false] implies that the rows are present. *)
Definition rows_present_when_unblocked (o : Outcome) : Prop :=
  blocked o = false -> results o <> None.

(** A column name that contains "count", in any letter case. *)
Definition count_like (name : string) : bool :=
  PyStr.contains (PyStr.lower name) "count".

(** The column Cell Suppression tests in a row: the first one, in column
    order, whose name is count-like. *)
Definition tested_column (row : Row) (c : string) (v : Value) : Prop :=
  exists pre post,
    row = (pre ++ (c, v) :: post)%list /\
    count_like c = true /\
    Forall (fun kv => count_like (fst kv) = false) pre.

Definition no_count_column (row : Row) : Prop :=
  Forall (fun kv => count_like (fst kv) = false) row.

(** A row with its count column set to null and every other column replaced
    by the suppression marker. *)
Definition suppressed (c : string) (row out : Row) : Prop :=
  map fst out = map fst row /\
  forall k x, In (k, x) out -> x = if String.eqb k c then VNone else VStr "SUPPRESSED".

(** What Cell Suppression does to one row. *)
Definition cell_rule (min_cell_size : Z) (row out : Row) : Prop :=
  (forall c v, tested_column row c v -> Py.lt_int v min_cell_size = Ok true ->
               suppressed c row out) /\
  (forall c v, tested_column row c v -> Py.lt_int v min_cell_size = Ok false ->
               out = row) /\
  (no_count_column row -> out = row).

(** The tested column of every row holds a number. *)
Definition counts_are_numbers (rows : list Row) : Prop :=
  Forall (fun row => forall c v, tested_column row c v -> Py.to_num v <> None) rows.

(** Fields that receive noise among a sequence of fields. *)
Definition count_noised (fields : Row) : nat :=
  List.length (filter (fun kv => Py.is_int_or_float (snd kv)) fields).

(** Samples drawn before field [j] of row [i] is reached, rows and fields
    being visited in order. *)
Definition drawn_before (rows : list Row) (i j : nat) : nat :=
  (count_noised (List.concat (firstn i rows)) + count_noised (firstn j (nth i rows [])))%nat.

(** An [int] that float arithmetic can take. *)
Definition in_float_range (v : Value) : Prop :=
  match v with
  | VInt n => is_infinity (Py.float_of_Z n) = false
  | _ => True
  end.

(** The world after [k] more samples. *)
Definition after_draws (k : nat) (w : World) : World :=
  mkWorld (pg w) (clock w) (query_audit w) (query_history w) (np_laplace w)
    (k + draws w).

(** What Differential Privacy does to one value, given the sample drawn
    for it. *)
Definition noised (noise : float) (v v' : Value) : Prop :=
  if Py.is_int_or_float v then Py.add_float v noise = Ok v' else v' = v.

(** The store accepts every INSERT into [query_history]. *)
Definition history_writable (w : World) : Prop :=
  forall n st msg, sql st = Database.history_query -> pg w n st <> Rejected msg.

(** Every result-set hash stored in [query_history] is a SHA-256 digest. *)
Definition history_well_formed (w : World) : Prop :=
  Forall (fun e => forall x, result_set_hash e = Some x -> is_hexdigest x = true)
    (query_history w).

(** The verification query of an attack does not raise: it fails, returns
    nothing, or returns a salary that [float] accepts. *)
Definition verifiable `{PyRuntime} (answer : Response) : Prop :=
  match answer with
  | Rows (r :: rs) =>
      exists x, DifferencingAttack.float_field (Some (r :: rs)) "salary" = Ok x
  | _ => True
  end.

(** A query that returned no rows: it failed, or its result is empty. *)
Definition no_rows (answer : Response) : Prop :=
  match answer with
  | Rows (_ :: _) => False
  | _ => True
  end.

(** A check of [counts_are_numbers] that runs. *)
Definition tested_is_number (row : Row) : bool :=
  match CellSuppression.count_col row with
  | Some c =>
      match Py.getitem row c with
      | Ok v => match Py.to_num v with Some _ => true | None => false end
      | Raise _ => false
      end
  | None => true
  end.

(** A check of the range assumption that runs. *)
Definition fits_float (kv : string * Value) : bool :=
  match snd kv with
  | VInt n => negb (is_infinity (Py.float_of_Z n))
  | _ => true
  end.

(** A check of [history_well_formed] that runs. *)
Definition stored_digest (e : HistoryEntry) : bool :=
  match result_set_hash e with
  | Some x => is_hexdigest x
  | None => true
  end.

(** A computation that leaves every stored result-set hash a digest. *)
Definition keeps_history_well_formed {A} (c : M A) : Prop :=
  forall w, history_well_formed w -> history_well_formed (snd (c w)).

(** ** What the further properties speak about *)

(** What a computation may write: rows of [query_audit], rows of
    [query_history], samples of the generator. *)
Record Footprint : Type := mkFootprint {
  writes_audit : bool;
  writes_history : bool;
  draws_samples : bool
}.

(** [w'] comes after [w] within a footprint: the store and the generator
    are the same, both tables have only grown at their recent end, and what
    the footprint does not name is unchanged. *)
Definition within (f : Footprint) (w w' : World) : Prop :=
  pg w' = pg w /\
  np_laplace w' = np_laplace w /\
  (clock w <= clock w')%nat /\
  (exists new, query_audit w' = (new ++ query_audit w)%list /\
               (writes_audit f = false -> new = [])) /\
  (exists new, query_history w' = (new ++ query_history w)%list /\
               (writes_history f = false -> new = [])) /\
  (draws w <= draws w')%nat /\
  (draws_samples f = false -> draws w' = draws w).

(** A computation that stays within a footprint, whether it returns or
    raises. *)
Definition confined {A} (f : Footprint) (c : M A) : Prop :=
  forall w, within f w (snd (c w)).

(** The most recent row of [query_audit] is the caller's and records the
    blocked flag of the outcome. *)
Definition last_audit_agrees (username : string) (o : Outcome) (w : World) : Prop :=
  exists r rest,
    query_audit w = r :: rest /\
    a_username r = username /\
    a_was_blocked r = blocked o.

(** A history entry whose stored result-set hash is more similar to a hash
    than the threshold allows. *)
Definition too_similar (threshold : float) (current_hash : string) (e : HistoryEntry)
  : Prop :=
  exists h overlap,
    result_set_hash e = Some h /\
    OverlapControl._calculate_overlap current_hash h = Ok overlap /\
    (threshold <? overlap)%float = true.

(** The binary digits of a number at the positions below [k], the highest
    position first. *)
Fixpoint bit_string (n : Z) (k : nat) : string :=
  match k with
  | O => EmptyString
  | S k' => String (if Z.testbit n (Z.of_nat k') then "1" else "0")%char (bit_string n k')
  end.

(** The number of bit positions below [k] at which two numbers agree. *)
Fixpoint agreeing (n1 n2 : Z) (k : nat) : Z :=
  match k with
  | O => 0
  | S k' =>
      (if Bool.eqb (Z.testbit n1 (Z.of_nat k')) (Z.testbit n2 (Z.of_nat k'))
       then 1 else 0) + agreeing n1 n2 k'
  end.

(** [overlap_threshold = 0.8], the default of [OverlapControl.__init__], as
    the binary64 it denotes. *)
Definition default_overlap_threshold : float := 0x1.999999999999ap-1%float.

(** A result with a field that Differential Privacy adds noise to. *)
Definition has_noised_field (rows : list Row) : bool :=
  existsb (existsb (fun kv => Py.is_int_or_float (snd kv))) rows.

(** A row whose tested column, the first count-like one, holds a number
    below the minimum cell size. *)
Definition small_cell (min_cell_size : Z) (row : Row) : bool :=
  match List.find (fun kv => count_like (fst kv)) row with
  | Some (_, v) =>
      match Py.lt_int v min_cell_size with
      | Ok true => true
      | _ => false
      end
  | None => false
  end.

(** What an attack gets back for a statement: the rows, or [None] when the
    store rejects it. *)
Definition returned (answer : Response) : option (list Row) :=
  match answer with
  | Rows rs => Some rs
  | Rejected _ => None
  end.

(** A listed employee whose salary is a value that [float] accepts. *)
Definition listed_salary `{PyRuntime} (emp : Row) : Prop :=
  exists salary x, Py.getitem emp "salary" = Ok salary /\ Py.to_float salary = Ok x.

(** A check that runs: the name is text, and the salary a value that
    [float] accepts unless the name is among the given ones. *)
Definition listed_employee `{PyRuntime} (names : list string) (emp : Row) : bool :=
  match Py.getitem emp "name" with
  | Ok (VStr s) =>
      existsb (String.eqb s) names ||
      match Py.getitem emp "salary" with
      | Ok salary => match Py.to_float salary with Ok _ => true | Raise _ => false end
      | Raise _ => false
      end
  | _ => false
  end.

(** The equation over [n] employees that leaves out employee [i]: every
    coefficient 1 but the one at position [i]. *)
Definition exclusion (n i : nat) : list Z :=
  map (fun j => if Nat.eqb j i then 0 else 1) (seq 0 n).

(** The left-hand side of an equation at a vector of salaries. *)
Fixpoint dot (row x : list Z) : Z :=
  match row, x with
  | a :: row', v :: x' => a * v + dot row' x'
  | _, _ => 0
  end.

(** The world once the store has received [k] more statements. *)
Fixpoint ticks (k : nat) (w : World) : World :=
  match k with
  | O => w
  | S k' => tick (ticks k' w)
  end.

(** The exclusion query for an employee, sent at a given time, returns a
    row whose average and count multiply to the constant [c]. *)
Definition exclusion_answered `{PyRuntime} (w : World) (target_department : string)
    (user password : option string) (time : nat) (emp : Row) (c : float) : Prop :=
  exists name rows avg_sal cnt,
    Py.getitem emp "name" = Ok name /\
    pg w time (mkStatement LinearSystemAttack.query
                 (Some [VStr target_department; name]) user password) = Rows rows /\
    truthy (Some rows) = true /\
    DifferencingAttack.float_field (Some rows) "avg_sal" = Ok avg_sal /\
    DifferencingAttack.field (Some rows) "cnt" = Ok cnt /\
    Py.float_mul avg_sal cnt = Ok c.

(** The sum of a vector. *)
Definition total (x : list Z) : Z := fold_right Z.add 0 x.

(** ** The gateway and the audit table *)

Ltac run :=
  unfold Database.log_query_audit, Database.insert_audit, Database.execute_query;
  unfold bind, ret, raise, lift, try_except; simpl.

Ltac case_pg w E :=
  match goal with
  | |- context [pg w ?n ?st] => destruct (pg w n st) eqn:E
  end.

Lemma log_query_audit_accepted (w : World) username query count was_blocked why :
  audit_accepted w ->
  Database.log_query_audit username query count was_blocked why w =
    (Ok tt, add_audit (mkAudit username query count was_blocked why) (tick w)).
Proof.
  intros Hacc. run. case_pg w E; [reflexivity|].
  exfalso. eapply Hacc; [|exact E]. reflexivity.
Qed.

Lemma gateway_rows (w : World) username query params user password rs :
  audit_accepted w ->
  pg w (clock w) (mkStatement query params user password) = Rows rs ->
  AggregationMethod.execute_with_logging username query params user password w =
    (Ok (Some rs, false, None),
     add_audit (mkAudit username query (VInt (Z.of_nat (List.length rs))) false None)
       (tick (tick w))).
Proof.
  intros Hacc Hpg. unfold AggregationMethod.execute_with_logging.
  unfold try_except, bind at 1. unfold Database.execute_query at 1. rewrite Hpg.
  unfold bind. rewrite (log_query_audit_accepted (tick w)) by exact Hacc.
  reflexivity.
Qed.

Lemma gateway_rejected (w : World) username query params user password msg :
  audit_accepted w ->
  pg w (clock w) (mkStatement query params user password) = Rejected msg ->
  AggregationMethod.execute_with_logging username query params user password w =
    (Ok (None, true, Some msg),
     add_audit (mkAudit username query (VInt 0) true (Some msg)) (tick (tick w))).
Proof.
  intros Hacc Hpg. unfold AggregationMethod.execute_with_logging.
  unfold try_except, bind at 1. unfold Database.execute_query at 1. rewrite Hpg.
  unfold bind. simpl str_exn.
  rewrite (log_query_audit_accepted (tick w)) by exact Hacc.
  reflexivity.
Qed.

Lemma attack_query_keeps_audit (w : World) query params user password :
  query_audit (snd (InferenceAttack.execute_query query params user password w)) =
    query_audit w.
Proof.
  unfold InferenceAttack.execute_query. run. case_pg w E; reflexivity.
Qed.

(** C2, as amended: every query a protection strategy executes through
    [execute_with_logging] leaves exactly one new row in [query_audit], with
    the caller, the query text, the result count, the blocked flag and the
    reason, on the success path and on the failure path alike, provided the
    store accepts the audit INSERT; a query an attack executes through
    [InferenceAttack.execute_query] leaves no row at all. *)
Theorem gateway_audits_once (w : World) username query params user password :
  audit_accepted w ->
  (forall rs,
      pg w (clock w) (mkStatement query params user password) = Rows rs ->
      exists w',
        AggregationMethod.execute_with_logging username query params user password w =
          (Ok (Some rs, false, None), w') /\
        query_audit w' =
          mkAudit username query (VInt (Z.of_nat (List.length rs))) false None
            :: query_audit w) /\
  (forall msg,
      pg w (clock w) (mkStatement query params user password) = Rejected msg ->
      exists w',
        AggregationMethod.execute_with_logging username query params user password w =
          (Ok (None, true, Some msg), w') /\
        query_audit w' =
          mkAudit username query (VInt 0) true (Some msg) :: query_audit w) /\
  query_audit (snd (InferenceAttack.execute_query query params user password w)) =
    query_audit w.
Proof.
  intros Hacc. split; [|split].
  - intros rs Hpg. eexists. split; [apply gateway_rows; assumption|reflexivity].
  - intros msg Hpg. eexists. split; [apply gateway_rejected; assumption|reflexivity].
  - apply attack_query_keeps_audit.
Qed.

Lemma always_audit_accepted rs : audit_accepted (Fixtures.world (Fixtures.always rs)).
Proof. intros n st msg _. discriminate. Qed.

Lemma gateway_audits_once_witness :
  exists w',
    AggregationMethod.execute_with_logging "system" Fixtures.salary_query None None None
      (Fixtures.world (Fixtures.always [[("avg_sal", VInt 70000)]])) =
      (Ok (Some [[("avg_sal", VInt 70000)]], false, None), w') /\
    query_audit w' = [mkAudit "system" Fixtures.salary_query (VInt 1) false None].
Proof.
  exact (proj1 (gateway_audits_once
                  (Fixtures.world (Fixtures.always [[("avg_sal", VInt 70000)]]))
                  "system" Fixtures.salary_query None None None
                  (always_audit_accepted _)) _ eq_refl).
Defined.

(** C2 as stated fails: an attack's query reaches the store and no audit row
    is written. *)
Lemma attack_query_not_audited :
  let w := Fixtures.world (Fixtures.always [[("avg_sal", VInt 70000)]]) in
  let run := InferenceAttack.execute_query Fixtures.salary_query None None None w in
  fst run = Ok (Some [[("avg_sal", VInt 70000)]]) /\
  clock (snd run) = S (clock w) /\
  query_audit (snd run) = [].
Proof. repeat split. Qed.

(** ** Strings: the count rewrite *)

Section StringFacts.

Local Open Scope nat_scope.













End StringFacts.

Lemma app_assoc_str (a b c : string) : (a +++ b) +++ c = a +++ b +++ c.
Proof. induction a as [|x a IH]; simpl; [reflexivity|now rewrite IH]. Qed.


Lemma find_none_contains (s p : string) :
  PyStr.contains s p = false <-> PyStr.find s p = None.
Proof.
  unfold PyStr.contains. destruct (PyStr.find s p); split; congruence.
Qed.




(** ** Minimum Size Restriction *)

Ltac step := cbv beta iota delta [bind lift ret raise].

Lemma lt_int_int (c k : Z) : Py.lt_int (VInt c) k = Ok (c <? k).
Proof.
  unfold Py.lt_int. simpl. rewrite !Z.mul_1_r. unfold Z.ltb.
  destruct (c ?= k); reflexivity.
Qed.

(** C3, as amended: when the derived count is at least the configured minimum
    and the gateway then executes the query, Minimum Size Restriction does
    not block and returns the executed rows; when the derived count is at
    least the minimum and the store rejects the query, the outcome is blocked
    with the store's message; when the derived count is below the minimum, it
    blocks without executing the query and its block_reason gives the exact
    count and the configured threshold.  The store is assumed to accept the
    audit INSERTs. *)
Theorem minimum_size_blocks_exactly_small `{PyRuntime} (w : World)
    (username : string) (min_size : Z) (query : string)
    (params : option (list Value)) (user password : option string)
    (count_rows : list Row) (c : Z) :
  let count_query := MinimumSizeRestriction._convert_to_count_query query in
  let run :=
    MinimumSizeRestriction.aggregate username min_size query params user password w in
  audit_accepted w ->
  pg w (clock w) (mkStatement count_query params user password) = Rows count_rows ->
  MinimumSizeRestriction.derived_count (Some count_rows) = Ok (VInt c) ->
  (min_size <= c ->
   forall rs,
     pg w (S (S (clock w))) (mkStatement query params user password) = Rows rs ->
     fst run =
       Ok (mkOutcome "Minimum Size Restriction" false None (Some rs) None
             (Some ("min_size=" +++ PyStr.of_int min_size +++ ", actual_size="
                      +++ PyStr.of_int c)))) /\
  (min_size <= c ->
   forall msg,
     pg w (S (S (clock w))) (mkStatement query params user password) = Rejected msg ->
     fst run =
       Ok (mkOutcome "Minimum Size Restriction" true (Some msg) None None
             (Some ("min_size=" +++ PyStr.of_int min_size +++ ", actual_size="
                      +++ PyStr.of_int c)))) /\
  (c < min_size ->
   fst run =
     Ok (mkOutcome "Minimum Size Restriction" true
           (Some ("Result set too small: " +++ PyStr.of_int c +++ " < "
                    +++ PyStr.of_int min_size))
           None None (Some ("min_size=" +++ PyStr.of_int min_size))) /\
   clock (snd run) = S (S (S (clock w)))).
Proof.
  intros count_query run Hacc Hcount Hc.
  unfold run, MinimumSizeRestriction.aggregate. fold count_query. step.
  rewrite (gateway_rows w) with (rs := count_rows) by assumption.
  step. rewrite Hc. step. rewrite lt_int_int.
  split; [|split].
  - intros Hge rs Hpg. apply Z.ltb_ge in Hge. rewrite Hge. step.
    rewrite gateway_rows with (rs := rs) by assumption. reflexivity.
  - intros Hge msg Hpg. apply Z.ltb_ge in Hge. rewrite Hge. step.
    rewrite gateway_rejected with (msg := msg) by assumption. reflexivity.
  - intros Hlt. apply Z.ltb_lt in Hlt. rewrite Hlt. step.
    rewrite log_query_audit_accepted by assumption. split; reflexivity.
Qed.

Lemma counted_audit_accepted query count answer :
  String.eqb Database.audit_query query = false ->
  audit_accepted (Fixtures.world (Fixtures.counted query count answer)).
Proof.
  intros Hne n st msg Hsql. unfold Fixtures.world, Fixtures.counted, pg.
  rewrite Hsql, Hne.
  match goal with
  | |- (if ?b then _ else _) <> _ => destruct b
  end; discriminate.
Qed.

Lemma minimum_size_blocks_exactly_small_witness :
  fst (MinimumSizeRestriction.aggregate (H := Fixtures.runtime) "system" 5
         Fixtures.salary_query None None None
         (Fixtures.world (Fixtures.counted Fixtures.salary_query 5
                            (Rows [[("avg_sal", VInt 70000)]])))) =
    Ok (mkOutcome "Minimum Size Restriction" false None
          (Some [[("avg_sal", VInt 70000)]]) None
          (Some "min_size=5, actual_size=5")).
Proof.
  exact (proj1 (minimum_size_blocks_exactly_small (H := Fixtures.runtime)
                  (Fixtures.world (Fixtures.counted Fixtures.salary_query 5
                                     (Rows [[("avg_sal", VInt 70000)]])))
                  "system" 5 Fixtures.salary_query None None None
                  [[("count", VInt 5)]] 5
                  (counted_audit_accepted Fixtures.salary_query 5 _ eq_refl) eq_refl eq_refl)
           (Z.le_refl 5) _ eq_refl).
Defined.

(** C3 as stated fails: the derived count is 30, the minimum is 5, and the
    outcome is blocked, because the store then rejects the query itself. *)
Lemma minimum_size_blocks_rejected_query :
  let w := Fixtures.world (Fixtures.counted Fixtures.bonus_query 30
                             (Rejected "column bonus does not exist")) in
  pg w 0%nat (mkStatement
                (MinimumSizeRestriction._convert_to_count_query Fixtures.bonus_query)
                None None None) = Rows [[("count", VInt 30)]] /\
  fst (MinimumSizeRestriction.aggregate (H := Fixtures.runtime) "system" 5
         Fixtures.bonus_query None None None w) =
    Ok (mkOutcome "Minimum Size Restriction" true
          (Some "column bonus does not exist") None None
          (Some "min_size=5, actual_size=30")).
Proof. split; reflexivity. Qed.

(** ** Reading a run backwards *)

Lemma bind_ok {A B} (c : M A) (k : A -> M B) (w w' : World) (b : B) :
  bind c k w = (Ok b, w') ->
  exists a w1, c w = (Ok a, w1) /\ k a w1 = (Ok b, w').
Proof.
  unfold bind. destruct (c w) as [[a|e] w1]; [|discriminate].
  intros Hk. exists a, w1. split; [reflexivity|exact Hk].
Qed.

Lemma lift_ok {A} (r : Result A) (w w' : World) (a : A) :
  lift r w = (Ok a, w') -> r = Ok a /\ w' = w.
Proof. unfold lift. intros [= -> ->]. split; reflexivity. Qed.

Lemma ret_ok {A} (x a : A) (w w' : World) :
  ret x w = (Ok a, w') -> a = x /\ w' = w.
Proof. unfold ret. intros [= -> ->]. split; reflexivity. Qed.

(** What the gateway can return: the store's rows with [blocked = False],
    or no rows with [blocked = True]. *)
Lemma gateway_shape (w w' : World) username query params user password res b reason :
  AggregationMethod.execute_with_logging username query params user password w =
    (Ok (res, b, reason), w') ->
  (b = false /\ reason = None /\
   exists rs, res = Some rs /\
              pg w (clock w) (mkStatement query params user password) = Rows rs) \/
  (b = true /\ res = None).
Proof.
  unfold AggregationMethod.execute_with_logging, try_except, bind.
  unfold Database.execute_query at 1.
  destruct (pg w (clock w) (mkStatement query params user password)) as [rs|msg] eqn:E.
  - destruct (Database.log_query_audit _ _ _ false None (tick w)) as [[[]|e] w1].
    + intros [= <- <- <- <-]. left. repeat split. exists rs. split; reflexivity.
    + destruct (Database.log_query_audit _ _ _ true _ w1) as [[[]|e'] w2];
        [|discriminate].
      intros [= <- <- <- <-]. right. split; reflexivity.
  - destruct (Database.log_query_audit _ _ _ true _ (tick w)) as [[[]|e'] w2];
      [|discriminate].
    intros [= <- <- <- <-]. right. split; reflexivity.
Qed.

Lemma execute_query_ok (w w' : World) query params user password fetch res :
  Database.execute_query query params user password fetch w = (Ok res, w') ->
  w' = tick w /\
  exists rs, pg w (clock w) (mkStatement query params user password) = Rows rs /\
             res = (if fetch then Some rs else None).
Proof.
  unfold Database.execute_query.
  destruct (pg w (clock w) _) as [rs|msg]; [|discriminate].
  intros [= <- <-]. split; [reflexivity|]. exists rs. split; reflexivity.
Qed.

Lemma get_query_history_ok (w w' : World) username limit hist :
  Database.get_query_history username limit w = (Ok hist, w') ->
  w' = tick w /\ hist = Database.recent username limit (query_history w).
Proof.
  unfold Database.get_query_history. intros Hrun.
  apply bind_ok in Hrun as (res & w1 & Hq & Hk).
  apply execute_query_ok in Hq as [-> _].
  injection Hk as <- <-. split; reflexivity.
Qed.

Lemma mapM_length {A B} (f : A -> M B) (l : list A) (w w' : World) (bs : list B) :
  mapM f l w = (Ok bs, w') -> List.length bs = List.length l.
Proof.
  revert w w' bs. induction l as [|a l IH]; intros w w' bs Hrun; simpl in Hrun.
  - apply ret_ok in Hrun as [-> _]. reflexivity.
  - apply bind_ok in Hrun as (b & w1 & _ & Hrun).
    apply bind_ok in Hrun as (bs' & w2 & Hl & Hrun).
    apply ret_ok in Hrun as [-> _]. simpl. f_equal. eapply IH. exact Hl.
Qed.

Lemma suppress_length (min_cell_size : Z) (rows out : list Row) (n : Z) :
  CellSuppression.suppress min_cell_size rows = Ok (out, n) ->
  List.length out = List.length rows.
Proof.
  revert out n. induction rows as [|row rows IH]; intros out n; simpl.
  - intros [= <- <-]. reflexivity.
  - destruct (CellSuppression.suppress_row min_cell_size row) as [r|]; [|discriminate].
    destruct (CellSuppression.suppress min_cell_size rows) as [[out' n']|];
      [|discriminate].
    simpl. intros [= <- <-]. simpl. f_equal. eapply IH. reflexivity.
Qed.

(** ** The outcome invariant *)

Lemma no_protection_outcome (w w' : World) (o : Outcome)
    username query params user password :
  NoProtection.aggregate username query params user password w = (Ok o, w') ->
  rows_absent_when_blocked o /\ rows_present_when_unblocked o.
Proof.
  unfold NoProtection.aggregate. intros Hrun.
  apply bind_ok in Hrun as ([[res b] reason] & w1 & Hg & Hrun).
  apply ret_ok in Hrun as [-> _].
  unfold rows_absent_when_blocked, rows_present_when_unblocked. simpl.
  apply gateway_shape in Hg as [(-> & _ & rs & -> & _)|(-> & ->)];
    split; congruence.
Qed.

Lemma minimum_size_outcome `{PyRuntime} (w w' : World) (o : Outcome)
    username min_size query params user password :
  MinimumSizeRestriction.aggregate username min_size query params user password w =
    (Ok o, w') ->
  rows_absent_when_blocked o /\ rows_present_when_unblocked o.
Proof.
  unfold MinimumSizeRestriction.aggregate. intros Hrun.
  unfold rows_absent_when_blocked, rows_present_when_unblocked.
  apply bind_ok in Hrun as ([[cres b] reason] & w1 & _ & Hrun).
  destruct b.
  - apply ret_ok in Hrun as [-> _]. simpl. split; congruence.
  - apply bind_ok in Hrun as (count & w2 & _ & Hrun).
    apply bind_ok in Hrun as ([|] & w3 & _ & Hrun).
    + apply bind_ok in Hrun as (_ & w4 & _ & Hrun).
      apply ret_ok in Hrun as [-> _]. simpl. split; congruence.
    + apply bind_ok in Hrun as ([[res b] reason'] & w4 & Hg & Hrun).
      apply ret_ok in Hrun as [-> _]. simpl.
      apply gateway_shape in Hg as [(-> & _ & rs & -> & _)|(-> & ->)];
        split; congruence.
Qed.

Lemma differential_privacy_outcome `{PyRuntime} (w w' : World) (o : Outcome)
    username epsilon query params user password :
  DifferentialPrivacy.aggregate username epsilon query params user password w =
    (Ok o, w') ->
  rows_absent_when_blocked o /\
  (blocked o = false ->
   (results o = None <->
    pg w (clock w) (mkStatement query params user password) = Rows [])).
Proof.
  unfold DifferentialPrivacy.aggregate. intros Hrun.
  unfold rows_absent_when_blocked.
  apply bind_ok in Hrun as ([[res b] reason] & w1 & Hg & Hrun).
  apply gateway_shape in Hg as [(-> & _ & rs & -> & Hpg)|(-> & ->)].
  - destruct rs as [|r rs]; simpl in Hrun.
    + apply ret_ok in Hrun as [-> _]. simpl. split; [congruence|].
      intros _. split; auto.
    + apply bind_ok in Hrun as (noisy & w2 & _ & Hrun).
      apply ret_ok in Hrun as [-> _]. simpl. split; [congruence|].
      intros _. rewrite Hpg. split; congruence.
  - simpl in Hrun. apply ret_ok in Hrun as [-> _]. simpl. split; congruence.
Qed.

Lemma overlap_control_outcome `{PyRuntime} (w w' : World) (o : Outcome)
    username threshold query params user password :
  OverlapControl.aggregate username threshold query params user password w =
    (Ok o, w') ->
  rows_absent_when_blocked o /\
  (blocked o = false ->
   (results o = None <->
    pg w (S (clock w)) (mkStatement query params user password) = Rows [])).
Proof.
  unfold OverlapControl.aggregate. intros Hrun.
  unfold rows_absent_when_blocked.
  apply bind_ok in Hrun as (hist & w0 & Hh & Hrun).
  apply get_query_history_ok in Hh as [-> _].
  apply bind_ok in Hrun as ([[res b] reason] & w1 & Hg & Hrun).
  apply gateway_shape in Hg as [(-> & _ & rs & -> & Hpg)|(-> & ->)].
  - simpl in Hpg. destruct rs as [|r rs]; simpl in Hrun.
    + apply ret_ok in Hrun as [-> _]. simpl. split; [congruence|].
      intros _. split; auto.
    + apply bind_ok in Hrun as ([ov|] & w2 & _ & Hrun).
      * apply bind_ok in Hrun as (_ & w3 & _ & Hrun).
        apply ret_ok in Hrun as [-> _]. simpl. split; congruence.
      * apply bind_ok in Hrun as (_ & w3 & _ & Hrun).
        apply ret_ok in Hrun as [-> _]. simpl. split; [congruence|].
        intros _. rewrite Hpg. split; congruence.
  - simpl in Hrun. apply ret_ok in Hrun as [-> _]. simpl. split; congruence.
Qed.

Lemma cell_suppression_outcome (w w' : World) (o : Outcome)
    username min_cell_size query params user password group_by_column :
  CellSuppression.aggregate username min_cell_size query params user password
    group_by_column w = (Ok o, w') ->
  rows_absent_when_blocked o /\
  (blocked o = false ->
   (results o = None <->
    pg w (clock w) (mkStatement query params user password) = Rows [])).
Proof.
  unfold CellSuppression.aggregate. intros Hrun.
  unfold rows_absent_when_blocked.
  apply bind_ok in Hrun as ([[res b] reason] & w1 & Hg & Hrun).
  apply gateway_shape in Hg as [(-> & _ & rs & -> & Hpg)|(-> & ->)].
  - destruct rs as [|r rs]; simpl in Hrun.
    + apply ret_ok in Hrun as [-> _]. simpl. split; [congruence|].
      intros _. split; auto.
    + apply bind_ok in Hrun as ([out n] & w2 & _ & Hrun).
      apply ret_ok in Hrun as [-> _]. simpl. split; [congruence|].
      intros _. rewrite Hpg. split; congruence.
  - simpl in Hrun. apply ret_ok in Hrun as [-> _]. simpl. split; congruence.
Qed.

Lemma fst_run {A} (c : World -> Result A * World) (w : World) (a : A) :
  fst (c w) = Ok a -> exists w', c w = (Ok a, w').
Proof. destruct (c w) as [r w']. simpl. intros ->. exists w'. reflexivity. Qed.

(** C1, as amended: for every Outcome returned by any of the five
    strategies, blocked=true implies that the rows are absent.  For No
    Protection and Minimum Size Restriction, blocked=false implies that the
    rows are present (possibly an empty list).  For Differential Privacy,
    Overlap Control and Cell Suppression, an outcome with blocked=false has
    its rows absent exactly when the store answered the query with no rows:
    an empty result is returned as absent rows, never as an empty list. *)
Theorem outcome_invariant `{PyRuntime} (w : World) (username query : string)
    (params : option (list Value)) (user password : option string) (o : Outcome) :
  let answered_nothing (n : nat) :=
    pg w n (mkStatement query params user password) = Rows [] in
  (fst (NoProtection.aggregate username query params user password w) = Ok o ->
   rows_absent_when_blocked o /\ rows_present_when_unblocked o) /\
  (forall min_size,
      fst (MinimumSizeRestriction.aggregate username min_size query params user
             password w) = Ok o ->
      rows_absent_when_blocked o /\ rows_present_when_unblocked o) /\
  (forall epsilon,
      fst (DifferentialPrivacy.aggregate username epsilon query params user
             password w) = Ok o ->
      rows_absent_when_blocked o /\
      (blocked o = false -> (results o = None <-> answered_nothing (clock w)))) /\
  (forall overlap_threshold,
      fst (OverlapControl.aggregate username overlap_threshold query params user
             password w) = Ok o ->
      rows_absent_when_blocked o /\
      (blocked o = false -> (results o = None <-> answered_nothing (S (clock w))))) /\
  (forall min_cell_size group_by_column,
      fst (CellSuppression.aggregate username min_cell_size query params user
             password group_by_column w) = Ok o ->
      rows_absent_when_blocked o /\
      (blocked o = false -> (results o = None <-> answered_nothing (clock w)))).
Proof.
  intros answered_nothing. unfold answered_nothing.
  split; [|split; [|split; [|split]]].
  - intros Hrun. apply fst_run in Hrun as [w' Hrun].
    eapply no_protection_outcome; eassumption.
  - intros min_size Hrun. apply fst_run in Hrun as [w' Hrun].
    eapply minimum_size_outcome; eassumption.
  - intros epsilon Hrun. apply fst_run in Hrun as [w' Hrun].
    eapply differential_privacy_outcome; eassumption.
  - intros overlap_threshold Hrun. apply fst_run in Hrun as [w' Hrun].
    eapply overlap_control_outcome; eassumption.
  - intros min_cell_size group_by_column Hrun. apply fst_run in Hrun as [w' Hrun].
    eapply cell_suppression_outcome; eassumption.
Qed.

Lemma outcome_invariant_witness :
  let o := mkOutcome "No Protection" false None
             (Some [[("avg_sal", VInt 70000)]]) None None in
  rows_absent_when_blocked o /\ rows_present_when_unblocked o.
Proof.
  exact (proj1 (outcome_invariant (H := Fixtures.runtime)
                  (Fixtures.world (Fixtures.always [[("avg_sal", VInt 70000)]]))
                  "system" Fixtures.salary_query None None None _) eq_refl).
Defined.

(** C1 as stated fails: Differential Privacy on a query that returns no rows
    gives blocked=false with the rows absent. *)
Lemma unblocked_outcome_without_rows :
  fst (DifferentialPrivacy.aggregate (H := Fixtures.runtime) "system" 1
         Fixtures.salary_query None None None
         (Fixtures.world (Fixtures.always []))) =
    Ok (mkOutcome "Differential Privacy" false None None None (Some "epsilon=1.0")).
Proof. reflexivity. Qed.

(** ** The unprotected rows in the outcome *)

Lemma differential_privacy_original `{PyRuntime} (w w' : World) (o : Outcome)
    username epsilon query params user password r rs :
  pg w (clock w) (mkStatement query params user password) = Rows (r :: rs) ->
  DifferentialPrivacy.aggregate username epsilon query params user password w =
    (Ok o, w') ->
  blocked o = false ->
  original_results o = Some (r :: rs) /\
  exists noisy, results o = Some noisy /\ List.length noisy = List.length (r :: rs).
Proof.
  unfold DifferentialPrivacy.aggregate. intros Hpg Hrun.
  apply bind_ok in Hrun as ([[res b] reason] & w1 & Hg & Hrun).
  apply gateway_shape in Hg as [(-> & _ & rs' & -> & Hpg')|(-> & ->)].
  - rewrite Hpg in Hpg'. injection Hpg' as <-. cbn [orb negb truthy] in Hrun.
    apply bind_ok in Hrun as (noisy & w2 & Hm & Hrun).
    apply ret_ok in Hrun as [-> _]. simpl. intros _. split; [reflexivity|].
    exists noisy. split; [reflexivity|]. apply mapM_length in Hm. exact Hm.
  - simpl in Hrun. apply ret_ok in Hrun as [-> _]. simpl. discriminate.
Qed.

Lemma cell_suppression_original (w w' : World) (o : Outcome)
    username min_cell_size query params user password group_by_column r rs :
  pg w (clock w) (mkStatement query params user password) = Rows (r :: rs) ->
  CellSuppression.aggregate username min_cell_size query params user password
    group_by_column w = (Ok o, w') ->
  blocked o = false ->
  original_results o = Some (r :: rs) /\
  exists out, results o = Some out /\ List.length out = List.length (r :: rs).
Proof.
  unfold CellSuppression.aggregate. intros Hpg Hrun.
  apply bind_ok in Hrun as ([[res b] reason] & w1 & Hg & Hrun).
  apply gateway_shape in Hg as [(-> & _ & rs' & -> & Hpg')|(-> & ->)].
  - rewrite Hpg in Hpg'. injection Hpg' as <-. cbn [orb negb truthy] in Hrun.
    apply bind_ok in Hrun as ([out n] & w2 & Hs & Hrun).
    apply ret_ok in Hrun as [-> _]. simpl. intros _. split; [reflexivity|].
    exists out. split; [reflexivity|].
    apply lift_ok in Hs as [Hs _]. apply suppress_length in Hs. exact Hs.
  - simpl in Hrun. apply ret_ok in Hrun as [-> _]. simpl. discriminate.
Qed.

Lemma differential_privacy_no_original `{PyRuntime} (w w' : World) (o : Outcome)
    username epsilon query params user password :
  pg w (clock w) (mkStatement query params user password) = Rows [] ->
  DifferentialPrivacy.aggregate username epsilon query params user password w =
    (Ok o, w') ->
  original_results o = None /\ results o = None.
Proof.
  unfold DifferentialPrivacy.aggregate. intros Hpg Hrun.
  apply bind_ok in Hrun as ([[res b] reason] & w1 & Hg & Hrun).
  apply gateway_shape in Hg as [(-> & _ & rs' & -> & Hpg')|(-> & ->)].
  - rewrite Hpg in Hpg'. injection Hpg' as <-. cbn [orb negb truthy] in Hrun.
    apply ret_ok in Hrun as [-> _]. split; reflexivity.
  - simpl in Hrun. apply ret_ok in Hrun as [-> _]. split; reflexivity.
Qed.

Lemma cell_suppression_no_original (w w' : World) (o : Outcome)
    username min_cell_size query params user password group_by_column :
  pg w (clock w) (mkStatement query params user password) = Rows [] ->
  CellSuppression.aggregate username min_cell_size query params user password
    group_by_column w = (Ok o, w') ->
  original_results o = None /\ results o = None.
Proof.
  unfold CellSuppression.aggregate. intros Hpg Hrun.
  apply bind_ok in Hrun as ([[res b] reason] & w1 & Hg & Hrun).
  apply gateway_shape in Hg as [(-> & _ & rs' & -> & Hpg')|(-> & ->)].
  - rewrite Hpg in Hpg'. injection Hpg' as <-. cbn [orb negb truthy] in Hrun.
    apply ret_ok in Hrun as [-> _]. split; reflexivity.
  - simpl in Hrun. apply ret_ok in Hrun as [-> _]. split; reflexivity.
Qed.

(** C10, as amended: for every successfully executed query that returns at
    least one row, the Outcome returned by Differential Privacy and by Cell
    Suppression holds, beside the protected rows, the complete unmodified
    rows of the store under the key original_results; for a query that
    returns no rows the key is absent, and so are the rows. *)
Theorem original_results_returned `{PyRuntime} (w : World) (username query : string)
    (params : option (list Value)) (user password : option string)
    (rows : list Row) (o : Outcome) :
  let unprotected (protected : option (list Row)) :=
    match rows with
    | [] => original_results o = None /\ protected = None
    | _ :: _ =>
        blocked o = false ->
        original_results o = Some rows /\
        exists out, protected = Some out /\ List.length out = List.length rows
    end in
  pg w (clock w) (mkStatement query params user password) = Rows rows ->
  (forall epsilon,
      fst (DifferentialPrivacy.aggregate username epsilon query params user
             password w) = Ok o ->
      unprotected (results o)) /\
  (forall min_cell_size group_by_column,
      fst (CellSuppression.aggregate username min_cell_size query params user
             password group_by_column w) = Ok o ->
      unprotected (results o)).
Proof.
  intros unprotected Hpg. unfold unprotected. split.
  - intros epsilon Hrun. apply fst_run in Hrun as [w' Hrun].
    destruct rows as [|r rs].
    + eapply differential_privacy_no_original; eassumption.
    + intros Hb. eapply differential_privacy_original; eassumption.
  - intros min_cell_size group_by_column Hrun. apply fst_run in Hrun as [w' Hrun].
    destruct rows as [|r rs].
    + eapply cell_suppression_no_original; eassumption.
    + intros Hb. eapply cell_suppression_original; eassumption.
Qed.

Lemma original_results_returned_witness :
  original_results
    (mkOutcome "Cell Suppression" false None
       (Some [[("department", VStr "SUPPRESSED"); ("emp_count", VNone)]])
       (Some [[("department", VStr "Operations"); ("emp_count", VInt 2)]])
       (Some "min_cell_size=3, suppressed=1")) =
    Some [[("department", VStr "Operations"); ("emp_count", VInt 2)]] /\
  exists out,
    Some [[("department", VStr "SUPPRESSED"); ("emp_count", VNone)]] = Some out /\
    List.length out = 1%nat.
Proof.
  exact (proj2 (original_results_returned (H := Fixtures.runtime)
                  (Fixtures.world
                     (Fixtures.always
                        [[("department", VStr "Operations"); ("emp_count", VInt 2)]]))
                  "system" Fixtures.salary_query None None None
                  [[("department", VStr "Operations"); ("emp_count", VInt 2)]]
                  (mkOutcome "Cell Suppression" false None
                     (Some [[("department", VStr "SUPPRESSED"); ("emp_count", VNone)]])
                     (Some [[("department", VStr "Operations"); ("emp_count", VInt 2)]])
                     (Some "min_cell_size=3, suppressed=1"))
                  eq_refl) 3 None eq_refl eq_refl).
Defined.

(** C10 as stated fails: a successfully executed query that returns no rows
    gives an outcome without the key original_results. *)
Lemma empty_result_has_no_original_results :
  fst (CellSuppression.aggregate "system" 3 Fixtures.salary_query None None None None
         (Fixtures.world (Fixtures.always []))) =
    Ok (mkOutcome "Cell Suppression" false None None None (Some "min_cell_size=3")).
Proof. reflexivity. Qed.

(** ** Cell Suppression *)

Lemma count_col_none (row : Row) :
  CellSuppression.count_col row = None <-> no_count_column row.
Proof.
  unfold no_count_column. induction row as [|[k x] row IH]; simpl.
  - split; constructor.
  - fold (count_like k). destruct (count_like k) eqn:E.
    + split; [discriminate|]. intros Hall. inversion Hall as [|? ? Hk _].
      simpl in Hk. congruence.
    + rewrite IH. split.
      * intros Hall. constructor; assumption.
      * intros Hall. inversion Hall. assumption.
Qed.

Lemma count_col_some (row : Row) (c : string) :
  CellSuppression.count_col row = Some c -> exists v, tested_column row c v.
Proof.
  induction row as [|[k x] row IH]; simpl; [discriminate|].
  fold (count_like k). destruct (count_like k) eqn:E.
  - intros [= <-]. exists x, [], row. repeat split; [assumption|constructor].
  - intros Hc. destruct (IH Hc) as (v & pre & post & -> & Hlike & Hpre).
    exists v, ((k, x) :: pre), post. repeat split; [assumption|].
    constructor; assumption.
Qed.

Lemma tested_column_found (row : Row) (c : string) (v : Value) :
  tested_column row c v ->
  CellSuppression.count_col row = Some c /\ Py.getitem row c = Ok v.
Proof.
  intros (pre & post & -> & Hlike & Hpre).
  induction Hpre as [|[k x] pre Hk _ IH]; simpl.
  - fold (count_like c). rewrite Hlike, String.eqb_refl. split; reflexivity.
  - fold (count_like k). simpl in Hk. rewrite Hk.
    destruct (String.eqb_spec k c) as [->|_]; [congruence|]. exact IH.
Qed.

Lemma count_like_nonempty (c : string) : count_like c = true -> String.eqb c "" = false.
Proof. destruct c; [discriminate|reflexivity]. Qed.

Lemma suppressed_row_suppressed (c : string) (row : Row) :
  suppressed c row (CellSuppression.suppressed_row c row).
Proof.
  unfold suppressed, CellSuppression.suppressed_row. split.
  - rewrite map_map. apply map_ext. intros [k x]. reflexivity.
  - intros k x Hin. apply in_map_iff in Hin as ([k' x'] & [= <- <-] & _).
    reflexivity.
Qed.

Lemma suppress_row_rule (min_cell_size : Z) (row : Row) :
  (forall c v, tested_column row c v -> Py.to_num v <> None) ->
  exists out b,
    CellSuppression.suppress_row min_cell_size row = Ok (out, b) /\
    cell_rule min_cell_size row out.
Proof.
  intros Hnum. unfold CellSuppression.suppress_row, cell_rule.
  destruct (CellSuppression.count_col row) as [c|] eqn:Ec.
  - destruct (count_col_some _ _ Ec) as [v Ht].
    pose proof (tested_column_found _ _ _ Ht) as [_ Hget].
    assert (Hlike : count_like c = true) by (destruct Ht as (? & ? & _ & ? & _); assumption).
    rewrite (count_like_nonempty _ Hlike), Hget. simpl.
    specialize (Hnum c v Ht).
    destruct (Py.lt_int v min_cell_size) as [small|e] eqn:Hsmall.
    2:{ unfold Py.lt_int in Hsmall. destruct (Py.to_num v); [discriminate|].
        contradiction. }
    simpl.
    exists (if small then CellSuppression.suppressed_row c row else row),
      (if small then true else false).
    split; [destruct small; reflexivity|].
    assert (Hsame : forall c' v', tested_column row c' v' -> c' = c /\ v' = v).
    { intros c' v' Ht'. apply tested_column_found in Ht' as [Hc' Hg'].
      rewrite Ec in Hc'. injection Hc' as <-. rewrite Hget in Hg'.
      injection Hg' as <-. split; reflexivity. }
    split; [|split].
    + intros c' v' Ht' Hlt. destruct (Hsame _ _ Ht') as [-> ->].
      rewrite Hsmall in Hlt. injection Hlt as ->. apply suppressed_row_suppressed.
    + intros c' v' Ht' Hlt. destruct (Hsame _ _ Ht') as [-> ->].
      rewrite Hsmall in Hlt. injection Hlt as ->. reflexivity.
    + intros Hnone. apply count_col_none in Hnone. congruence.
  - exists row, false. split; [reflexivity|].
    split; [|split]; try reflexivity.
    intros c v Ht. apply tested_column_found in Ht as [Hc _]. congruence.
Qed.

Lemma suppress_rule (min_cell_size : Z) (rows : list Row) :
  counts_are_numbers rows ->
  exists out n,
    CellSuppression.suppress min_cell_size rows = Ok (out, n) /\
    Forall2 (cell_rule min_cell_size) rows out.
Proof.
  unfold counts_are_numbers. induction 1 as [|row rows Hrow _ IH]; simpl.
  - exists [], 0. split; [reflexivity|constructor].
  - destruct (suppress_row_rule min_cell_size row Hrow) as (out & b & -> & Hrule).
    destruct IH as (outs & n & -> & Hrules). simpl.
    eexists _, _. split; [reflexivity|]. constructor; assumption.
Qed.

Lemma counts_are_numbers_check (rows : list Row) :
  forallb tested_is_number rows = true -> counts_are_numbers rows.
Proof.
  unfold counts_are_numbers. rewrite forallb_forall, Forall_forall.
  intros Hall row Hin c v Ht. specialize (Hall row Hin).
  apply tested_column_found in Ht as [Hc Hg].
  unfold tested_is_number in Hall. rewrite Hc, Hg in Hall.
  destruct (Py.to_num v); [discriminate|discriminate].
Qed.

(** C5, as amended: Cell Suppression blocks nothing of its own: when the
    gateway executes the query the outcome is not blocked, and it is blocked
    only with the store's own message when the store rejects the query.  In
    every row of the result the tested column is the first one, in column
    order, whose name contains "count" in any letter case.  If the tested
    column's value is below the configured minimum cell size, it is set to
    null and every other column of that row is replaced by the suppression
    marker; every other row, also one whose later count column is small,
    passes through unchanged.  The tested columns are assumed to hold
    numbers, and the store to accept the audit INSERT. *)
Theorem cell_suppression_per_row (w : World) (username : string) (min_cell_size : Z)
    (query : string) (params : option (list Value)) (user password : option string)
    (group_by_column : option string) :
  let run :=
    CellSuppression.aggregate username min_cell_size query params user password
      group_by_column w in
  audit_accepted w ->
  (forall rows,
      pg w (clock w) (mkStatement query params user password) = Rows rows ->
      counts_are_numbers rows ->
      exists o,
        fst run = Ok o /\ blocked o = false /\
        match rows with
        | [] => results o = None
        | _ => exists out, results o = Some out /\
                           Forall2 (cell_rule min_cell_size) rows out
        end) /\
  (forall msg,
      pg w (clock w) (mkStatement query params user password) = Rejected msg ->
      fst run =
        Ok (mkOutcome "Cell Suppression" true (Some msg) None None
              (Some ("min_cell_size=" +++ PyStr.of_int min_cell_size)))).
Proof.
  intros run Hacc. unfold run, CellSuppression.aggregate. split.
  - intros rows Hpg Hnum. step.
    rewrite gateway_rows with (rs := rows) by assumption.
    destruct rows as [|r rs].
    + eexists. repeat split.
    + cbn [orb negb truthy]. cbv iota beta.
      destruct (suppress_rule min_cell_size (r :: rs) Hnum) as (out & n & -> & Hrule).
      eexists. split; [reflexivity|]. split; [reflexivity|].
      exists out. split; [reflexivity|exact Hrule].
  - intros msg Hpg. step.
    rewrite gateway_rejected with (msg := msg) by assumption. reflexivity.
Qed.

Lemma cell_suppression_per_row_witness :
  exists o,
    fst (CellSuppression.aggregate "system" 3 Fixtures.salary_query None None None None
           (Fixtures.world
              (Fixtures.always
                 [[("department", VStr "Operations"); ("emp_count", VInt 2)]]))) =
      Ok o /\
    blocked o = false /\
    exists out,
      results o = Some out /\
      Forall2 (cell_rule 3)
        [[("department", VStr "Operations"); ("emp_count", VInt 2)]] out.
Proof.
  exact (proj1 (cell_suppression_per_row
                  (Fixtures.world
                     (Fixtures.always
                        [[("department", VStr "Operations"); ("emp_count", VInt 2)]]))
                  "system" 3 Fixtures.salary_query None None None None
                  (always_audit_accepted _))
           [[("department", VStr "Operations"); ("emp_count", VInt 2)]]
           eq_refl
           (counts_are_numbers_check
              [[("department", VStr "Operations"); ("emp_count", VInt 2)]] eq_refl)).
Defined.

(** C5 as stated fails: the row has a column named emp_count whose value 1 is
    below the minimum cell size 3, and it passes through unchanged, because
    the column tested is discount_pct, the first one whose name contains
    "count". *)
Lemma later_count_column_not_suppressed :
  let row := [("discount_pct", VInt 10); ("emp_count", VInt 1)] in
  PyStr.contains "emp_count" "count" = true /\
  Py.getitem row "emp_count" = Ok (VInt 1) /\
  Py.lt_int (VInt 1) 3 = Ok true /\
  fst (CellSuppression.aggregate "system" 3 Fixtures.salary_query None None None None
         (Fixtures.world (Fixtures.always [row]))) =
    Ok (mkOutcome "Cell Suppression" false None (Some [row]) (Some [row])
          (Some "min_cell_size=3, suppressed=0")).
Proof. repeat split. Qed.

(** ** Differential Privacy *)

Section Noise.

Context `{RT : PyRuntime}.
Variable epsilon : float.
Hypothesis epsilon_nonzero : (epsilon =? 0)%float = false.
Hypothesis scale_not_negative : negative_scale (1 / epsilon) = false.

Local Open Scope nat_scope.

Ltac same_sample H :=
  match type of H with
  | noised (np_laplace _ ?a _ _) _ _ =>
      match goal with
      | |- noised (np_laplace _ ?b _ _) _ _ => replace b with a by lia
      end
  end; exact H.

Lemma add_float_total (v : Value) (x : float) :
  Py.is_int_or_float v = true -> in_float_range v ->
  exists v', Py.add_float v x = Ok v'.
Proof.
  destruct v as [|[|]|n|y|c e|s|d]; simpl; try discriminate; intros _ Hr.
  - eexists. reflexivity.
  - eexists. reflexivity.
  - unfold Py.float_of_int. rewrite Hr. eexists. reflexivity.
  - eexists. reflexivity.
Qed.

Lemma after_draws_drawn (k : nat) (w : World) :
  after_draws k (drawn w) = after_draws (S k) w.
Proof. unfold after_draws, drawn. simpl. f_equal. lia. Qed.

Lemma after_draws_0 (w : World) : after_draws 0 w = w.
Proof. destruct w. reflexivity. Qed.

Lemma after_draws_add (a b : nat) (w : World) :
  after_draws a (after_draws b w) = after_draws (b + a) w.
Proof. unfold after_draws. simpl. f_equal. lia. Qed.

(** One field: a numeric value takes the next sample, any other value is
    kept and no sample is drawn. *)
Lemma noisy_item_run (key : string) (v : Value) (w : World) :
  in_float_range v ->
  exists v',
    DifferentialPrivacy.noisy_item epsilon (key, v) w =
      (Ok (key, v'), after_draws (count_noised [(key, v)]) w) /\
    noised (np_laplace w (draws w) 0 (1 / epsilon)) v v'.
Proof.
  intros Hr. unfold DifferentialPrivacy.noisy_item, noised, count_noised. simpl.
  destruct (Py.is_int_or_float v) eqn:Ev.
  - destruct (add_float_total v (np_laplace w (draws w) 0 (1 / epsilon)) Ev Hr)
      as [v' Hv'].
    exists v'. split; [|exact Hv'].
    unfold DifferentialPrivacy.scale. rewrite epsilon_nonzero.
    step. unfold laplace. rewrite scale_not_negative. rewrite Hv'.
    reflexivity.
  - exists v. split; [|reflexivity]. simpl. rewrite after_draws_0. reflexivity.
Qed.

Lemma count_noised_cons (kv : string * Value) (row : Row) :
  count_noised (kv :: row) = count_noised [kv] + count_noised row.
Proof.
  unfold count_noised. simpl. destruct (Py.is_int_or_float (snd kv)); reflexivity.
Qed.

Lemma count_noised_app (a b : Row) :
  count_noised (a ++ b)%list = count_noised a + count_noised b.
Proof. unfold count_noised. rewrite filter_app, List.length_app. reflexivity. Qed.

(** One row: the fields keep their keys and order, and field [j] takes the
    sample numbered by the noised fields before it. *)
Lemma noisy_row_run (row : Row) (w : World) :
  Forall (fun kv => in_float_range (snd kv)) row ->
  exists out,
    mapM (DifferentialPrivacy.noisy_item epsilon) row w =
      (Ok out, after_draws (count_noised row) w) /\
    map fst out = map fst row /\
    forall j key v,
      nth_error row j = Some (key, v) ->
      exists v',
        nth_error out j = Some (key, v') /\
        noised (np_laplace w (draws w + count_noised (firstn j row)) 0 (1 / epsilon))
          v v'.
Proof.
  intros Hr. revert w. induction Hr as [|[key v] row Hv _ IH]; intros w.
  - exists []. simpl. rewrite after_draws_0. repeat split.
    intros [|j] key v Hn; discriminate.
  - destruct (noisy_item_run key v w Hv) as (v' & Hitem & Hnoised).
    destruct (IH (after_draws (count_noised [(key, v)]) w)) as (out & Hrow & Hkeys & Hat).
    exists ((key, v') :: out). cbn [mapM]. step. rewrite Hitem, Hrow.
    split; [|split].
    + rewrite after_draws_add, <- count_noised_cons. reflexivity.
    + simpl. f_equal. exact Hkeys.
    + intros [|j] k x Hn.
      * injection Hn as <- <-. exists v'. split; [reflexivity|].
        cbn [firstn]. change (count_noised []) with 0. rewrite Nat.add_0_r.
        exact Hnoised.
      * destruct (Hat j k x Hn) as (x' & Hx' & Hn').
        exists x'. split; [exact Hx'|].
        cbn [firstn]. rewrite count_noised_cons.
        simpl np_laplace in Hn'. simpl draws in Hn'.
        same_sample Hn'.
Qed.

(** All rows, in order. *)
Lemma noisy_rows_run (rows : list Row) (w : World) :
  Forall (Forall (fun kv => in_float_range (snd kv))) rows ->
  exists noisy,
    mapM (mapM (DifferentialPrivacy.noisy_item epsilon)) rows w =
      (Ok noisy, after_draws (count_noised (List.concat rows)) w) /\
    map (map fst) noisy = map (map fst) rows /\
    forall i j row key v,
      nth_error rows i = Some row ->
      nth_error row j = Some (key, v) ->
      exists out v',
        nth_error noisy i = Some out /\
        nth_error out j = Some (key, v') /\
        noised (np_laplace w (draws w + drawn_before rows i j) 0 (1 / epsilon)) v v'.
Proof.
  intros Hr. revert w. induction Hr as [|row rows Hrow _ IH]; intros w.
  - exists []. simpl. rewrite after_draws_0. repeat split.
    intros [|i] j row key v Hn; discriminate.
  - destruct (noisy_row_run row w Hrow) as (out & Hrun & Hkeys & Hat).
    destruct (IH (after_draws (count_noised row) w)) as (noisy & Hrest & Hkeys' & Hat').
    exists (out :: noisy). cbn [mapM]. step. rewrite Hrun, Hrest.
    split; [|split].
    + rewrite after_draws_add. cbn [List.concat]. rewrite count_noised_app. reflexivity.
    + simpl. f_equal; assumption.
    + intros [|i] j r key v Hi Hj.
      * injection Hi as <-. destruct (Hat j key v Hj) as (v' & Hv' & Hn).
        exists out, v'. split; [reflexivity|]. split; [exact Hv'|].
        unfold drawn_before. cbn [firstn List.concat nth].
        change (count_noised []) with 0. exact Hn.
      * destruct (Hat' i j r key v Hi Hj) as (o & v' & Ho & Hv' & Hn).
        exists o, v'. split; [exact Ho|]. split; [exact Hv'|].
        unfold drawn_before in *. cbn [firstn List.concat nth].
        rewrite count_noised_app.
        simpl np_laplace in Hn. simpl draws in Hn.
        same_sample Hn.
Qed.

End Noise.

(** X28: where Differential Privacy adds noise.  It never blocks a query
    that the gateway executed successfully.  In every returned row it adds
    to every field whose value is a Python int (a bool included) or float a
    sample of its own, drawn by one call of the sampler with location 0 and
    scale 1/epsilon, the calls being made in row order and column order, and
    it draws no other sample; a field of any other type comes back as the
    store returned it.  Epsilon is assumed non-zero with a scale that numpy
    accepts, the ints are assumed to fit float arithmetic and the store to
    accept the audit INSERT. *)
Theorem differential_privacy_noise `{PyRuntime} (w : World) (username : string)
    (epsilon : float) (query : string) (params : option (list Value))
    (user password : option string) (rows : list Row) :
  audit_accepted w ->
  pg w (clock w) (mkStatement query params user password) = Rows rows ->
  (epsilon =? 0)%float = false ->
  negative_scale (1 / epsilon) = false ->
  Forall (Forall (fun kv => in_float_range (snd kv))) rows ->
  exists o w',
    DifferentialPrivacy.aggregate username epsilon query params user password w =
      (Ok o, w') /\
    blocked o = false /\
    match rows with
    | [] => results o = None /\ draws w' = draws w
    | _ =>
        exists noisy,
          results o = Some noisy /\
          map (map fst) noisy = map (map fst) rows /\
          draws w' = (draws w + count_noised (List.concat rows))%nat /\
          forall i j row key v,
            nth_error rows i = Some row ->
            nth_error row j = Some (key, v) ->
            exists out v',
              nth_error noisy i = Some out /\
              nth_error out j = Some (key, v') /\
              noised (np_laplace w (draws w + drawn_before rows i j)%nat 0
                        (1 / epsilon)) v v'
    end.
Proof.
  intros Hacc Hpg Heps Hscale Hrange.
  unfold DifferentialPrivacy.aggregate. step.
  rewrite gateway_rows with (rs := rows) by assumption.
  destruct rows as [|r rs].
  - eexists _, _. repeat split.
  - cbn [orb negb truthy]. cbv iota beta.
    destruct (noisy_rows_run epsilon Heps Hscale (r :: rs)
                (add_audit (mkAudit username query
                              (VInt (Z.of_nat (List.length (r :: rs)))) false None)
                   (tick (tick w))) Hrange)
      as (noisy & -> & Hkeys & Hat).
    eexists _, _. split; [reflexivity|]. split; [reflexivity|].
    exists noisy. split; [reflexivity|]. split; [exact Hkeys|].
    split; [simpl; lia|]. exact Hat.
Qed.

Lemma in_float_range_check (rows : list Row) :
  forallb (forallb fits_float) rows = true ->
  Forall (Forall (fun kv => in_float_range (snd kv))) rows.
Proof.
  rewrite forallb_forall, Forall_forall. intros Hall row Hin.
  specialize (Hall row Hin). rewrite forallb_forall in Hall.
  rewrite Forall_forall. intros [k v] Hkv. specialize (Hall _ Hkv).
  unfold fits_float in Hall. simpl in *. destruct v; simpl; auto.
  now apply negb_true_iff in Hall.
Qed.

Lemma differential_privacy_noise_witness :
  exists o w',
    DifferentialPrivacy.aggregate (H := Fixtures.runtime) "system" 1
      Fixtures.salary_query None None None
      (Fixtures.world (Fixtures.always [[("department", VStr "Eng"); ("n", VInt 7)]])) =
      (Ok o, w') /\
    blocked o = false /\
    exists noisy,
      results o = Some noisy /\
      map (map fst) noisy = [["department"; "n"]] /\
      draws w' = 1%nat /\
      forall i j row key v,
        nth_error [[("department", VStr "Eng"); ("n", VInt 7)]] i = Some row ->
        nth_error row j = Some (key, v) ->
        exists out v',
          nth_error noisy i = Some out /\
          nth_error out j = Some (key, v') /\
          noised
            (np_laplace
               (Fixtures.world
                  (Fixtures.always [[("department", VStr "Eng"); ("n", VInt 7)]]))
               (0 + drawn_before [[("department", VStr "Eng"); ("n", VInt 7)]] i j)%nat
               0 (1 / 1)) v v'.
Proof.
  exact (differential_privacy_noise (H := Fixtures.runtime)
           (Fixtures.world (Fixtures.always [[("department", VStr "Eng"); ("n", VInt 7)]]))
           "system" 1 Fixtures.salary_query None None None
           [[("department", VStr "Eng"); ("n", VInt 7)]]
           (always_audit_accepted _) eq_refl eq_refl eq_refl
           (in_float_range_check [[("department", VStr "Eng"); ("n", VInt 7)]]
              eq_refl)).
Defined.

(** C8: the claim does not hold of the code.  The query is the one of
    test_differential_privacy_adds_noise, and its average is a number, a
    Decimal as psycopg2 returns it for AVG; the test of the type,
    isinstance(value, (int, float)), leaves a Decimal out, so Differential
    Privacy draws no sample at all and returns the exact average, while it
    reports laplace_noise_added. *)
Lemma decimal_field_gets_no_noise :
  let rows := [[("avg_sal", VDecimal 7000000 (-2))]] in
  let run :=
    DifferentialPrivacy.aggregate (H := Fixtures.runtime) "system" 1
      Fixtures.salary_query None None None (Fixtures.world (Fixtures.always rows)) in
  Py.to_num (VDecimal 7000000 (-2)) = Some (Py.Rat 7000000 100) /\
  fst run =
    Ok (mkOutcome "Differential Privacy" false None (Some rows) (Some rows)
          (Some "epsilon=1.0, laplace_noise_added")) /\
  draws (snd run) = 0%nat.
Proof. repeat split. Qed.

(** ** Overlap Control: the similarity of two digests *)

Lemma hex_char_digit (c : ascii) :
  is_hex_char c = true ->
  Ascii.eqb c "_" = false /\
  PyStr.is_space c = false /\
  exists d, OverlapControl.hex_digit c = Some d /\ 0 <= d < 16.
Proof.
  destruct c as [[] [] [] [] [] [] [] []]; try discriminate; intros _;
    (split; [reflexivity|split; [reflexivity|]]);
    eexists; (split; [reflexivity|]); simpl; lia.
Qed.

Lemma hex_char_plain (c : ascii) :
  is_hex_char c = true ->
  Ascii.eqb c "x" = false /\ Ascii.eqb c "X" = false /\
  Ascii.eqb c "-" = false /\ Ascii.eqb c "+" = false.
Proof.
  destruct c as [[] [] [] [] [] [] [] []]; try discriminate; intros _;
    repeat split.
Qed.

(** Hex digits alone parse, to a number below 16 to their count. *)
Lemma hex_digits_value (s : string) (acc : Z) (after_digit : bool) :
  all_chars is_hex_char s = true ->
  s <> EmptyString \/ after_digit = true ->
  0 <= acc ->
  exists n,
    OverlapControl.hex_digits s acc after_digit = Some n /\
    0 <= n < (acc + 1) * 16 ^ Z.of_nat (String.length s).
Proof.
  revert acc after_digit. induction s as [|c s IH]; intros acc b Hall Hne Hacc.
  - destruct Hne as [Hne| ->]; [contradiction|]. exists acc. simpl. split; [reflexivity|lia].
  - cbn [all_chars] in Hall. apply andb_prop in Hall as [Hc Hall].
    destruct (hex_char_digit c Hc) as (Hnu & _ & d & Hd & Hrange).
    cbn [OverlapControl.hex_digits]. rewrite Hnu, Hd.
    destruct (IH (16 * acc + d) true Hall (or_intror eq_refl)) as (n & Hn & Hb); [lia|].
    exists n. split; [exact Hn|].
    cbn [String.length]. rewrite Nat2Z.inj_succ, Z.pow_succ_r by lia.
    nia.
Qed.

Lemma strip_hex (s : string) :
  all_chars is_hex_char s = true -> PyStr.strip s = s.
Proof.
  intros Hall. unfold PyStr.strip.
  assert (Hl : PyStr.lstrip s = s).
  { destruct s as [|c s]; [reflexivity|]. cbn [all_chars] in Hall.
    apply andb_prop in Hall as [Hc _].
    destruct (hex_char_digit c Hc) as (_ & Hsp & _). simpl. now rewrite Hsp. }
  rewrite Hl. induction s as [|c s IH]; [reflexivity|].
  cbn [all_chars] in Hall. apply andb_prop in Hall as [Hc Hall].
  destruct (hex_char_digit c Hc) as (_ & Hsp & _).
  assert (Hl' : PyStr.lstrip s = s).
  { destruct s as [|c' s']; [reflexivity|]. cbn [all_chars] in Hall.
    apply andb_prop in Hall as [Hc' _].
    destruct (hex_char_digit c' Hc') as (_ & Hsp' & _). simpl. now rewrite Hsp'. }
  cbn [PyStr.rstrip]. rewrite (IH Hall Hl'). rewrite Hsp. now destruct s.
Qed.

Lemma int16_hex (s : string) :
  all_chars is_hex_char s = true ->
  s <> EmptyString ->
  exists n,
    OverlapControl.int16 s = Ok n /\ 0 <= n < 16 ^ Z.of_nat (String.length s).
Proof.
  intros Hall Hne.
  destruct (hex_digits_value s 0 false Hall (or_introl Hne)) as (n & Hn & Hb); [lia|].
  exists n. split; [|lia].
  unfold OverlapControl.int16. rewrite strip_hex by assumption.
  assert (Hu : OverlapControl.unsigned16 s = Some n).
  { rewrite <- Hn. unfold OverlapControl.unsigned16.
    destruct s as [|c [|c' s']]; try reflexivity.
    - destruct c as [[] [] [] [] [] [] [] []]; reflexivity.
    - cbn [all_chars] in Hall. apply andb_prop in Hall as [_ Hall].
      apply andb_prop in Hall as [Hc' _].
      destruct (hex_char_plain c' Hc') as (Hx & HX & _).
      destruct c as [[] [] [] [] [] [] [] []]; try reflexivity.
      rewrite Hx, HX. reflexivity. }
  destruct s as [|c s']; [contradiction|].
  cbn [all_chars] in Hall. apply andb_prop in Hall as [Hc _].
  destruct (hex_char_plain c Hc) as (_ & _ & Hm & Hp).
  destruct c as [[] [] [] [] [] [] [] []]; try discriminate; rewrite Hu; reflexivity.
Qed.

Lemma length_bits (p : positive) (acc : string) :
  String.length (OverlapControl.bits p acc) =
    (Pos.size_nat p + String.length acc)%nat.
Proof.
  revert acc. induction p as [p IH|p IH|]; intros acc; simpl.
  - rewrite IH. simpl. lia.
  - rewrite IH. simpl. lia.
  - reflexivity.
Qed.

Lemma size_nat_bound (p : positive) (k : nat) :
  Zpos p < 2 ^ Z.of_nat k -> (Pos.size_nat p <= k)%nat.
Proof.
  revert k. induction p as [p IH|p IH|]; intros k Hlt.
  - destruct k as [|k]; [simpl in Hlt; lia|].
    rewrite Nat2Z.inj_succ, Z.pow_succ_r in Hlt by lia.
    simpl. apply le_n_S, IH. lia.
  - destruct k as [|k]; [simpl in Hlt; lia|].
    rewrite Nat2Z.inj_succ, Z.pow_succ_r in Hlt by lia.
    simpl. apply le_n_S, IH. lia.
  - destruct k as [|k]; [simpl in Hlt; lia|]. simpl. lia.
Qed.

Lemma length_zeros (n : nat) (s : string) :
  String.length (OverlapControl.zeros n s) = (n + String.length s)%nat.
Proof. induction n as [|n IH]; simpl; [reflexivity|now rewrite IH]. Qed.

Lemma length_zfill (width : nat) (s : string) :
  String.length (OverlapControl.zfill width s) =
    (width - String.length s + String.length s)%nat.
Proof.
  unfold OverlapControl.zfill. destruct s as [|c s]; [apply length_zeros|].
  destruct (Ascii.eqb c "+" || Ascii.eqb c "-").
  - cbn [String.length]. rewrite length_zeros. lia.
  - apply length_zeros.
Qed.

(** A number below 2 to the 256 gives exactly 256 binary digits. *)
Lemma length_bin256 (n : Z) :
  0 <= n < 2 ^ 256 ->
  String.length (OverlapControl.zfill 256 (PyStr.slice_from 2 (OverlapControl.bin n))) =
    256%nat.
Proof.
  intros [Hlo Hhi]. rewrite length_zfill.
  assert (Hlen : (String.length (PyStr.slice_from 2 (OverlapControl.bin n)) <= 256)%nat).
  { destruct n as [|p|p]; [simpl; lia| |lia].
    change (PyStr.slice_from 2 (OverlapControl.bin (Zpos p)))
      with (OverlapControl.bits p "").
    rewrite length_bits. cbn [String.length]. rewrite Nat.add_0_r.
    apply size_nat_bound. exact Hhi. }
  lia.
Qed.

Lemma matches_same (s : string) :
  OverlapControl.matches s s = Z.of_nat (String.length s).
Proof.
  induction s as [|c s IH]; [reflexivity|].
  cbn [OverlapControl.matches String.length]. rewrite Ascii.eqb_refl, IH. lia.
Qed.

Lemma hexdigest_parts (h : string) :
  is_hexdigest h = true ->
  String.length h = 64%nat /\ all_chars is_hex_char h = true /\ h <> EmptyString.
Proof.
  unfold is_hexdigest. intros Hh. apply andb_prop in Hh as [Hlen Hall].
  apply Nat.eqb_eq in Hlen. repeat split; try assumption.
  intros ->. discriminate.
Qed.

Lemma int16_hexdigest (h : string) :
  is_hexdigest h = true ->
  exists n, OverlapControl.int16 h = Ok n /\ 0 <= n < 2 ^ 256.
Proof.
  intros Hh. apply hexdigest_parts in Hh as (Hlen & Hall & Hne).
  destruct (int16_hex h Hall Hne) as (n & Hn & Hb).
  exists n. split; [exact Hn|]. rewrite Hlen in Hb.
  change (16 ^ Z.of_nat 64) with (2 ^ 256) in Hb. exact Hb.
Qed.

(** Two digests always have a similarity. *)
Lemma overlap_defined (h1 h2 : string) :
  is_hexdigest h1 = true -> is_hexdigest h2 = true ->
  exists overlap, OverlapControl._calculate_overlap h1 h2 = Ok overlap.
Proof.
  intros H1 H2.
  destruct (int16_hexdigest h1 H1) as (n1 & E1 & _).
  destruct (int16_hexdigest h2 H2) as (n2 & E2 & _).
  unfold OverlapControl._calculate_overlap. rewrite E1, E2. simpl. eexists. reflexivity.
Qed.

(** The similarity of a hash to itself is 1.0, for every text that [int]
    reads as a 256-bit number. *)
Lemma overlap_same_number (h : string) (n : Z) :
  OverlapControl.int16 h = Ok n -> 0 <= n < 2 ^ 256 ->
  OverlapControl._calculate_overlap h h = Ok 1%float.
Proof.
  intros E Hb. unfold OverlapControl._calculate_overlap. rewrite E. cbn [rbind].
  rewrite matches_same, length_bin256 by exact Hb. reflexivity.
Qed.

(** The similarity of a digest to itself is 1.0. *)
Lemma overlap_same (h : string) :
  is_hexdigest h = true -> OverlapControl._calculate_overlap h h = Ok 1%float.
Proof.
  intros Hh. destruct (int16_hexdigest h Hh) as (n & E & Hb).
  exact (overlap_same_number h n E Hb).
Qed.

(** ** Overlap Control: blocking *)

Lemma first_overlap_hits (threshold : float) (current_hash : string)
    (history : list HistoryEntry) (entry : HistoryEntry) (h : string) (overlap : float) :
  is_hexdigest current_hash = true ->
  Forall (fun e => forall x, result_set_hash e = Some x -> is_hexdigest x = true)
    history ->
  In entry history ->
  result_set_hash entry = Some h ->
  OverlapControl._calculate_overlap current_hash h = Ok overlap ->
  (threshold <? overlap)%float = true ->
  exists hit,
    OverlapControl.first_overlap threshold current_hash history = Ok (Some hit) /\
    (threshold <? hit)%float = true.
Proof.
  intros Hcur Hwf. induction Hwf as [|e rest He _ IH]; intros Hin Hh Hov Habove.
  - contradiction.
  - cbn [OverlapControl.first_overlap].
    destruct (result_set_hash e) as [x|] eqn:Ex.
    + pose proof (He x eq_refl) as Hx.
      destruct (overlap_defined current_hash x Hcur Hx) as [o1 Ho1].
      destruct x as [|c x]; [discriminate|].
      rewrite Ho1. cbn [rbind].
      destruct (threshold <? o1)%float eqn:E1.
      * exists o1. split; [reflexivity|exact E1].
      * destruct Hin as [<-|Hin]; [|apply IH; assumption].
        rewrite Ex in Hh. injection Hh as <-. rewrite Hov in Ho1.
        injection Ho1 as <-. congruence.
    + destruct Hin as [<-|Hin]; [congruence|].
      destruct e as [u qh qt [x|]]; [discriminate|]. apply IH; assumption.
Qed.

Lemma in_firstn {A} (n : nat) (l : list A) (x : A) : In x (firstn n l) -> In x l.
Proof.
  revert l. induction n as [|n IH]; intros [|a l]; simpl; try contradiction.
  intros [->|Hin]; [left; reflexivity|right; apply IH, Hin].
Qed.

Lemma recent_incl (username : string) (limit : Z) (table : list HistoryEntry)
    (e : HistoryEntry) :
  In e (Database.recent username limit table) -> In e table.
Proof.
  unfold Database.recent. intros Hin. apply in_firstn in Hin.
  apply filter_In in Hin as [Hin _]. exact Hin.
Qed.

Lemma get_query_history_readable (w : World) (username : string) (limit : Z) :
  history_readable w ->
  Database.get_query_history username limit w =
    (Ok (Database.recent username limit (query_history w)), tick w).
Proof.
  intros Hread. unfold Database.get_query_history, Database.execute_query. step.
  case_pg w E; [reflexivity|].
  exfalso. eapply Hread; [|exact E]. reflexivity.
Qed.

(** A query whose result-set hash is too similar to a recent entry of the
    caller is blocked. *)
Lemma overlap_blocks `{PyRuntime} (w : World) (username : string)
    (overlap_threshold : float) (query : string) (params : option (list Value))
    (user password : option string)
    (entry : HistoryEntry) (h : string) (rows : list Row) (overlap : float) :
  audit_accepted w ->
  history_readable w ->
  history_well_formed w ->
  In entry (Database.recent username 20 (query_history w)) ->
  result_set_hash entry = Some h ->
  pg w (S (clock w)) (mkStatement query params user password) = Rows rows ->
  truthy (Some rows) = true ->
  OverlapControl._calculate_overlap (Database.hash_result_set rows) h = Ok overlap ->
  (overlap_threshold <? overlap)%float = true ->
  exists o,
    fst (OverlapControl.aggregate username overlap_threshold query params user
           password w) = Ok o /\
    blocked o = true /\ results o = None.
Proof.
  intros Hacc Hread Hwf Hin Hh Hpg Hrows Hov Habove.
  unfold OverlapControl.aggregate. step.
  rewrite get_query_history_readable by assumption.
  rewrite gateway_rows with (rs := rows) by assumption.
  destruct rows as [|r rs]; [discriminate|].
  cbn [orb negb truthy]. cbv iota beta.
  assert (Hwf' : Forall (fun e => forall x, result_set_hash e = Some x ->
                                            is_hexdigest x = true)
                   (Database.recent username 20 (query_history w))).
  { apply Forall_forall. intros e He. apply recent_incl in He.
    unfold history_well_formed in Hwf. rewrite Forall_forall in Hwf. apply Hwf, He. }
  destruct (first_overlap_hits overlap_threshold (Database.hash_result_set (r :: rs))
              _ entry h overlap (sha256_hexdigest_shape _) Hwf' Hin Hh Hov Habove)
    as (hit & -> & _).
  rewrite log_query_audit_accepted by assumption.
  eexists. repeat split.
Qed.

(** C4: the similarity of a 256-bit hash to itself is exactly 1.0, for every
    text that [int(h, 16)] reads as a number below 2 to the 256, so for every
    SHA-256 hex digest; and a query whose result-set hash has a similarity
    strictly above the threshold to the hash of an entry among the caller's
    20 most recent history entries is blocked.  The store is assumed to
    accept the history SELECT and the audit INSERTs, and the stored hashes to
    be SHA-256 digests. *)
Theorem overlap_reflexive_and_blocks `{PyRuntime} :
  (forall h n, OverlapControl.int16 h = Ok n -> 0 <= n < 2 ^ 256 ->
               OverlapControl._calculate_overlap h h = Ok 1%float) /\
  (forall h, is_hexdigest h = true ->
             OverlapControl._calculate_overlap h h = Ok 1%float) /\
  (forall (w : World) (username : string) (overlap_threshold : float)
          (query : string) (params : option (list Value))
          (user password : option string)
          (entry : HistoryEntry) (h : string) (rows : list Row) (overlap : float),
      audit_accepted w ->
      history_readable w ->
      history_well_formed w ->
      In entry (Database.recent username 20 (query_history w)) ->
      result_set_hash entry = Some h ->
      pg w (S (clock w)) (mkStatement query params user password) = Rows rows ->
      truthy (Some rows) = true ->
      OverlapControl._calculate_overlap (Database.hash_result_set rows) h = Ok overlap ->
      (overlap_threshold <? overlap)%float = true ->
      exists o,
        fst (OverlapControl.aggregate username overlap_threshold query params user
               password w) = Ok o /\
        blocked o = true /\ results o = None).
Proof.
  split; [|split].
  - intros h n E Hb. exact (overlap_same_number h n E Hb).
  - intros h Hh. apply overlap_same, Hh.
  - intros w username threshold query params user password entry h rows overlap.
    apply overlap_blocks.
Qed.

Lemma always_accepts (w : World) (rs : list Row) :
  pg w = Fixtures.always rs -> audit_accepted w /\ history_readable w.
Proof.
  intros Hpg. split; intros n st msg _; rewrite Hpg; discriminate.
Qed.

Lemma history_well_formed_check (w : World) :
  forallb stored_digest (query_history w) = true -> history_well_formed w.
Proof.
  unfold history_well_formed. rewrite forallb_forall, Forall_forall.
  intros Hall e He x Hx. specialize (Hall e He). unfold stored_digest in Hall.
  rewrite Hx in Hall. exact Hall.
Qed.

Lemma overlap_reflexive_and_blocks_witness :
  exists o,
    fst (OverlapControl.aggregate (H := Fixtures.runtime) "system" Fixtures.threshold
           Fixtures.salary_query None None None
           (Fixtures.seen [[("avg_sal", VInt 70000)]])) = Ok o /\
    blocked o = true /\ results o = None.
Proof.
  exact (proj2 (proj2 (overlap_reflexive_and_blocks (H := Fixtures.runtime)))
           (Fixtures.seen [[("avg_sal", VInt 70000)]])
           "system" Fixtures.threshold Fixtures.salary_query None None None
           (mkHistory "system" Fixtures.digest Fixtures.salary_query
              (Some Fixtures.digest))
           Fixtures.digest [[("avg_sal", VInt 70000)]] 1%float
           (proj1 (always_accepts (Fixtures.seen [[("avg_sal", VInt 70000)]]) _ eq_refl))
           (proj2 (always_accepts (Fixtures.seen [[("avg_sal", VInt 70000)]]) _ eq_refl))
           (history_well_formed_check (Fixtures.seen [[("avg_sal", VInt 70000)]]) eq_refl)
           (or_introl eq_refl) eq_refl eq_refl eq_refl eq_refl eq_refl).
Defined.

(** ** The Differencing attack *)

Lemma attack_query_rows (w : World) query params user password rs :
  pg w (clock w) (mkStatement query params user password) = Rows rs ->
  InferenceAttack.execute_query query params user password w = (Ok (Some rs), tick w).
Proof.
  intros Hpg. unfold InferenceAttack.execute_query, try_except, Database.execute_query.
  rewrite Hpg. reflexivity.
Qed.

Lemma attack_query_rejected (w : World) query params user password msg :
  pg w (clock w) (mkStatement query params user password) = Rejected msg ->
  InferenceAttack.execute_query query params user password w = (Ok None, tick w).
Proof.
  intros Hpg. unfold InferenceAttack.execute_query, try_except, Database.execute_query.
  rewrite Hpg. reflexivity.
Qed.

Lemma attack_query_no_rows (w : World) query params user password :
  no_rows (pg w (clock w) (mkStatement query params user password)) ->
  exists res,
    InferenceAttack.execute_query query params user password w = (Ok res, tick w) /\
    truthy res = false.
Proof.
  intros Hno.
  destruct (pg w (clock w) (mkStatement query params user password)) as [[|r rs]|msg] eqn:E.
  - exists (Some []). split; [now apply attack_query_rows|reflexivity].
  - contradiction.
  - exists None. split; [now apply attack_query_rejected with (msg := msg)|reflexivity].
Qed.

(** X23: what the Differencing attack computes.  When both aggregate queries
    return rows whose averages are values that float() accepts and whose
    counts are ints that fit a float, and the verification does not raise,
    the attack reports success with inferred_salary = avg_with_target *
    total_count - avg_without_target * count_without, where count_without is
    the count that the second query returned, not total_count - 1.  When the
    first query returns no rows, or the first is answered and the second
    returns no rows, it returns the failure that names the query. *)
Theorem differencing_reconstruction `{PyRuntime} (w : World)
    (target_name department : string) (user password : option string) :
  let run := DifferencingAttack.attack target_name department user password w in
  let answer1 :=
    pg w (clock w)
      (mkStatement DifferencingAttack.query1 (Some [VStr department]) user password) in
  let answer2 :=
    pg w (S (clock w))
      (mkStatement DifferencingAttack.query2
         (Some [VStr department; VStr target_name]) user password) in
  let answer3 :=
    pg w (S (S (clock w)))
      (mkStatement DifferencingAttack.verify_query (Some [VStr target_name])
         user password) in
  (forall rows1 rows2 avg_with_target avg_without_target total_count count_without x y,
      answer1 = Rows rows1 -> truthy (Some rows1) = true ->
      DifferencingAttack.float_field (Some rows1) "avg_salary" = Ok avg_with_target ->
      DifferencingAttack.field (Some rows1) "emp_count" = Ok (VInt total_count) ->
      Py.float_of_int total_count = Ok x ->
      answer2 = Rows rows2 -> truthy (Some rows2) = true ->
      DifferencingAttack.float_field (Some rows2) "avg_salary" = Ok avg_without_target ->
      DifferencingAttack.field (Some rows2) "emp_count" = Ok (VInt count_without) ->
      Py.float_of_int count_without = Ok y ->
      verifiable answer3 ->
      exists r,
        fst run = Ok r /\
        DifferencingAttack.success r = true /\
        DifferencingAttack.inferred_salary r =
          Some (avg_with_target * x - avg_without_target * y)%float) /\
  (no_rows answer1 ->
   fst run = Ok (DifferencingAttack.failed "Failed to execute first query")) /\
  (forall rows1 avg_with_target total_count,
      answer1 = Rows rows1 -> truthy (Some rows1) = true ->
      DifferencingAttack.float_field (Some rows1) "avg_salary" = Ok avg_with_target ->
      DifferencingAttack.field (Some rows1) "emp_count" = Ok total_count ->
      no_rows answer2 ->
      fst run = Ok (DifferencingAttack.failed "Failed to execute second query")).
Proof.
  intros run answer1 answer2 answer3. unfold run, DifferencingAttack.attack.
  split; [|split].
  - intros rows1 rows2 a1 a2 n m x y H1 T1 F1 C1 X H2 T2 F2 C2 Y Hv.
    step. rewrite attack_query_rows with (rs := rows1) by exact H1.
    rewrite T1. cbn [negb]. rewrite F1, C1.
    rewrite attack_query_rows with (rs := rows2) by exact H2.
    rewrite T2. cbn [negb]. rewrite F2, C2.
    unfold Py.float_mul. rewrite X, Y. cbn [rbind].
    unfold answer3 in Hv.
    destruct (pg w (S (S (clock w))) _) as [[|r3 rs3]|msg] eqn:E3.
    + rewrite attack_query_rows with (rs := []) by exact E3. cbn [truthy].
      eexists. repeat split.
    + rewrite attack_query_rows with (rs := r3 :: rs3) by exact E3. cbn [truthy].
      destruct Hv as [s ->]. cbn [rbind]. eexists. repeat split.
    + rewrite attack_query_rejected with (msg := msg) by exact E3. cbn [truthy].
      eexists. repeat split.
  - intros Hno. step.
    destruct (attack_query_no_rows w _ _ _ _ Hno) as (res & -> & ->). reflexivity.
  - intros rows1 a1 n H1 T1 F1 C1 Hno.
    step. rewrite attack_query_rows with (rs := rows1) by exact H1.
    rewrite T1. cbn [negb]. rewrite F1, C1.
    destruct (attack_query_no_rows (tick w) _ _ _ _ Hno) as (res & -> & ->).
    reflexivity.
Qed.

Lemma differencing_reconstruction_witness :
  exists r,
    fst (DifferencingAttack.attack (H := Fixtures.runtime) "Alice Johnson" "Engineering"
           None None (Fixtures.world (Fixtures.averages 70000 10 66000 9))) = Ok r /\
    DifferencingAttack.success r = true /\
    DifferencingAttack.inferred_salary r = Some (70000 * 10 - 66000 * 9)%float.
Proof.
  exact (proj1 (differencing_reconstruction (H := Fixtures.runtime)
                  (Fixtures.world (Fixtures.averages 70000 10 66000 9))
                  "Alice Johnson" "Engineering" None None)
           [[("avg_salary", VFloat 70000); ("emp_count", VInt 10)]]
           [[("avg_salary", VFloat 66000); ("emp_count", VInt 9)]]
           70000%float 66000%float 10 9 10%float 9%float
           eq_refl eq_refl eq_refl eq_refl eq_refl
           eq_refl eq_refl eq_refl eq_refl eq_refl I).
Defined.

(** C6: the claim does not hold of the code, which does not follow the
    formula of its own comment, avg_with * total - avg_without * (total - 1).
    The target is not in the department, so both queries return rows with
    the same average 100 over the same 4 employees; the attack multiplies
    the second average by the count of the second query and reports
    100 * 4 - 100 * 4 = 0, where the formula gives
    100 * 4 - 100 * (4 - 1) = 100. *)
Lemma differencing_uses_second_count :
  fst (DifferencingAttack.attack (H := Fixtures.runtime) "Zed Young" "Operations"
         None None (Fixtures.world (Fixtures.averages 100 4 100 4))) =
    Ok (DifferencingAttack.mkResult "Differencing" true None (Some "Zed Young")
          (Some "Operations") (Some 0%float) None None (Some 2)) /\
  (100 * 4 - 100 * (4 - 1))%float = 100%float /\
  (0 =? 100)%float = false.
Proof. repeat split. Qed.

(** ** The Sum attack *)

(** With exactly one unknown employee, a member query that the store rejects
    makes the attack raise: [execute_query] returns [None] and the loop
    iterates over it. *)
Lemma sum_attack_enumeration_failure `{PyRuntime} (w : World) (department : string)
    (known_salaries : list (string * float)) (user password : option string)
    (rows : list Row) (total_sum : float) (total_count : Z) (msg : string) :
  pg w (clock w) (mkStatement SumAttack.query1 (Some [VStr department]) user password) =
    Rows rows ->
  truthy (Some rows) = true ->
  DifferencingAttack.float_field (Some rows) "total_salary" = Ok total_sum ->
  DifferencingAttack.field (Some rows) "emp_count" = Ok (VInt total_count) ->
  total_count - Z.of_nat (List.length known_salaries) = 1 ->
  pg w (S (clock w)) (mkStatement SumAttack.query2 (Some [VStr department]) user password) =
    Rejected msg ->
  fst (SumAttack.attack department known_salaries user password w) =
    Raise (TypeError "'NoneType' object is not iterable").
Proof.
  intros H1 T1 F1 C1 Hone H2. unfold SumAttack.attack. step.
  rewrite attack_query_rows with (rs := rows) by exact H1.
  rewrite T1. cbn [negb]. rewrite F1, C1.
  cbn [Py.sub_int]. rewrite Hone. cbn.
  rewrite attack_query_rejected with (msg := msg) by exact H2. reflexivity.
Qed.

(** C7: the claim, that every attack returns a structured result whatever
    query fails, does not hold of the code.  The department has two
    employees, one salary is known, and the store rejects the query that
    enumerates the members: the Sum attack raises TypeError. *)
Theorem sum_attack_raises :
  fst (SumAttack.attack (H := Fixtures.runtime) "Operations"
         [("Dana Cox", 72000%float)] None None
         (Fixtures.world
            (Fixtures.rejecting SumAttack.query2 "permission denied for table employees"
               [[("total_salary", VFloat 144000); ("emp_count", VInt 2)]]))) =
    Raise (TypeError "'NoneType' object is not iterable").
Proof. reflexivity. Qed.

(** ** Overlap Control: a repeated result *)

Lemma first_overlap_defined (threshold : float) (current_hash : string)
    (history : list HistoryEntry) :
  is_hexdigest current_hash = true ->
  Forall (fun e => forall x, result_set_hash e = Some x -> is_hexdigest x = true)
    history ->
  exists r, OverlapControl.first_overlap threshold current_hash history = Ok r.
Proof.
  intros Hcur Hwf. induction Hwf as [|e rest He _ [r IH]].
  - exists None. reflexivity.
  - cbn [OverlapControl.first_overlap].
    destruct (result_set_hash e) as [[|c x]|] eqn:Ex; try (exists r; exact IH).
    destruct (overlap_defined current_hash (String c x) Hcur (He _ eq_refl)) as [o Ho].
    rewrite Ho. cbn [rbind].
    destruct (threshold <? o)%float; [exists (Some o); reflexivity|exists r; exact IH].
Qed.

Lemma first_overlap_found (threshold : float) (current_hash : string)
    (history : list HistoryEntry) (hit : float) :
  OverlapControl.first_overlap threshold current_hash history = Ok (Some hit) ->
  exists entry h,
    In entry history /\ result_set_hash entry = Some h /\
    OverlapControl._calculate_overlap current_hash h = Ok hit /\
    (threshold <? hit)%float = true.
Proof.
  induction history as [|e rest IH]; [discriminate|].
  cbn [OverlapControl.first_overlap].
  destruct (result_set_hash e) as [[|c x]|] eqn:Ex.
  - intros Hf. destruct (IH Hf) as (entry & h & Hin & Hrest).
    exists entry, h. split; [right; exact Hin|exact Hrest].
  - destruct (OverlapControl._calculate_overlap current_hash (String c x)) as [o|]
      eqn:Eo; [|discriminate].
    cbn [rbind]. destruct (threshold <? o)%float eqn:Et.
    + intros [= <-]. exists e, (String c x). repeat split; auto. left. reflexivity.
    + intros Hf. destruct (IH Hf) as (entry & h & Hin & Hrest).
      exists entry, h. split; [right; exact Hin|exact Hrest].
  - intros Hf. destruct (IH Hf) as (entry & h & Hin & Hrest).
    exists entry, h. split; [right; exact Hin|exact Hrest].
Qed.

Lemma store_query_history_accepted `{PyRuntime} (w : World) (username query : string)
    (r : Row) (rs : list Row) :
  history_writable w ->
  Database.store_query_history username query (Some (r :: rs)) w =
    (Ok tt,
     add_history (mkHistory username (sha256_hexdigest query) query
                    (Some (Database.hash_result_set (r :: rs)))) (tick w)).
Proof.
  intros Hw. unfold Database.store_query_history, Database.execute_query,
    Database.insert_history. step.
  case_pg w E; [reflexivity|].
  exfalso. eapply Hw; [|exact E]. reflexivity.
Qed.

(** X1: once Overlap Control has answered a query that returned rows, a
    later query by the same caller that returns the same rows is blocked,
    for every threshold below 1.0: either the first answer was already
    blocked by an older entry, which blocks the second one too, or the first
    answer appended the result set to the history, and the second one has
    similarity 1.0 to it. *)
Theorem repeated_result_blocked `{PyRuntime} (w : World) (username : string)
    (overlap_threshold : float) (query query' : string)
    (params params' : option (list Value)) (user user' password password' : option string)
    (rows : list Row) :
  let first :=
    OverlapControl.aggregate username overlap_threshold query params user password w in
  audit_accepted w ->
  history_readable w ->
  history_writable w ->
  history_well_formed w ->
  pg w (S (clock w)) (mkStatement query params user password) = Rows rows ->
  truthy (Some rows) = true ->
  pg w (5 + clock w)%nat (mkStatement query' params' user' password') = Rows rows ->
  (overlap_threshold <? 1)%float = true ->
  exists o1 o2,
    fst first = Ok o1 /\
    fst (OverlapControl.aggregate username overlap_threshold query' params' user'
           password' (snd first)) = Ok o2 /\
    blocked o2 = true.
Proof.
  intros first Hacc Hread Hwrite Hwf Hpg Hrows Hpg' Hbelow.
  assert (Hwf' : Forall (fun e => forall x, result_set_hash e = Some x ->
                                            is_hexdigest x = true)
                   (Database.recent username 20 (query_history w))).
  { apply Forall_forall. intros e He. apply recent_incl in He.
    unfold history_well_formed in Hwf. rewrite Forall_forall in Hwf. apply Hwf, He. }
  destruct rows as [|r rs]; [discriminate|].
  destruct (first_overlap_defined overlap_threshold (Database.hash_result_set (r :: rs))
              _ (sha256_hexdigest_shape _) Hwf') as [[hit|] Hfirst].
  - destruct (first_overlap_found _ _ _ _ Hfirst) as (entry & h & Hin & Hh & Hov & Habove).
    assert (Hrun : exists o1,
               first =
                 (Ok o1,
                  add_audit (mkAudit username query
                               (VInt (Z.of_nat (List.length (r :: rs)))) true
                               (Some ("Query overlap too high: " +++ format_2f hit
                                        +++ " > " +++ str_of_float overlap_threshold)))
                    (tick (add_audit (mkAudit username query
                                        (VInt (Z.of_nat (List.length (r :: rs))))
                                        false None)
                             (tick (tick (tick w))))))).
    { unfold first, OverlapControl.aggregate. step.
      rewrite get_query_history_readable by assumption.
      rewrite gateway_rows with (rs := r :: rs) by assumption.
      cbn [orb negb truthy]. cbv iota beta. rewrite Hfirst.
      rewrite log_query_audit_accepted by assumption. eexists. reflexivity. }
    destruct Hrun as [o1 ->]. exists o1. cbn [fst snd].
    edestruct (overlap_blocks
                 (add_audit (mkAudit username query
                               (VInt (Z.of_nat (List.length (r :: rs)))) true
                               (Some ("Query overlap too high: " +++ format_2f hit
                                        +++ " > " +++ str_of_float overlap_threshold)))
                    (tick (add_audit (mkAudit username query
                                        (VInt (Z.of_nat (List.length (r :: rs))))
                                        false None)
                             (tick (tick (tick w))))))
                 username overlap_threshold query' params' user' password'
                 entry h (r :: rs) hit) as (o2 & Ho2 & Hb & _);
      try eassumption; try reflexivity.
    exists o2. repeat split; assumption.
  - set (e := mkHistory username (sha256_hexdigest query) query
                (Some (Database.hash_result_set (r :: rs)))).
    assert (Hrun : exists o1,
               first =
                 (Ok o1,
                  add_history e
                    (tick (add_audit (mkAudit username query
                                        (VInt (Z.of_nat (List.length (r :: rs))))
                                        false None)
                             (tick (tick (tick w))))))).
    { unfold first, OverlapControl.aggregate. step.
      rewrite get_query_history_readable by assumption.
      rewrite gateway_rows with (rs := r :: rs) by assumption.
      cbn [orb negb truthy]. cbv iota beta. rewrite Hfirst.
      rewrite store_query_history_accepted by assumption. eexists. reflexivity. }
    destruct Hrun as [o1 ->]. exists o1. cbn [fst snd].
    edestruct (overlap_blocks
                 (add_history e
                    (tick (add_audit (mkAudit username query
                                        (VInt (Z.of_nat (List.length (r :: rs))))
                                        false None)
                             (tick (tick (tick w))))))
                 username overlap_threshold query' params' user' password'
                 e (Database.hash_result_set (r :: rs)) (r :: rs) 1%float)
      as (o2 & Ho2 & Hb & _); try eassumption; try reflexivity.
    + unfold history_well_formed. cbn [query_history add_history tick add_audit].
      constructor; [|exact Hwf].
      intros x [= <-]. apply sha256_hexdigest_shape.
    + cbn [query_history add_history tick add_audit]. unfold Database.recent.
      cbn [filter h_username e]. rewrite String.eqb_refl.
      change (Z.to_nat 20) with 20%nat. cbn [firstn]. left. reflexivity.
    + apply overlap_same, sha256_hexdigest_shape.
    + exists o2. repeat split; assumption.
Qed.

Lemma always_writable (w : World) (rs : list Row) :
  pg w = Fixtures.always rs -> history_writable w.
Proof. intros Hpg n st msg _. rewrite Hpg. discriminate. Qed.

Lemma repeated_result_blocked_witness :
  let w := Fixtures.world (Fixtures.always [[("avg_sal", VInt 70000)]]) in
  let first :=
    OverlapControl.aggregate (H := Fixtures.runtime) "system" Fixtures.threshold
      Fixtures.salary_query None None None w in
  exists o1 o2,
    fst first = Ok o1 /\
    fst (OverlapControl.aggregate (H := Fixtures.runtime) "system" Fixtures.threshold
           Fixtures.salary_query None None None (snd first)) = Ok o2 /\
    blocked o2 = true.
Proof.
  exact (repeated_result_blocked (H := Fixtures.runtime)
           (Fixtures.world (Fixtures.always [[("avg_sal", VInt 70000)]]))
           "system" Fixtures.threshold Fixtures.salary_query Fixtures.salary_query
           None None None None None None [[("avg_sal", VInt 70000)]]
           (proj1 (always_accepts (Fixtures.world (Fixtures.always _)) _ eq_refl))
           (proj2 (always_accepts (Fixtures.world (Fixtures.always _)) _ eq_refl))
           (always_writable (Fixtures.world (Fixtures.always _)) _ eq_refl)
           (Forall_nil _) eq_refl eq_refl eq_refl eq_refl).
Defined.

(** ** The history table under Overlap Control *)

Lemma keeps_bind {A B} (c : M A) (k : A -> M B) :
  keeps_history_well_formed c ->
  (forall a, keeps_history_well_formed (k a)) ->
  keeps_history_well_formed (bind c k).
Proof.
  intros Hc Hk w Hw. unfold bind. specialize (Hc w Hw).
  destruct (c w) as [[a|e] w1]; [apply Hk; exact Hc|exact Hc].
Qed.

Lemma keeps_try {A} (c : M A) (h : exn -> M A) :
  keeps_history_well_formed c ->
  (forall e, keeps_history_well_formed (h e)) ->
  keeps_history_well_formed (try_except c h).
Proof.
  intros Hc Hh w Hw. unfold try_except. specialize (Hc w Hw).
  destruct (c w) as [[a|e] w1]; [exact Hc|apply Hh; exact Hc].
Qed.

Lemma keeps_ret {A} (a : A) : keeps_history_well_formed (ret a).
Proof. intros w Hw. exact Hw. Qed.

Lemma keeps_lift {A} (r : Result A) : keeps_history_well_formed (lift r).
Proof. intros w Hw. exact Hw. Qed.

Lemma keeps_execute_query query params user password fetch :
  keeps_history_well_formed (Database.execute_query query params user password fetch).
Proof.
  intros w Hw. unfold Database.execute_query.
  destruct (pg w (clock w) _); exact Hw.
Qed.

Lemma keeps_log_query_audit username query count was_blocked why :
  keeps_history_well_formed
    (Database.log_query_audit username query count was_blocked why).
Proof.
  unfold Database.log_query_audit. apply keeps_bind.
  - apply keeps_execute_query.
  - intros _ w Hw. exact Hw.
Qed.

Lemma keeps_gateway username query params user password :
  keeps_history_well_formed
    (AggregationMethod.execute_with_logging username query params user password).
Proof.
  unfold AggregationMethod.execute_with_logging. apply keeps_try.
  - apply keeps_bind; [apply keeps_execute_query|]. intros res.
    apply keeps_bind; [apply keeps_log_query_audit|]. intros _. apply keeps_ret.
  - intros e. apply keeps_bind; [apply keeps_log_query_audit|]. intros _.
    apply keeps_ret.
Qed.

Lemma keeps_store_query_history `{PyRuntime} username query result_set :
  keeps_history_well_formed (Database.store_query_history username query result_set).
Proof.
  unfold Database.store_query_history. apply keeps_bind.
  - apply keeps_execute_query.
  - intros _ w Hw. unfold Database.insert_history, history_well_formed. simpl.
    constructor; [|exact Hw]. simpl.
    destruct result_set as [[|r rs]|]; try discriminate.
    intros x [= <-]. apply sha256_hexdigest_shape.
Qed.

Lemma keeps_overlap_control `{PyRuntime} (username : string)
    (overlap_threshold : float) (query : string) (params : option (list Value))
    (user password : option string) :
  keeps_history_well_formed
    (OverlapControl.aggregate username overlap_threshold query params user password).
Proof.
  unfold OverlapControl.aggregate. apply keeps_bind.
  - unfold Database.get_query_history. apply keeps_bind.
    + apply keeps_execute_query.
    + intros _ w Hw. exact Hw.
  - intros history. apply keeps_bind; [apply keeps_gateway|].
    intros [[res b] reason].
    destruct (b || negb (truthy res)); [apply keeps_ret|].
    apply keeps_bind; [apply keeps_lift|]. intros [hit|].
    + apply keeps_bind; [apply keeps_log_query_audit|]. intros _. apply keeps_ret.
    + apply keeps_bind; [apply keeps_store_query_history|]. intros _. apply keeps_ret.
Qed.

(** X2: Overlap Control keeps the history table well formed: whatever the
    store answers, if every stored result-set hash is a SHA-256 digest before
    [aggregate] runs, every stored result-set hash is one after it. *)
Theorem overlap_keeps_history_well_formed `{PyRuntime} (w : World) (username : string)
    (overlap_threshold : float) (query : string) (params : option (list Value))
    (user password : option string) :
  history_well_formed w ->
  history_well_formed
    (snd (OverlapControl.aggregate username overlap_threshold query params user
            password w)).
Proof. apply keeps_overlap_control. Qed.

Lemma overlap_keeps_history_well_formed_witness :
  history_well_formed
    (snd (OverlapControl.aggregate (H := Fixtures.runtime) "system" Fixtures.threshold
            Fixtures.salary_query None None None
            (Fixtures.world (Fixtures.always [[("avg_sal", VInt 70000)]])))).
Proof.
  exact (overlap_keeps_history_well_formed (H := Fixtures.runtime)
           (Fixtures.world (Fixtures.always [[("avg_sal", VInt 70000)]]))
           "system" Fixtures.threshold Fixtures.salary_query None None None
           (Forall_nil _)).
Defined.

(** X27: a query of an attack never raises.  [InferenceAttack.execute_query]
    returns the rows that the store answers the statement with, and [None]
    when the store rejects it: the error is swallowed and its message lost.
    Either way the store has received exactly one statement, and nothing
    else has changed. *)
Theorem attack_query_never_raises (w : World) (query : string)
    (params : option (list Value)) (user password : option string) :
  InferenceAttack.execute_query query params user password w =
    (Ok (returned (pg w (clock w) (mkStatement query params user password))), tick w).
Proof.
  destruct (pg w (clock w) (mkStatement query params user password)) as [rs|msg] eqn:E.
  - apply attack_query_rows. exact E.
  - apply attack_query_rejected with (msg := msg). exact E.
Qed.


(** ** Footprints: what each computation may write *)

Lemma within_refl (f : Footprint) (w : World) : within f w w.
Proof.
  unfold within. repeat split; try reflexivity; try lia;
    exists []; split; reflexivity.
Qed.

Lemma within_trans (f : Footprint) (w1 w2 w3 : World) :
  within f w1 w2 -> within f w2 w3 -> within f w1 w3.
Proof.
  intros (Hp & Hn & Hc & (a & Ha & Ha0) & (h & Hh & Hh0) & Hd & Hd0)
         (Hp' & Hn' & Hc' & (a' & Ha' & Ha0') & (h' & Hh' & Hh0') & Hd' & Hd0').
  unfold within. split; [congruence|]. split; [congruence|]. split; [lia|].
  split; [|split; [|split; [lia|]]].
  - exists (a' ++ a)%list. split.
    + rewrite Ha', Ha. apply app_assoc.
    + intros E. rewrite (Ha0 E), (Ha0' E). reflexivity.
  - exists (h' ++ h)%list. split.
    + rewrite Hh', Hh. apply app_assoc.
    + intros E. rewrite (Hh0 E), (Hh0' E). reflexivity.
  - intros E. rewrite (Hd0' E). apply Hd0, E.
Qed.

Lemma within_tick (f : Footprint) (w : World) : within f w (tick w).
Proof.
  unfold within, tick. simpl. repeat split; try lia;
    exists []; split; reflexivity.
Qed.

Lemma confined_ret {A} (f : Footprint) (a : A) : confined f (ret a).
Proof. intros w. apply within_refl. Qed.

Lemma confined_lift {A} (f : Footprint) (r : Result A) : confined f (lift r).
Proof. intros w. apply within_refl. Qed.

Lemma confined_raise {A} (f : Footprint) (e : exn) : confined f (raise (A := A) e).
Proof. intros w. apply within_refl. Qed.

Lemma confined_bind {A B} (f : Footprint) (c : M A) (k : A -> M B) :
  confined f c -> (forall a, confined f (k a)) -> confined f (bind c k).
Proof.
  intros Hc Hk w. unfold bind. specialize (Hc w).
  destruct (c w) as [[a|e] w1]; [|exact Hc].
  eapply within_trans; [exact Hc|apply Hk].
Qed.

Lemma confined_try {A} (f : Footprint) (c : M A) (h : exn -> M A) :
  confined f c -> (forall e, confined f (h e)) -> confined f (try_except c h).
Proof.
  intros Hc Hh w. unfold try_except. specialize (Hc w).
  destruct (c w) as [[a|e] w1]; [exact Hc|].
  eapply within_trans; [exact Hc|apply Hh].
Qed.

Lemma confined_execute_query (f : Footprint) query params user password fetch :
  confined f (Database.execute_query query params user password fetch).
Proof.
  intros w. unfold Database.execute_query.
  destruct (pg w (clock w) _); apply within_tick.
Qed.

Lemma confined_attack_query (f : Footprint) query params user password :
  confined f (InferenceAttack.execute_query query params user password).
Proof.
  unfold InferenceAttack.execute_query. apply confined_try.
  - apply confined_execute_query.
  - intros e. apply confined_ret.
Qed.

Lemma confined_log_query_audit (f : Footprint) username query count was_blocked why :
  writes_audit f = true ->
  confined f (Database.log_query_audit username query count was_blocked why).
Proof.
  intros Hf. unfold Database.log_query_audit. apply confined_bind.
  - apply confined_execute_query.
  - intros _ w. unfold Database.insert_audit, within, add_audit. simpl.
    repeat split; try lia.
    + eexists [_]. split; [reflexivity|congruence].
    + exists []. split; reflexivity.
Qed.

Lemma confined_store_query_history `{PyRuntime} (f : Footprint) username query result_set :
  writes_history f = true ->
  confined f (Database.store_query_history username query result_set).
Proof.
  intros Hf. unfold Database.store_query_history. apply confined_bind.
  - apply confined_execute_query.
  - intros _ w. unfold Database.insert_history, within, add_history. simpl.
    repeat split; try lia.
    + exists []. split; reflexivity.
    + eexists [_]. split; [reflexivity|congruence].
Qed.

Lemma confined_get_query_history (f : Footprint) username limit :
  confined f (Database.get_query_history username limit).
Proof.
  unfold Database.get_query_history. apply confined_bind.
  - apply confined_execute_query.
  - intros _ w. apply within_refl.
Qed.

Lemma confined_gateway (f : Footprint) username query params user password :
  writes_audit f = true ->
  confined f (AggregationMethod.execute_with_logging username query params user password).
Proof.
  intros Hf. unfold AggregationMethod.execute_with_logging. apply confined_try.
  - apply confined_bind; [apply confined_execute_query|]. intros res.
    apply confined_bind; [apply confined_log_query_audit, Hf|]. intros _.
    apply confined_ret.
  - intros e. apply confined_bind; [apply confined_log_query_audit, Hf|]. intros _.
    apply confined_ret.
Qed.

Lemma confined_laplace (f : Footprint) (loc scale : float) :
  draws_samples f = true -> confined f (laplace loc scale).
Proof.
  intros Hf w. unfold laplace. destruct (negative_scale scale); [apply within_refl|].
  unfold within, drawn. simpl. repeat split; try lia; try congruence;
    exists []; split; reflexivity.
Qed.

Lemma confined_mapM {A B} (f : Footprint) (g : A -> M B) (l : list A) :
  (forall a, confined f (g a)) -> confined f (mapM g l).
Proof.
  intros Hg. induction l as [|a l IH]; simpl; [apply confined_ret|].
  apply confined_bind; [apply Hg|]. intros b.
  apply confined_bind; [exact IH|]. intros bs. apply confined_ret.
Qed.

Ltac confine :=
  repeat first
    [ apply confined_ret | apply confined_lift | apply confined_raise
    | apply confined_attack_query | apply confined_execute_query
    | apply confined_get_query_history
    | apply confined_gateway; reflexivity
    | apply confined_log_query_audit; reflexivity
    | apply confined_store_query_history; reflexivity
    | apply confined_laplace; reflexivity
    | apply confined_bind; [|intros ?]
    | match goal with
      | |- confined _ (match ?x with _ => _ end) => destruct x
      | |- confined _ (if ?b then _ else _) => destruct b
      end ].

Lemma confined_no_protection username query params user password :
  confined (mkFootprint true false false)
    (NoProtection.aggregate username query params user password).
Proof. unfold NoProtection.aggregate. confine. Qed.

Lemma confined_minimum_size `{PyRuntime} username min_size query params user password :
  confined (mkFootprint true false false)
    (MinimumSizeRestriction.aggregate username min_size query params user password).
Proof. unfold MinimumSizeRestriction.aggregate. confine. Qed.

Lemma confined_differential_privacy `{PyRuntime} (f : Footprint)
    username epsilon query params user password :
  writes_audit f = true -> draws_samples f = true ->
  confined f (DifferentialPrivacy.aggregate username epsilon query params user password).
Proof.
  intros Ha Hd. unfold DifferentialPrivacy.aggregate.
  apply confined_bind; [apply confined_gateway, Ha|]. intros [[res b] reason].
  destruct (b || negb (truthy res)); [apply confined_ret|].
  apply confined_bind; [|intros ?; apply confined_ret].
  apply confined_mapM. intros row. apply confined_mapM. intros [key value].
  unfold DifferentialPrivacy.noisy_item.
  destruct (Py.is_int_or_float value); [|apply confined_ret].
  apply confined_bind; [apply confined_lift|]. intros b0.
  apply confined_bind; [apply confined_laplace, Hd|]. intros noise.
  apply confined_bind; [apply confined_lift|]. intros noisy. apply confined_ret.
Qed.

Lemma confined_overlap_control `{PyRuntime} (f : Footprint)
    username threshold query params user password :
  writes_audit f = true -> writes_history f = true ->
  confined f (OverlapControl.aggregate username threshold query params user password).
Proof.
  intros Ha Hh. unfold OverlapControl.aggregate.
  apply confined_bind; [apply confined_get_query_history|]. intros history.
  apply confined_bind; [apply confined_gateway, Ha|]. intros [[res b] reason].
  destruct (b || negb (truthy res)); [apply confined_ret|].
  apply confined_bind; [apply confined_lift|]. intros [hit|].
  - apply confined_bind; [apply confined_log_query_audit, Ha|]. intros _.
    apply confined_ret.
  - apply confined_bind; [apply confined_store_query_history, Hh|]. intros _.
    apply confined_ret.
Qed.

Lemma confined_cell_suppression (f : Footprint)
    username min_cell_size query params user password group_by_column :
  writes_audit f = true ->
  confined f
    (CellSuppression.aggregate username min_cell_size query params user password
       group_by_column).
Proof.
  intros Ha. unfold CellSuppression.aggregate.
  apply confined_bind; [apply confined_gateway, Ha|]. intros [[res b] reason].
  destruct (b || negb (truthy res)); [apply confined_ret|].
  apply confined_bind; [apply confined_lift|]. intros [out n]. apply confined_ret.
Qed.

Lemma confined_weaken_audit {A} (f : Footprint) (c : M A) :
  confined (mkFootprint true false false) c -> writes_audit f = true -> confined f c.
Proof.
  intros Hc Hf w. destruct (Hc w) as (Hp & Hn & Hcl & (a & Ha & _) & (h & Hh & Hh0) & Hd & Hd0).
  unfold within. repeat split; try assumption.
  - exists a. split; [exact Ha|congruence].
  - exists h. split; [exact Hh|]. intros _. apply Hh0. reflexivity.
  - intros _. apply Hd0. reflexivity.
Qed.

(** X3: which strategy may write what.  Whatever the store answers, and
    whether the strategy returns or raises, No Protection, Minimum Size
    Restriction and Cell Suppression only add rows to [query_audit];
    Differential Privacy besides only draws samples; Overlap Control besides
    only adds rows to [query_history]; so does a comparison of all five.
    Rows already in either table are never changed or removed. *)
Theorem strategies_footprint `{PyRuntime} (username query : string)
    (params : option (list Value)) (user password : option string) :
  confined (mkFootprint true false false)
    (NoProtection.aggregate username query params user password) /\
  (forall min_size,
      confined (mkFootprint true false false)
        (MinimumSizeRestriction.aggregate username min_size query params user password)) /\
  (forall min_cell_size group_by_column,
      confined (mkFootprint true false false)
        (CellSuppression.aggregate username min_cell_size query params user password
           group_by_column)) /\
  (forall epsilon,
      confined (mkFootprint true false true)
        (DifferentialPrivacy.aggregate username epsilon query params user password)) /\
  (forall overlap_threshold,
      confined (mkFootprint true true false)
        (OverlapControl.aggregate username overlap_threshold query params user
           password)) /\
  confined (mkFootprint true true true)
    (AggregationComparator.compare_all username query params user password).
Proof.
  split; [apply confined_no_protection|].
  split; [intros; apply confined_minimum_size|].
  split; [intros; apply confined_cell_suppression; reflexivity|].
  split; [intros; apply confined_differential_privacy; reflexivity|].
  split; [intros; apply confined_overlap_control; reflexivity|].
  unfold AggregationComparator.compare_all.
  apply confined_bind;
    [apply confined_weaken_audit; [apply confined_no_protection|reflexivity]|].
  intros a. apply confined_bind;
    [apply confined_weaken_audit; [apply confined_minimum_size|reflexivity]|].
  intros b. apply confined_bind;
    [apply confined_differential_privacy; reflexivity|].
  intros c. apply confined_bind; [apply confined_overlap_control; reflexivity|].
  intros d. apply confined_bind; [apply confined_cell_suppression; reflexivity|].
  intros e. apply confined_ret.
Qed.

Lemma confined_differencing `{PyRuntime} target_name department user password :
  confined (mkFootprint false false false)
    (DifferencingAttack.attack target_name department user password).
Proof. unfold DifferencingAttack.attack. confine. Qed.

Lemma confined_tracker `{PyRuntime} target_name salary_threshold user password :
  confined (mkFootprint false false false)
    (TrackerAttack.attack target_name salary_threshold user password).
Proof. unfold TrackerAttack.attack. confine. Qed.

Lemma confined_sum `{PyRuntime} department known_salaries user password :
  confined (mkFootprint false false false)
    (SumAttack.attack department known_salaries user password).
Proof. unfold SumAttack.attack. confine. Qed.

Lemma confined_exclusions `{PyRuntime} (f : Footprint) target_department n user password
    (employees : list Row) :
  forall i equations constants,
    confined f
      (LinearSystemAttack.exclusions target_department n user password i employees
         equations constants).
Proof.
  induction employees as [|emp rest IH]; intros i equations constants; simpl.
  - apply confined_ret.
  - apply confined_bind; [apply confined_lift|]. intros name.
    apply confined_bind; [apply confined_attack_query|]. intros result.
    destruct (truthy result); [|apply IH].
    apply confined_bind; [apply confined_lift|]. intros equation.
    apply confined_bind; [apply confined_lift|]. intros avg.
    apply confined_bind; [apply confined_lift|]. intros cnt.
    apply confined_bind; [apply confined_lift|]. intros constant. apply IH.
Qed.

Lemma confined_gather `{PyRuntime} (f : Footprint) target_department n user password
    (employees : list Row) :
  confined f (LinearSystemAttack.gather target_department n user password employees).
Proof.
  unfold LinearSystemAttack.gather.
  apply confined_bind; [apply confined_attack_query|]. intros result.
  apply confined_bind.
  - destruct (truthy result); confine.
  - intros [equations constants]. apply confined_exclusions.
Qed.

Lemma confined_linear_system `{PyRuntime} `{NumpyLinalg} target_department user password :
  confined (mkFootprint false false false)
    (LinearSystemAttack.attack target_department user password).
Proof.
  unfold LinearSystemAttack.attack.
  apply confined_bind; [apply confined_attack_query|]. intros employees.
  match goal with |- confined _ (if ?b then _ else _) => destruct b end;
    [apply confined_ret|].
  apply confined_bind; [apply confined_gather|]. intros [equations constants].
  confine.
Qed.

(** X4: the attacks leave no trace.  Whatever the store answers, and whether
    the attack returns or raises, the Differencing, Tracker, Sum and Linear
    System attacks and the suite that runs all four write no row to
    [query_audit] or [query_history] and draw no sample: after the run both
    tables are what they were before it. *)
Theorem attacks_leave_no_trace `{PyRuntime} `{NumpyLinalg} (w : World)
    (user password : option string) :
  let untouched (w' : World) :=
    query_audit w' = query_audit w /\ query_history w' = query_history w /\
    draws w' = draws w in
  (forall target_name department,
      untouched (snd (DifferencingAttack.attack target_name department user password w))) /\
  (forall target_name salary_threshold,
      untouched (snd (TrackerAttack.attack target_name salary_threshold user password w))) /\
  (forall department known_salaries,
      untouched (snd (SumAttack.attack department known_salaries user password w))) /\
  (forall target_department,
      untouched (snd (LinearSystemAttack.attack target_department user password w))) /\
  untouched (snd (AttackSuite.run_all_attacks user password w)).
Proof.
  intros untouched.
  assert (Hun : forall A (c : M A),
             confined (mkFootprint false false false) c -> untouched (snd (c w))).
  { intros A c Hc.
    destruct (Hc w) as (_ & _ & _ & (a & Ha & Ha0) & (h & Hh & Hh0) & _ & Hd).
    unfold untouched. rewrite Ha, Hh, (Ha0 eq_refl), (Hh0 eq_refl).
    repeat split. apply Hd. reflexivity. }
  split; [intros; apply Hun, confined_differencing|].
  split; [intros; apply Hun, confined_tracker|].
  split; [intros; apply Hun, confined_sum|].
  split; [intros; apply Hun, confined_linear_system|].
  apply Hun. unfold AttackSuite.run_all_attacks.
  apply confined_bind; [apply confined_differencing|]. intros d.
  apply confined_bind; [apply confined_tracker|]. intros t.
  apply confined_bind; [apply confined_sum|]. intros s.
  apply confined_bind; [apply confined_linear_system|]. intros l.
  apply confined_ret.
Qed.

(** ** The gateway when the audit INSERT fails *)

(** X5: the gateway reports a failure of its own audit INSERT as a failure of
    the query.  When the store answers the query with rows and then rejects
    the audit INSERT, the rows are dropped and the caller is told that the
    query was blocked, for the reason the audit INSERT was rejected; the
    audit row written next, if the store accepts it, records the query as
    blocked with no rows. *)
Theorem gateway_audit_failure (w : World) (username query : string)
    (params : option (list Value)) (user password : option string)
    (rs : list Row) (msg : string) (any : list Row) :
  let audit (count : Z) (was_blocked : bool) (why : option string) :=
    mkStatement Database.audit_query
      (Some [VStr username; VStr query; VInt count; VBool was_blocked;
             Database.opt_str why]) None None in
  pg w (clock w) (mkStatement query params user password) = Rows rs ->
  pg w (S (clock w)) (audit (Z.of_nat (List.length rs)) false None) = Rejected msg ->
  pg w (S (S (clock w))) (audit 0 true (Some msg)) = Rows any ->
  AggregationMethod.execute_with_logging username query params user password w =
    (Ok (None, true, Some msg),
     add_audit (mkAudit username query (VInt 0) true (Some msg)) (tick (tick (tick w)))).
Proof.
  intros audit Hq Ha Hb. unfold AggregationMethod.execute_with_logging, try_except.
  unfold bind at 1. unfold Database.execute_query at 1. rewrite Hq.
  unfold bind at 1. unfold Database.log_query_audit at 1.
  unfold bind at 1. unfold Database.execute_query at 1.
  cbn [AggregationMethod.len_or_0 clock tick pg].
  fold (audit (Z.of_nat (List.length rs)) false None).
  rewrite Ha. cbn [str_exn].
  unfold bind, Database.log_query_audit, Database.execute_query, bind.
  cbn [clock tick pg]. fold (audit 0 true (Some msg)). rewrite Hb. reflexivity.
Qed.

Lemma gateway_audit_failure_witness :
  AggregationMethod.execute_with_logging "system" Fixtures.salary_query None None None
    (Fixtures.world (Fixtures.failing_at [1%nat] "disk full" [[("avg_sal", VInt 70000)]])) =
    (Ok (None, true, Some "disk full"),
     add_audit (mkAudit "system" Fixtures.salary_query (VInt 0) true (Some "disk full"))
       (tick (tick (tick
          (Fixtures.world
             (Fixtures.failing_at [1%nat] "disk full" [[("avg_sal", VInt 70000)]])))))).
Proof.
  exact (gateway_audit_failure
           (Fixtures.world (Fixtures.failing_at [1%nat] "disk full"
                              [[("avg_sal", VInt 70000)]]))
           "system" Fixtures.salary_query None None None
           [[("avg_sal", VInt 70000)]] "disk full" [[("avg_sal", VInt 70000)]]
           eq_refl eq_refl eq_refl).
Defined.

(** X6: the gateway raises only when the store rejects the audit INSERT of
    the failure path.  The exception is then the store's rejection of that
    INSERT, and no row has been added to [query_audit]; so with a store that
    accepts audit INSERTs the gateway never raises. *)
Theorem gateway_raises_only_audit_error (w w' : World) (username query : string)
    (params : option (list Value)) (user password : option string) (e : exn) :
  AggregationMethod.execute_with_logging username query params user password w =
    (Raise e, w') ->
  query_audit w' = query_audit w /\
  exists n count why msg,
    e = DatabaseError msg /\
    pg w n (mkStatement Database.audit_query
              (Some [VStr username; VStr query; VInt count; VBool true;
                     Database.opt_str (Some why)]) None None) = Rejected msg.
Proof.
  unfold AggregationMethod.execute_with_logging, try_except.
  unfold bind at 1. unfold Database.execute_query at 1.
  destruct (pg w (clock w) (mkStatement query params user password)) as [rs|msg0] eqn:Eq.
  - unfold bind at 1. unfold Database.log_query_audit at 1.
    unfold bind at 1. unfold Database.execute_query at 1.
    cbn [clock tick pg].
    match goal with |- context [pg w ?n ?st] => destruct (pg w n st) as [x|msg1] eqn:E1 end.
    + unfold Database.insert_audit, ret. discriminate.
    + unfold bind, Database.log_query_audit, Database.execute_query, bind.
      cbn [clock tick pg str_exn].
      match goal with |- context [pg w ?n ?st] => destruct (pg w n st) as [y|msg2] eqn:E2 end.
      * unfold Database.insert_audit, ret. discriminate.
      * intros [= <- <-]. split; [reflexivity|].
        exists (S (S (clock w))), 0, msg1, msg2. split; [reflexivity|exact E2].
  - unfold bind, Database.log_query_audit, Database.execute_query, bind.
    cbn [clock tick pg str_exn].
    match goal with |- context [pg w ?n ?st] => destruct (pg w n st) as [y|msg2] eqn:E2 end.
    + unfold Database.insert_audit, ret. discriminate.
    + intros [= <- <-]. split; [reflexivity|].
      exists (S (clock w)), 0, msg0, msg2. split; [reflexivity|exact E2].
Qed.

Lemma gateway_raises_only_audit_error_witness :
  let w := Fixtures.world
             (Fixtures.rejecting Database.audit_query "disk full"
                [[("avg_sal", VInt 70000)]]) in
  query_audit (tick (tick (tick w))) = query_audit w /\
  exists n count why msg,
    DatabaseError "disk full" = DatabaseError msg /\
    pg w n (mkStatement Database.audit_query
              (Some [VStr "system"; VStr Fixtures.salary_query; VInt count; VBool true;
                     Database.opt_str (Some why)]) None None) = Rejected msg.
Proof.
  exact (gateway_raises_only_audit_error
           (Fixtures.world
              (Fixtures.rejecting Database.audit_query "disk full"
                 [[("avg_sal", VInt 70000)]]))
           _ "system" Fixtures.salary_query None None None _ eq_refl).
Defined.

(** ** The audit table and the outcome *)

Lemma gateway_accepted (w : World) username query params user password :
  audit_accepted w ->
  exists res b reason r,
    AggregationMethod.execute_with_logging username query params user password w =
      (Ok (res, b, reason), add_audit r (tick (tick w))) /\
    a_username r = username /\ a_query_text r = query /\
    a_was_blocked r = b /\ a_block_reason r = reason /\
    (b = true -> res = None) /\
    (b = false ->
     exists rs, res = Some rs /\
                pg w (clock w) (mkStatement query params user password) = Rows rs).
Proof.
  intros Hacc.
  destruct (pg w (clock w) (mkStatement query params user password)) as [rs|msg] eqn:E.
  - eexists _, _, _, _. split; [apply gateway_rows; eassumption|].
    repeat split; try discriminate. intros _. exists rs. split; reflexivity.
  - eexists _, _, _, _. split; [apply gateway_rejected; eassumption|].
    repeat split; discriminate.
Qed.

Lemma confined_audit_same {A} (f : Footprint) (c : M A) (w : World) :
  writes_audit f = false -> confined f c -> query_audit (snd (c w)) = query_audit w.
Proof.
  intros Hf Hc. destruct (Hc w) as (_ & _ & _ & (a & Ha & Ha0) & _).
  rewrite Ha, (Ha0 Hf). reflexivity.
Qed.

Lemma confined_noise (epsilon : float) (rows : list Row) :
  confined (mkFootprint false false true)
    (mapM (mapM (DifferentialPrivacy.noisy_item epsilon)) rows).
Proof.
  apply confined_mapM. intros row. apply confined_mapM. intros [key value].
  unfold DifferentialPrivacy.noisy_item.
  destruct (Py.is_int_or_float value); [|apply confined_ret].
  apply confined_bind; [apply confined_lift|]. intros b.
  apply confined_bind; [apply confined_laplace; reflexivity|]. intros noise.
  apply confined_bind; [apply confined_lift|]. intros noisy. apply confined_ret.
Qed.

Lemma audit_agrees_no_protection (w w' : World) (o : Outcome)
    username query params user password :
  audit_accepted w ->
  NoProtection.aggregate username query params user password w = (Ok o, w') ->
  last_audit_agrees username o w'.
Proof.
  intros Hacc. unfold NoProtection.aggregate. step.
  destruct (gateway_accepted w username query params user password Hacc)
    as (res & b & reason & r & -> & Hu & _ & Hb & _).
  intros [= <- <-]. exists r, (query_audit w). repeat split; assumption.
Qed.

Lemma audit_agrees_minimum_size `{PyRuntime} (w w' : World) (o : Outcome)
    username min_size query params user password :
  audit_accepted w ->
  MinimumSizeRestriction.aggregate username min_size query params user password w =
    (Ok o, w') ->
  last_audit_agrees username o w'.
Proof.
  intros Hacc. unfold MinimumSizeRestriction.aggregate. step.
  destruct (gateway_accepted w username
              (MinimumSizeRestriction._convert_to_count_query query) params user password
              Hacc)
    as (res & b & reason & r & -> & Hu & _ & Hb & _).
  destruct b.
  - intros [= <- <-]. exists r, (query_audit w). repeat split; assumption.
  - destruct (MinimumSizeRestriction.derived_count res) as [count|e]; [|discriminate].
    destruct (Py.lt_int count min_size) as [[|]|e]; [| |discriminate].
    + rewrite log_query_audit_accepted by exact Hacc.
      intros [= <- <-]. eexists _, _. repeat split.
    + destruct (gateway_accepted (add_audit r (tick (tick w))) username query params
                  user password Hacc)
        as (res2 & b2 & reason2 & r2 & -> & Hu2 & _ & Hb2 & _).
      intros [= <- <-]. eexists r2, _. repeat split; assumption.
Qed.

Lemma audit_agrees_differential_privacy `{PyRuntime} (w w' : World) (o : Outcome)
    username epsilon query params user password :
  audit_accepted w ->
  DifferentialPrivacy.aggregate username epsilon query params user password w =
    (Ok o, w') ->
  last_audit_agrees username o w'.
Proof.
  intros Hacc. unfold DifferentialPrivacy.aggregate. step.
  destruct (gateway_accepted w username query params user password Hacc)
    as (res & b & reason & r & -> & Hu & _ & Hb & _).
  destruct (b || negb (truthy res)) eqn:Eb.
  - intros [= <- <-]. exists r, (query_audit w). repeat split; assumption.
  - apply orb_false_iff in Eb as [-> _].
    match goal with
    | |- context [mapM ?f ?l ?w0] =>
        pose proof (confined_audit_same (mkFootprint false false true) _ w0 eq_refl
                      (confined_noise epsilon l)) as Hsame;
        destruct (mapM f l w0) as [[noisy|e] w1]
    end; [|discriminate].
    intros [= <- <-]. exists r, (query_audit w). simpl in Hsame.
    repeat split; assumption.
Qed.

Lemma audit_agrees_overlap_control `{PyRuntime} (w w' : World) (o : Outcome)
    username threshold query params user password :
  audit_accepted w ->
  OverlapControl.aggregate username threshold query params user password w = (Ok o, w') ->
  last_audit_agrees username o w'.
Proof.
  intros Hacc. unfold OverlapControl.aggregate. intros Hrun.
  apply bind_ok in Hrun as (hist & w0 & Hh & Hrun).
  apply get_query_history_ok in Hh as [-> _]. revert Hrun. step.
  destruct (gateway_accepted (tick w) username query params user password Hacc)
    as (res & b & reason & r & -> & Hu & _ & Hb & _).
  destruct (b || negb (truthy res)) eqn:Eb.
  - intros [= <- <-]. exists r, (query_audit w). repeat split; assumption.
  - apply orb_false_iff in Eb as [-> _].
    destruct (OverlapControl.first_overlap _ _ _) as [[hit|]|e]; [| |discriminate].
    + rewrite log_query_audit_accepted by exact Hacc.
      intros [= <- <-]. eexists _, _. repeat split.
    + match goal with
      | |- context [Database.store_query_history ?u ?q ?rs ?w0] =>
          pose proof (confined_audit_same (mkFootprint false true false) _ w0 eq_refl
                        (confined_store_query_history (mkFootprint false true false)
                           u q rs eq_refl)) as Hsame;
          destruct (Database.store_query_history u q rs w0) as [[[]|e] w1]
      end; [|discriminate].
      intros [= <- <-]. exists r, (query_audit w). simpl in Hsame.
      repeat split; assumption.
Qed.

Lemma audit_agrees_cell_suppression (w w' : World) (o : Outcome)
    username min_cell_size query params user password group_by_column :
  audit_accepted w ->
  CellSuppression.aggregate username min_cell_size query params user password
    group_by_column w = (Ok o, w') ->
  last_audit_agrees username o w'.
Proof.
  intros Hacc. unfold CellSuppression.aggregate. step.
  destruct (gateway_accepted w username query params user password Hacc)
    as (res & b & reason & r & -> & Hu & _ & Hb & _).
  destruct (b || negb (truthy res)) eqn:Eb.
  - intros [= <- <-]. exists r, (query_audit w). repeat split; assumption.
  - apply orb_false_iff in Eb as [-> _].
    destruct (CellSuppression.suppress _ _) as [[out n]|e]; [|discriminate].
    intros [= <- <-]. exists r, (query_audit w). repeat split; assumption.
Qed.

(** X7: the audit table agrees with the outcome.  Whenever one of the five
    strategies returns an outcome, the most recent row of [query_audit] was
    written for the caller and its was_blocked flag equals the outcome's
    blocked flag: no outcome is reported blocked that the audit shows as
    answered, or the reverse.  The store is assumed to accept the audit
    INSERTs. *)
Theorem audit_agrees_with_outcome `{PyRuntime} (w : World) (username query : string)
    (params : option (list Value)) (user password : option string) (o : Outcome) :
  audit_accepted w ->
  (forall w',
      NoProtection.aggregate username query params user password w = (Ok o, w') ->
      last_audit_agrees username o w') /\
  (forall min_size w',
      MinimumSizeRestriction.aggregate username min_size query params user password w =
        (Ok o, w') ->
      last_audit_agrees username o w') /\
  (forall epsilon w',
      DifferentialPrivacy.aggregate username epsilon query params user password w =
        (Ok o, w') ->
      last_audit_agrees username o w') /\
  (forall overlap_threshold w',
      OverlapControl.aggregate username overlap_threshold query params user password w =
        (Ok o, w') ->
      last_audit_agrees username o w') /\
  (forall min_cell_size group_by_column w',
      CellSuppression.aggregate username min_cell_size query params user password
        group_by_column w = (Ok o, w') ->
      last_audit_agrees username o w').
Proof.
  intros Hacc. split; [|split; [|split; [|split]]].
  - intros w'. apply audit_agrees_no_protection, Hacc.
  - intros min_size w'. apply audit_agrees_minimum_size, Hacc.
  - intros epsilon w'. apply audit_agrees_differential_privacy, Hacc.
  - intros threshold w'. apply audit_agrees_overlap_control, Hacc.
  - intros min_cell_size group_by_column w'. apply audit_agrees_cell_suppression, Hacc.
Qed.

Lemma audit_agrees_with_outcome_witness :
  let w := Fixtures.world (Fixtures.counted Fixtures.salary_query 2
                             (Rows [[("avg_sal", VInt 70000)]])) in
  let run :=
    MinimumSizeRestriction.aggregate (H := Fixtures.runtime) "system" 5
      Fixtures.salary_query None None None w in
  last_audit_agrees "system"
    (mkOutcome "Minimum Size Restriction" true (Some "Result set too small: 2 < 5")
       None None (Some "min_size=5"))
    (snd run).
Proof.
  exact (proj1 (proj2 (audit_agrees_with_outcome (H := Fixtures.runtime)
                         (Fixtures.world (Fixtures.counted Fixtures.salary_query 2
                                            (Rows [[("avg_sal", VInt 70000)]])))
                         "system" Fixtures.salary_query None None None _
                         (counted_audit_accepted Fixtures.salary_query 2 _ eq_refl)))
           5 _ eq_refl).
Defined.

(** ** Overlap Control: when it blocks, and what it stores *)

Lemma recent_well_formed (w : World) (username : string) (limit : Z) :
  history_well_formed w ->
  Forall (fun e => forall x, result_set_hash e = Some x -> is_hexdigest x = true)
    (Database.recent username limit (query_history w)).
Proof.
  intros Hwf. apply Forall_forall. intros e He. apply recent_incl in He.
  unfold history_well_formed in Hwf. rewrite Forall_forall in Hwf. apply Hwf, He.
Qed.

Lemma first_overlap_none (threshold : float) (current_hash : string)
    (history : list HistoryEntry) :
  is_hexdigest current_hash = true ->
  Forall (fun e => forall x, result_set_hash e = Some x -> is_hexdigest x = true)
    history ->
  (OverlapControl.first_overlap threshold current_hash history = Ok None <->
   forall e, In e history -> ~ too_similar threshold current_hash e).
Proof.
  intros Hcur Hwf. split.
  - intros Hnone e Hin (h & overlap & Hh & Hov & Habove).
    destruct (first_overlap_hits threshold current_hash history e h overlap
                Hcur Hwf Hin Hh Hov Habove) as (hit & Hhit & _).
    congruence.
  - intros Hno.
    destruct (first_overlap_defined threshold current_hash history Hcur Hwf)
      as [[hit|] Hr]; [|exact Hr].
    destruct (first_overlap_found _ _ _ _ Hr) as (e & h & Hin & Hh & Hov & Habove).
    exfalso. apply (Hno e Hin). exists h, hit. repeat split; assumption.
Qed.

Lemma overlap_run_blocked `{PyRuntime} (w : World) (username : string)
    (threshold : float) (query : string) (params : option (list Value))
    (user password : option string) (r : Row) (rs : list Row) (hit : float) :
  audit_accepted w ->
  history_readable w ->
  pg w (S (clock w)) (mkStatement query params user password) = Rows (r :: rs) ->
  OverlapControl.first_overlap threshold (Database.hash_result_set (r :: rs))
    (Database.recent username 20 (query_history w)) = Ok (Some hit) ->
  OverlapControl.aggregate username threshold query params user password w =
    (Ok (mkOutcome "Overlap Control" true
           (Some ("Query overlap too high: " +++ format_2f hit)) None None
           (Some ("threshold=" +++ str_of_float threshold))),
     add_audit (mkAudit username query (VInt (Z.of_nat (List.length (r :: rs)))) true
                  (Some ("Query overlap too high: " +++ format_2f hit +++ " > "
                           +++ str_of_float threshold)))
       (tick (add_audit (mkAudit username query
                           (VInt (Z.of_nat (List.length (r :: rs)))) false None)
                (tick (tick (tick w)))))).
Proof.
  intros Hacc Hread Hpg Hfirst. unfold OverlapControl.aggregate. step.
  rewrite get_query_history_readable by assumption.
  rewrite gateway_rows with (rs := r :: rs) by assumption.
  cbn [orb negb truthy]. cbv iota beta. rewrite Hfirst.
  rewrite log_query_audit_accepted by assumption. reflexivity.
Qed.

Lemma overlap_run_stored `{PyRuntime} (w : World) (username : string)
    (threshold : float) (query : string) (params : option (list Value))
    (user password : option string) (r : Row) (rs : list Row) :
  audit_accepted w ->
  history_readable w ->
  history_writable w ->
  pg w (S (clock w)) (mkStatement query params user password) = Rows (r :: rs) ->
  OverlapControl.first_overlap threshold (Database.hash_result_set (r :: rs))
    (Database.recent username 20 (query_history w)) = Ok None ->
  OverlapControl.aggregate username threshold query params user password w =
    (Ok (mkOutcome "Overlap Control" false None (Some (r :: rs)) None
           (Some ("threshold=" +++ str_of_float threshold +++ ", overlap_acceptable"))),
     add_history (mkHistory username (sha256_hexdigest query) query
                    (Some (Database.hash_result_set (r :: rs))))
       (tick (add_audit (mkAudit username query
                           (VInt (Z.of_nat (List.length (r :: rs)))) false None)
                (tick (tick (tick w)))))).
Proof.
  intros Hacc Hread Hwrite Hpg Hfirst. unfold OverlapControl.aggregate. step.
  rewrite get_query_history_readable by assumption.
  rewrite gateway_rows with (rs := r :: rs) by assumption.
  cbn [orb negb truthy]. cbv iota beta. rewrite Hfirst.
  rewrite store_query_history_accepted by assumption. reflexivity.
Qed.

(** X8: when Overlap Control blocks a query that returned rows, and what it
    stores.  The outcome is blocked exactly when one of the caller's own 20
    most recent history entries has a result-set hash more similar to the
    hash of the rows than the threshold allows; entries of other callers and
    older entries never block.  A blocked query leaves [query_history] as it
    was; an answered one returns the rows and puts one entry, with the hash
    of the rows, in front of it.  The store is assumed to accept the
    statements on both tables, and the stored hashes to be SHA-256
    digests. *)
Theorem overlap_blocks_exactly `{PyRuntime} (w : World) (username : string)
    (overlap_threshold : float) (query : string) (params : option (list Value))
    (user password : option string) (rows : list Row) :
  let run :=
    OverlapControl.aggregate username overlap_threshold query params user password w in
  audit_accepted w ->
  history_readable w ->
  history_writable w ->
  history_well_formed w ->
  pg w (S (clock w)) (mkStatement query params user password) = Rows rows ->
  truthy (Some rows) = true ->
  exists o,
    fst run = Ok o /\
    (blocked o = true <->
     exists e, In e (Database.recent username 20 (query_history w)) /\
               too_similar overlap_threshold (Database.hash_result_set rows) e) /\
    (blocked o = true ->
     results o = None /\ query_history (snd run) = query_history w) /\
    (blocked o = false ->
     results o = Some rows /\
     query_history (snd run) =
       mkHistory username (sha256_hexdigest query) query
         (Some (Database.hash_result_set rows)) :: query_history w).
Proof.
  intros run Hacc Hread Hwrite Hwf Hpg Hrows.
  destruct rows as [|r rs]; [discriminate|].
  pose proof (recent_well_formed w username 20 Hwf) as Hwf'.
  pose proof (sha256_hexdigest_shape (str_sorted_rows (r :: rs))) as Hcur.
  fold (Database.hash_result_set (r :: rs)) in Hcur.
  destruct (first_overlap_defined overlap_threshold (Database.hash_result_set (r :: rs))
              _ Hcur Hwf') as [[hit|] Hfirst].
  - unfold run. rewrite (overlap_run_blocked w username overlap_threshold query params user password
               r rs hit) by assumption.
    eexists. split; [reflexivity|]. cbn [fst snd blocked results].
    split; [|split; [|discriminate]].
    + split; [intros _|reflexivity].
      destruct (first_overlap_found _ _ _ _ Hfirst) as (e & h & Hin & Hh & Hov & Habove).
      exists e. split; [exact Hin|]. exists h, hit. repeat split; assumption.
    + intros _. split; reflexivity.
  - unfold run. rewrite (overlap_run_stored w username overlap_threshold query params user password
               r rs) by assumption.
    eexists. split; [reflexivity|]. cbn [fst snd blocked results].
    split; [|split; [discriminate|]].
    + split; [discriminate|]. intros (e & Hin & Hsim). exfalso.
      apply (proj1 (first_overlap_none _ _ _ Hcur Hwf') Hfirst e Hin Hsim).
    + intros _. split; reflexivity.
Qed.

Lemma overlap_blocks_exactly_witness :
  let w := Fixtures.seen [[("avg_sal", VInt 70000)]] in
  let run :=
    OverlapControl.aggregate (H := Fixtures.runtime) "system" Fixtures.threshold
      Fixtures.salary_query None None None w in
  exists o,
    fst run = Ok o /\
    (blocked o = true <->
     exists e, In e (Database.recent "system" 20 (query_history w)) /\
               too_similar Fixtures.threshold
                 (Database.hash_result_set (H := Fixtures.runtime)
                    [[("avg_sal", VInt 70000)]]) e) /\
    (blocked o = true ->
     results o = None /\ query_history (snd run) = query_history w) /\
    (blocked o = false ->
     results o = Some [[("avg_sal", VInt 70000)]] /\
     query_history (snd run) =
       mkHistory "system" (sha256_hexdigest (PyRuntime := Fixtures.runtime)
                             Fixtures.salary_query)
         Fixtures.salary_query
         (Some (Database.hash_result_set (H := Fixtures.runtime)
                  [[("avg_sal", VInt 70000)]])) :: query_history w).
Proof.
  exact (overlap_blocks_exactly (H := Fixtures.runtime)
           (Fixtures.seen [[("avg_sal", VInt 70000)]])
           "system" Fixtures.threshold Fixtures.salary_query None None None
           [[("avg_sal", VInt 70000)]]
           (proj1 (always_accepts (Fixtures.seen [[("avg_sal", VInt 70000)]]) _ eq_refl))
           (proj2 (always_accepts (Fixtures.seen [[("avg_sal", VInt 70000)]]) _ eq_refl))
           (always_writable (Fixtures.seen [[("avg_sal", VInt 70000)]]) _ eq_refl)
           (history_well_formed_check (Fixtures.seen [[("avg_sal", VInt 70000)]]) eq_refl)
           eq_refl eq_refl).
Defined.

Lemma recent_of_other_callers (username : string) (limit : Z)
    (table : list HistoryEntry) :
  Forall (fun e => h_username e <> username) table ->
  Database.recent username limit table = [].
Proof.
  intros Hall. unfold Database.recent.
  assert (Hf : filter (fun h => String.eqb (h_username h) username) table = []).
  { induction Hall as [|e rest He _ IH]; [reflexivity|]. simpl.
    destruct (String.eqb_spec (h_username e) username); [contradiction|exact IH]. }
  rewrite Hf. apply firstn_nil.
Qed.

Lemma other_callers_check (username : string) (table : list HistoryEntry) :
  forallb (fun e => negb (String.eqb (h_username e) username)) table = true ->
  Forall (fun e => h_username e <> username) table.
Proof.
  rewrite forallb_forall, Forall_forall. intros Hall e He E.
  specialize (Hall e He). rewrite E, String.eqb_refl in Hall. discriminate.
Qed.

(** X9: Overlap Control is per caller.  A query that returns rows is
    answered, not blocked, when [query_history] holds no entry under the
    caller's name, whatever other callers have stored there, the same
    rows included.  The store is assumed to accept the statements on both
    tables. *)
Theorem overlap_ignores_other_callers `{PyRuntime} (w : World) (username : string)
    (overlap_threshold : float) (query : string) (params : option (list Value))
    (user password : option string) (rows : list Row) :
  audit_accepted w ->
  history_readable w ->
  history_writable w ->
  Forall (fun e => h_username e <> username) (query_history w) ->
  pg w (S (clock w)) (mkStatement query params user password) = Rows rows ->
  truthy (Some rows) = true ->
  fst (OverlapControl.aggregate username overlap_threshold query params user password w) =
    Ok (mkOutcome "Overlap Control" false None (Some rows) None
          (Some ("threshold=" +++ str_of_float overlap_threshold
                   +++ ", overlap_acceptable"))).
Proof.
  intros Hacc Hread Hwrite Hother Hpg Hrows.
  destruct rows as [|r rs]; [discriminate|].
  rewrite (overlap_run_stored w username overlap_threshold query params user password
             r rs); try assumption; [reflexivity|].
  rewrite recent_of_other_callers by assumption. reflexivity.
Qed.

Lemma overlap_ignores_other_callers_witness :
  fst (OverlapControl.aggregate (H := Fixtures.runtime) "intern" Fixtures.threshold
         Fixtures.salary_query None None None
         (Fixtures.seen [[("avg_sal", VInt 70000)]])) =
    Ok (mkOutcome "Overlap Control" false None (Some [[("avg_sal", VInt 70000)]]) None
          (Some "threshold=0.8, overlap_acceptable")).
Proof.
  exact (overlap_ignores_other_callers (H := Fixtures.runtime)
           (Fixtures.seen [[("avg_sal", VInt 70000)]])
           "intern" Fixtures.threshold Fixtures.salary_query None None None
           [[("avg_sal", VInt 70000)]]
           (proj1 (always_accepts (Fixtures.seen [[("avg_sal", VInt 70000)]]) _ eq_refl))
           (proj2 (always_accepts (Fixtures.seen [[("avg_sal", VInt 70000)]]) _ eq_refl))
           (always_writable (Fixtures.seen [[("avg_sal", VInt 70000)]]) _ eq_refl)
           (other_callers_check "intern"
              (query_history (Fixtures.seen [[("avg_sal", VInt 70000)]])) eq_refl)
           eq_refl eq_refl).
Defined.

(** X10: what Overlap Control does when a statement on [query_history]
    fails.  If the store rejects the SELECT that reads the history, the
    strategy raises the store's error before the query is sent: nothing is
    executed and nothing audited.  If the store rejects the INSERT that
    records an answered query, the strategy raises the store's error after
    the query has run: the caller gets no outcome, [query_audit] shows the
    query as answered, and [query_history] has no entry for it. *)
Theorem overlap_history_failures `{PyRuntime} (w : World) (username : string)
    (overlap_threshold : float) (query : string) (params : option (list Value))
    (user password : option string) :
  let run :=
    OverlapControl.aggregate username overlap_threshold query params user password w in
  (forall msg,
      pg w (clock w)
        (mkStatement Database.select_history_query (Some [VStr username; VInt 20])
           None None) = Rejected msg ->
      run = (Raise (DatabaseError msg), tick w)) /\
  (forall rows msg,
      audit_accepted w ->
      history_readable w ->
      history_well_formed w ->
      pg w (S (clock w)) (mkStatement query params user password) = Rows rows ->
      truthy (Some rows) = true ->
      (forall e, In e (Database.recent username 20 (query_history w)) ->
                 ~ too_similar overlap_threshold (Database.hash_result_set rows) e) ->
      pg w (S (S (S (clock w))))
        (mkStatement Database.history_query
           (Some [VStr username; VStr (sha256_hexdigest query); VStr query;
                  VStr (Database.hash_result_set rows)]) None None) = Rejected msg ->
      fst run = Raise (DatabaseError msg) /\
      query_audit (snd run) =
        mkAudit username query (VInt (Z.of_nat (List.length rows))) false None
          :: query_audit w /\
      query_history (snd run) = query_history w).
Proof.
  intros run. split.
  - intros msg Hpg. unfold run, OverlapControl.aggregate, Database.get_query_history.
    unfold bind at 1. unfold bind at 1. unfold Database.execute_query at 1.
    rewrite Hpg. reflexivity.
  - intros rows msg Hacc Hread Hwf Hpg Hrows Hno Hins.
    destruct rows as [|r rs]; [discriminate|].
    pose proof (recent_well_formed w username 20 Hwf) as Hwf'.
    pose proof (sha256_hexdigest_shape (str_sorted_rows (r :: rs))) as Hcur.
    fold (Database.hash_result_set (r :: rs)) in Hcur.
    pose proof (proj2 (first_overlap_none overlap_threshold _ _ Hcur Hwf') Hno) as Hfirst.
    unfold run, OverlapControl.aggregate. step.
    rewrite get_query_history_readable by assumption.
    rewrite gateway_rows with (rs := r :: rs) by assumption.
    cbn [orb negb truthy]. cbv iota beta. rewrite Hfirst.
    unfold Database.store_query_history, Database.execute_query. step.
    cbn [clock tick add_audit pg Database.opt_str].
    fold (Database.hash_result_set (r :: rs)). rewrite Hins.
    repeat split.
Qed.

Lemma overlap_history_failures_witness :
  OverlapControl.aggregate (H := Fixtures.runtime) "system" Fixtures.threshold
    Fixtures.salary_query None None None
    (Fixtures.world (Fixtures.failing_at [0%nat] "relation query_history does not exist"
                       [[("avg_sal", VInt 70000)]])) =
    (Raise (DatabaseError "relation query_history does not exist"),
     tick (Fixtures.world
             (Fixtures.failing_at [0%nat] "relation query_history does not exist"
                [[("avg_sal", VInt 70000)]]))).
Proof.
  exact (proj1 (overlap_history_failures (H := Fixtures.runtime)
                  (Fixtures.world
                     (Fixtures.failing_at [0%nat] "relation query_history does not exist"
                        [[("avg_sal", VInt 70000)]]))
                  "system" Fixtures.threshold Fixtures.salary_query None None None)
           _ eq_refl).
Defined.

(** ** Overlap Control: the similarity counts agreeing bits *)

Lemma bit_string_double (m : Z) (b : bool) (k : nat) :
  bit_string (2 * m + Z.b2z b) (S k) =
    bit_string m k +++ String (if b then "1" else "0")%char EmptyString.
Proof.
  induction k as [|k IH].
  - cbn [bit_string]. change (Z.of_nat 0) with 0. rewrite Z.testbit_0_r. reflexivity.
  - cbn [bit_string] in *. rewrite Nat2Z.inj_succ.
    rewrite Z.testbit_succ_r by lia. cbn [String.append]. f_equal. exact IH.
Qed.

Lemma bits_bit_string (p : positive) (acc : string) :
  OverlapControl.bits p acc = bit_string (Zpos p) (Pos.size_nat p) +++ acc.
Proof.
  revert acc. induction p as [p IH|p IH|]; intros acc.
  - cbn [OverlapControl.bits Pos.size_nat]. rewrite IH.
    change (Zpos p~1) with (2 * Zpos p + Z.b2z true).
    rewrite bit_string_double, app_assoc_str. reflexivity.
  - cbn [OverlapControl.bits Pos.size_nat]. rewrite IH.
    change (Zpos p~0) with (2 * Zpos p + Z.b2z false).
    rewrite bit_string_double, app_assoc_str. reflexivity.
  - reflexivity.
Qed.

Lemma length_bit_string (n : Z) (k : nat) : String.length (bit_string n k) = k.
Proof. induction k as [|k IH]; [reflexivity|]. cbn [bit_string String.length]. now rewrite IH. Qed.

Lemma testbit_above (n : Z) (k : nat) (i : nat) :
  0 <= n < 2 ^ Z.of_nat k -> (k <= i)%nat -> Z.testbit n (Z.of_nat i) = false.
Proof.
  intros [Hlo Hhi] Hle. destruct (Z.eq_dec n 0) as [->|Hne]; [apply Z.testbit_0_l|].
  apply Z.bits_above_log2; [exact Hlo|].
  apply Z.lt_le_trans with (Z.of_nat k); [|lia].
  apply Z.log2_lt_pow2; lia.
Qed.

Lemma bit_string_pad (n : Z) (k j : nat) :
  0 <= n < 2 ^ Z.of_nat k ->
  bit_string n (j + k) = OverlapControl.zeros j (bit_string n k).
Proof.
  intros Hn. induction j as [|j IH]; [reflexivity|].
  cbn [Nat.add bit_string OverlapControl.zeros].
  rewrite (testbit_above n k (j + k)) by (assumption || lia). f_equal. exact IH.
Qed.

Lemma size_nat_gt (p : positive) : Zpos p < 2 ^ Z.of_nat (Pos.size_nat p).
Proof.
  induction p as [p IH|p IH|]; cbn [Pos.size_nat];
    rewrite Nat2Z.inj_succ, Z.pow_succ_r by lia; lia.
Qed.

Lemma zfill_bit_string (n : Z) (k : nat) :
  OverlapControl.zfill 256 (bit_string n k) =
    OverlapControl.zeros (256 - k) (bit_string n k).
Proof.
  unfold OverlapControl.zfill. rewrite length_bit_string.
  destruct k as [|k]; [reflexivity|]. cbn [bit_string].
  destruct (Z.testbit n (Z.of_nat k)); reflexivity.
Qed.

(** The 256 binary digits the code compares are the bits of the number. *)
Lemma bin256_bit_string (n : Z) :
  0 <= n < 2 ^ 256 ->
  OverlapControl.zfill 256 (PyStr.slice_from 2 (OverlapControl.bin n)) = bit_string n 256.
Proof.
  intros [Hlo Hhi]. destruct n as [|p|p]; [reflexivity| |lia].
  change (PyStr.slice_from 2 (OverlapControl.bin (Zpos p)))
    with (OverlapControl.bits p "").
  rewrite bits_bit_string.
  assert (Hnil : forall s, s +++ "" = s).
  { induction s as [|c s IH]; [reflexivity|]. cbn [String.append]. now rewrite IH. }
  rewrite Hnil, zfill_bit_string.
  pose proof (size_nat_bound p 256 Hhi) as Hsize.
  rewrite <- bit_string_pad by (split; [lia|apply size_nat_gt]).
  f_equal. lia.
Qed.

Lemma matches_bit_string (n1 n2 : Z) (k : nat) :
  OverlapControl.matches (bit_string n1 k) (bit_string n2 k) = agreeing n1 n2 k.
Proof.
  induction k as [|k IH]; [reflexivity|].
  cbn [bit_string OverlapControl.matches agreeing]. rewrite IH. f_equal.
  destruct (Z.testbit n1 (Z.of_nat k)), (Z.testbit n2 (Z.of_nat k)); reflexivity.
Qed.

Lemma agreeing_bound (n1 n2 : Z) (k : nat) : 0 <= agreeing n1 n2 k <= Z.of_nat k.
Proof.
  induction k as [|k IH]; [simpl; lia|]. cbn [agreeing]. rewrite Nat2Z.inj_succ.
  destruct (Bool.eqb _ _); lia.
Qed.

Lemma agreeing_sym (n1 n2 : Z) (k : nat) : agreeing n1 n2 k = agreeing n2 n1 k.
Proof.
  induction k as [|k IH]; [reflexivity|]. cbn [agreeing]. rewrite IH. f_equal.
  destruct (Z.testbit n1 (Z.of_nat k)), (Z.testbit n2 (Z.of_nat k)); reflexivity.
Qed.

Lemma overlap_agreeing (h1 h2 : string) (n1 n2 : Z) :
  OverlapControl.int16 h1 = Ok n1 -> 0 <= n1 < 2 ^ 256 ->
  OverlapControl.int16 h2 = Ok n2 -> 0 <= n2 < 2 ^ 256 ->
  OverlapControl._calculate_overlap h1 h2 =
    Ok (Py.float_of_Z (agreeing n1 n2 256) / Py.float_of_Z 256)%float.
Proof.
  intros E1 B1 E2 B2. unfold OverlapControl._calculate_overlap.
  rewrite E1, E2. cbn [rbind].
  rewrite !bin256_bit_string by assumption. rewrite matches_bit_string. reflexivity.
Qed.

(** X11: the similarity of two digests is the share of agreeing bits.  For
    two SHA-256 hex digests, read as 256-bit numbers, [_calculate_overlap]
    returns k / 256, where k, between 0 and 256, is the number of bit
    positions at which the two numbers agree; it never raises, and it gives
    the same value whichever digest comes first. *)
Theorem overlap_counts_agreeing_bits (h1 h2 : string) :
  is_hexdigest h1 = true ->
  is_hexdigest h2 = true ->
  exists n1 n2,
    OverlapControl.int16 h1 = Ok n1 /\
    OverlapControl.int16 h2 = Ok n2 /\
    OverlapControl._calculate_overlap h1 h2 =
      Ok (Py.float_of_Z (agreeing n1 n2 256) / Py.float_of_Z 256)%float /\
    0 <= agreeing n1 n2 256 <= 256 /\
    OverlapControl._calculate_overlap h2 h1 = OverlapControl._calculate_overlap h1 h2.
Proof.
  intros H1 H2.
  destruct (int16_hexdigest h1 H1) as (n1 & E1 & B1).
  destruct (int16_hexdigest h2 H2) as (n2 & E2 & B2).
  exists n1, n2. split; [exact E1|]. split; [exact E2|].
  split; [apply overlap_agreeing; assumption|].
  split; [apply (agreeing_bound n1 n2 256)|].
  rewrite (overlap_agreeing h1 h2 n1 n2), (overlap_agreeing h2 h1 n2 n1) by assumption.
  rewrite agreeing_sym. reflexivity.
Qed.

Lemma overlap_counts_agreeing_bits_witness :
  exists n1 n2,
    OverlapControl.int16 Fixtures.digest = Ok n1 /\
    OverlapControl.int16 Fixtures.digest = Ok n2 /\
    OverlapControl._calculate_overlap Fixtures.digest Fixtures.digest =
      Ok (Py.float_of_Z (agreeing n1 n2 256) / Py.float_of_Z 256)%float /\
    0 <= agreeing n1 n2 256 <= 256 /\
    OverlapControl._calculate_overlap Fixtures.digest Fixtures.digest =
      OverlapControl._calculate_overlap Fixtures.digest Fixtures.digest.
Proof.
  exact (overlap_counts_agreeing_bits Fixtures.digest Fixtures.digest eq_refl eq_refl).
Defined.

Lemma default_threshold_table :
  forallb (fun k => Bool.eqb (default_overlap_threshold
                                <? Py.float_of_Z (Z.of_nat k) / Py.float_of_Z 256)%float
                      (205 <=? Z.of_nat k))
    (seq 0 257) = true.
Proof. vm_compute. reflexivity. Qed.

Lemma default_threshold_bits (k : Z) :
  0 <= k <= 256 ->
  (default_overlap_threshold <? Py.float_of_Z k / Py.float_of_Z 256)%float = (205 <=? k).
Proof.
  intros Hk. pose proof default_threshold_table as Htab.
  rewrite forallb_forall in Htab. specialize (Htab (Z.to_nat k)).
  rewrite Z2Nat.id in Htab by lia. apply eqb_prop, Htab.
  apply in_seq. lia.
Qed.

(** X12: what the default threshold means.  With the threshold 0.8 of
    [OverlapControl.__init__], a stored digest is too similar to the digest
    of the current result exactly when the two agree in at least 205 of
    their 256 bits. *)
Theorem default_threshold_needs_205_bits (h1 h2 : string) :
  is_hexdigest h1 = true ->
  is_hexdigest h2 = true ->
  exists n1 n2 overlap,
    OverlapControl.int16 h1 = Ok n1 /\
    OverlapControl.int16 h2 = Ok n2 /\
    OverlapControl._calculate_overlap h1 h2 = Ok overlap /\
    ((default_overlap_threshold <? overlap)%float = true <->
     205 <= agreeing n1 n2 256).
Proof.
  intros H1 H2.
  destruct (int16_hexdigest h1 H1) as (n1 & E1 & B1).
  destruct (int16_hexdigest h2 H2) as (n2 & E2 & B2).
  exists n1, n2. eexists. split; [exact E1|]. split; [exact E2|].
  split; [apply (overlap_agreeing h1 h2 n1 n2); assumption|].
  rewrite default_threshold_bits by apply (agreeing_bound n1 n2 256).
  apply Z.leb_le.
Qed.

Lemma default_threshold_needs_205_bits_witness :
  exists n1 n2 overlap,
    OverlapControl.int16 Fixtures.digest = Ok n1 /\
    OverlapControl.int16
      "e3b0c44298fc1c149afbf4c8996fb92427ae41e4649b934ca495991b7852b854" = Ok n2 /\
    OverlapControl._calculate_overlap Fixtures.digest
      "e3b0c44298fc1c149afbf4c8996fb92427ae41e4649b934ca495991b7852b854" = Ok overlap /\
    ((default_overlap_threshold <? overlap)%float = true <->
     205 <= agreeing n1 n2 256).
Proof.
  exact (default_threshold_needs_205_bits Fixtures.digest
           "e3b0c44298fc1c149afbf4c8996fb92427ae41e4649b934ca495991b7852b854"
           eq_refl eq_refl).
Defined.

(** ** Differential Privacy with an epsilon that gives no scale *)

Section BadEpsilon.

Variable epsilon : float.
Variable e : exn.
Hypothesis sampling_fails :
  forall key value w,
    Py.is_int_or_float value = true ->
    DifferentialPrivacy.noisy_item epsilon (key, value) w = (Raise e, w).

Lemma noisy_item_plain (key : string) (value : Value) (w : World) :
  Py.is_int_or_float value = false ->
  DifferentialPrivacy.noisy_item epsilon (key, value) w = (Ok (key, value), w).
Proof. intros Hv. unfold DifferentialPrivacy.noisy_item. rewrite Hv. reflexivity. Qed.

Lemma noisy_row_plain (row : Row) (w : World) :
  existsb (fun kv => Py.is_int_or_float (snd kv)) row = false ->
  mapM (DifferentialPrivacy.noisy_item epsilon) row w = (Ok row, w).
Proof.
  induction row as [|[key value] row IH]; [reflexivity|].
  cbn [existsb snd]. intros Hno. apply orb_false_iff in Hno as [Hv Hrest].
  cbn [mapM]. step. rewrite noisy_item_plain by exact Hv. rewrite IH by exact Hrest.
  reflexivity.
Qed.

Lemma noisy_row_fails (row : Row) (w : World) :
  existsb (fun kv => Py.is_int_or_float (snd kv)) row = true ->
  mapM (DifferentialPrivacy.noisy_item epsilon) row w = (Raise e, w).
Proof.
  induction row as [|[key value] row IH]; [discriminate|].
  cbn [existsb snd]. intros Hsome. cbn [mapM]. step.
  destruct (Py.is_int_or_float value) eqn:Hv.
  - rewrite sampling_fails by exact Hv. reflexivity.
  - rewrite noisy_item_plain by exact Hv. rewrite IH by exact Hsome. reflexivity.
Qed.

Lemma noisy_rows_fail (rows : list Row) (w : World) :
  has_noised_field rows = true ->
  mapM (mapM (DifferentialPrivacy.noisy_item epsilon)) rows w = (Raise e, w).
Proof.
  unfold has_noised_field. induction rows as [|row rows IH]; [discriminate|].
  cbn [existsb]. intros Hsome. cbn [mapM]. step.
  destruct (existsb (fun kv => Py.is_int_or_float (snd kv)) row) eqn:Hrow.
  - rewrite noisy_row_fails by exact Hrow. reflexivity.
  - rewrite noisy_row_plain by exact Hrow. rewrite IH by exact Hsome. reflexivity.
Qed.

End BadEpsilon.

Lemma noisy_item_zero_epsilon (epsilon : float) key value w :
  (epsilon =? 0)%float = true ->
  Py.is_int_or_float value = true ->
  DifferentialPrivacy.noisy_item epsilon (key, value) w =
    (Raise (ZeroDivisionError "float division by zero"), w).
Proof.
  intros Heps Hv. unfold DifferentialPrivacy.noisy_item, DifferentialPrivacy.scale.
  rewrite Hv, Heps. reflexivity.
Qed.

Lemma below_zero_negative (x : float) :
  (x <? 0)%float = true -> negative_scale x = true.
Proof.
  rewrite FloatAxioms.ltb_spec. unfold negative_scale.
  change (Prim2SF 0) with (S754_zero false).
  destruct (Prim2SF x) as [[|]|[|]| |[|] m e]; try reflexivity; discriminate.
Qed.

Lemma noisy_item_negative_scale (epsilon : float) key value w :
  (epsilon =? 0)%float = false ->
  (1 / epsilon <? 0)%float = true ->
  Py.is_int_or_float value = true ->
  DifferentialPrivacy.noisy_item epsilon (key, value) w =
    (Raise (ValueError "scale < 0"), w).
Proof.
  intros Heps Hscale Hv. apply below_zero_negative in Hscale.
  unfold DifferentialPrivacy.noisy_item, DifferentialPrivacy.scale, laplace.
  rewrite Hv, Heps. step. rewrite Hscale. reflexivity.
Qed.

(** X13: Differential Privacy with an epsilon that gives no noise scale.
    The constructor accepts any epsilon; when the result has a field that
    receives noise (a Python int or float), an epsilon of zero makes
    [aggregate] raise ZeroDivisionError, and an epsilon whose scale
    1/epsilon is negative makes it raise the sampler's ValueError.  In both
    cases the query has already run and [query_audit] shows it as answered,
    no sample has been drawn and the caller gets no outcome.  The store is
    assumed to accept the audit INSERT. *)
Theorem differential_privacy_bad_epsilon `{PyRuntime} (w : World) (username : string)
    (epsilon : float) (query : string) (params : option (list Value))
    (user password : option string) (rows : list Row) :
  let run :=
    DifferentialPrivacy.aggregate username epsilon query params user password w in
  audit_accepted w ->
  pg w (clock w) (mkStatement query params user password) = Rows rows ->
  has_noised_field rows = true ->
  ((epsilon =? 0)%float = true ->
   fst run = Raise (ZeroDivisionError "float division by zero")) /\
  ((epsilon =? 0)%float = false -> (1 / epsilon <? 0)%float = true ->
   fst run = Raise (ValueError "scale < 0")) /\
  ((epsilon =? 0)%float = true \/ (1 / epsilon <? 0)%float = true ->
   draws (snd run) = draws w /\
   query_audit (snd run) =
     mkAudit username query (VInt (Z.of_nat (List.length rows))) false None
       :: query_audit w).
Proof.
  intros run Hacc Hpg Hsome.
  assert (Hrun : forall e,
             (forall key value w0,
                 Py.is_int_or_float value = true ->
                 DifferentialPrivacy.noisy_item epsilon (key, value) w0 = (Raise e, w0)) ->
             run = (Raise e,
                    add_audit (mkAudit username query
                                 (VInt (Z.of_nat (List.length rows))) false None)
                      (tick (tick w)))).
  { intros e Hfail. unfold run, DifferentialPrivacy.aggregate. step.
    rewrite gateway_rows with (rs := rows) by assumption.
    destruct rows as [|r rs]; [discriminate|].
    cbn [orb negb truthy]. cbv iota beta.
    rewrite (noisy_rows_fail epsilon e Hfail) by exact Hsome. reflexivity. }
  split; [|split].
  - intros Heps. rewrite (Hrun (ZeroDivisionError "float division by zero")); [reflexivity|].
    intros. apply noisy_item_zero_epsilon; assumption.
  - intros Heps Hscale. rewrite (Hrun (ValueError "scale < 0")); [reflexivity|].
    intros. apply noisy_item_negative_scale; assumption.
  - intros Hbad. destruct (epsilon =? 0)%float eqn:Heps.
    + rewrite (Hrun (ZeroDivisionError "float division by zero")); [split; reflexivity|].
      intros. apply noisy_item_zero_epsilon; assumption.
    + destruct Hbad as [Hbad|Hscale]; [discriminate|].
      rewrite (Hrun (ValueError "scale < 0")); [split; reflexivity|].
      intros. apply noisy_item_negative_scale; assumption.
Qed.

Lemma differential_privacy_bad_epsilon_witness :
  fst (DifferentialPrivacy.aggregate (H := Fixtures.runtime) "system" 0
         Fixtures.salary_query None None None
         (Fixtures.world (Fixtures.always [[("department", VStr "Eng"); ("n", VInt 7)]]))) =
    Raise (ZeroDivisionError "float division by zero").
Proof.
  exact (proj1 (differential_privacy_bad_epsilon (H := Fixtures.runtime)
                  (Fixtures.world
                     (Fixtures.always [[("department", VStr "Eng"); ("n", VInt 7)]]))
                  "system" 0 Fixtures.salary_query None None None
                  [[("department", VStr "Eng"); ("n", VInt 7)]]
                  (always_audit_accepted _) eq_refl eq_refl) eq_refl).
Defined.

(** ** Cell Suppression: shape, count and a tested column without a number *)

Lemma count_col_find (row : Row) :
  match List.find (fun kv => count_like (fst kv)) row with
  | Some (c, v) =>
      CellSuppression.count_col row = Some c /\ Py.getitem row c = Ok v /\
      count_like c = true
  | None => CellSuppression.count_col row = None
  end.
Proof.
  induction row as [|[k x] row IH]; [reflexivity|].
  cbn [List.find fst CellSuppression.count_col]. fold (count_like k).
  destruct (count_like k) eqn:Ek.
  - cbn [Py.getitem]. rewrite String.eqb_refl. repeat split. exact Ek.
  - destruct (List.find (fun kv => count_like (fst kv)) row) as [[c v]|]; [|exact IH].
    destruct IH as (Hc & Hg & Hlike). split; [exact Hc|]. split; [|exact Hlike].
    cbn [Py.getitem]. destruct (String.eqb_spec k c) as [->|_]; [congruence|exact Hg].
Qed.

Lemma suppress_row_shape (min_cell_size : Z) (row out : Row) (b : bool) :
  CellSuppression.suppress_row min_cell_size row = Ok (out, b) ->
  map fst out = map fst row /\ b = small_cell min_cell_size row.
Proof.
  unfold CellSuppression.suppress_row, small_cell.
  pose proof (count_col_find row) as Hfind.
  destruct (List.find (fun kv => count_like (fst kv)) row) as [[c v]|].
  - destruct Hfind as (-> & -> & Hlike).
    rewrite (count_like_nonempty _ Hlike). cbn [rbind].
    destruct (Py.lt_int v min_cell_size) as [[|]|e]; cbn [rbind]; [| |discriminate].
    + intros [= <- <-]. split; [|reflexivity].
      apply (suppressed_row_suppressed c row).
    + intros [= <- <-]. split; reflexivity.
  - rewrite Hfind. intros [= <- <-]. split; reflexivity.
Qed.

Lemma suppress_shape (min_cell_size : Z) (rows out : list Row) (n : Z) :
  CellSuppression.suppress min_cell_size rows = Ok (out, n) ->
  map (map fst) out = map (map fst) rows /\
  n = Z.of_nat (List.length (filter (small_cell min_cell_size) rows)).
Proof.
  revert out n. induction rows as [|row rows IH]; intros out n.
  - intros [= <- <-]. split; reflexivity.
  - cbn [CellSuppression.suppress].
    destruct (CellSuppression.suppress_row min_cell_size row) as [[o b]|e] eqn:Erow;
      [|discriminate].
    destruct (CellSuppression.suppress min_cell_size rows) as [[os m]|e] eqn:Erest;
      [|discriminate].
    cbn [rbind fst snd]. intros [= <- <-].
    apply suppress_row_shape in Erow as [Hkeys ->].
    destruct (IH os m eq_refl) as [Hrest ->].
    cbn [map filter]. rewrite Hkeys, Hrest. split; [reflexivity|].
    destruct (small_cell min_cell_size row); cbn [List.length]; lia.
Qed.

(** X14: Cell Suppression keeps the shape of the result and counts what it
    suppresses.  When the query returns rows, the outcome has as many rows
    as the store returned, each with the same column names in the same
    order, the unprotected rows beside them, and protection_applied reports
    as suppressed the number of rows whose tested column is below the
    minimum cell size.  The tested columns are assumed to hold numbers, and
    the store to accept the audit INSERT. *)
Theorem cell_suppression_shape_and_count (w : World) (username : string)
    (min_cell_size : Z) (query : string) (params : option (list Value))
    (user password : option string) (group_by_column : option string)
    (rows : list Row) :
  audit_accepted w ->
  pg w (clock w) (mkStatement query params user password) = Rows rows ->
  truthy (Some rows) = true ->
  counts_are_numbers rows ->
  exists out,
    fst (CellSuppression.aggregate username min_cell_size query params user password
           group_by_column w) =
      Ok (mkOutcome "Cell Suppression" false None (Some out) (Some rows)
            (Some ("min_cell_size=" +++ PyStr.of_int min_cell_size +++ ", suppressed="
                     +++ PyStr.of_int
                           (Z.of_nat (List.length
                                        (filter (small_cell min_cell_size) rows)))))) /\
    List.length out = List.length rows /\
    map (map fst) out = map (map fst) rows.
Proof.
  intros Hacc Hpg Hrows Hnum. unfold CellSuppression.aggregate. step.
  rewrite gateway_rows with (rs := rows) by assumption.
  destruct rows as [|r rs]; [discriminate|].
  cbn [orb negb truthy]. cbv iota beta.
  destruct (suppress_rule min_cell_size (r :: rs) Hnum) as (out & n & Hs & _).
  rewrite Hs. pose proof (suppress_length _ _ _ _ Hs) as Hlen.
  apply suppress_shape in Hs as [Hkeys ->].
  exists out. repeat split; assumption.
Qed.

Lemma cell_suppression_shape_and_count_witness :
  exists out,
    fst (CellSuppression.aggregate "system" 3 Fixtures.salary_query None None None None
           (Fixtures.world
              (Fixtures.always
                 [[("department", VStr "Operations"); ("emp_count", VInt 2)];
                  [("department", VStr "Sales"); ("emp_count", VInt 9)]]))) =
      Ok (mkOutcome "Cell Suppression" false None (Some out)
            (Some [[("department", VStr "Operations"); ("emp_count", VInt 2)];
                   [("department", VStr "Sales"); ("emp_count", VInt 9)]])
            (Some "min_cell_size=3, suppressed=1")) /\
    List.length out = 2%nat /\
    map (map fst) out = [["department"; "emp_count"]; ["department"; "emp_count"]].
Proof.
  exact (cell_suppression_shape_and_count
           (Fixtures.world
              (Fixtures.always
                 [[("department", VStr "Operations"); ("emp_count", VInt 2)];
                  [("department", VStr "Sales"); ("emp_count", VInt 9)]]))
           "system" 3 Fixtures.salary_query None None None None
           [[("department", VStr "Operations"); ("emp_count", VInt 2)];
            [("department", VStr "Sales"); ("emp_count", VInt 9)]]
           (always_audit_accepted _) eq_refl eq_refl
           (counts_are_numbers_check
              [[("department", VStr "Operations"); ("emp_count", VInt 2)];
               [("department", VStr "Sales"); ("emp_count", VInt 9)]] eq_refl)).
Defined.

Lemma suppress_raises (min_cell_size : Z) (pre : list Row) (row : Row) (post : list Row)
    (c : string) (v : Value) :
  counts_are_numbers pre ->
  tested_column row c v ->
  Py.to_num v = None ->
  CellSuppression.suppress min_cell_size (pre ++ row :: post) =
    Raise (Py.unorderable "<" v).
Proof.
  intros Hpre Ht Hv. unfold counts_are_numbers in Hpre.
  induction Hpre as [|r pre Hr _ IH].
  - cbn [app CellSuppression.suppress]. unfold CellSuppression.suppress_row.
    pose proof (tested_column_found _ _ _ Ht) as [Hc Hg].
    assert (Hlike : count_like c = true)
      by (destruct Ht as (? & ? & _ & ? & _); assumption).
    rewrite Hc, (count_like_nonempty _ Hlike), Hg. cbn [rbind].
    unfold Py.lt_int. rewrite Hv. reflexivity.
  - cbn [app CellSuppression.suppress].
    destruct (suppress_row_rule min_cell_size r Hr) as (out & b & -> & _).
    cbn [rbind]. rewrite IH. reflexivity.
Qed.

(** X15: a tested column without a number makes Cell Suppression raise.
    The tested column of a row is the first whose name contains "count", a
    column named country or account included; when it holds NULL, text or a
    date in some row, and the tested columns of the rows before it hold
    numbers, [aggregate] raises the TypeError of the comparison with the
    minimum cell size.  The query has then run and [query_audit] shows it as
    answered, and the caller gets no outcome.  The store is assumed to
    accept the audit INSERT. *)
Theorem cell_suppression_non_number_raises (w : World) (username : string)
    (min_cell_size : Z) (query : string) (params : option (list Value))
    (user password : option string) (group_by_column : option string)
    (pre : list Row) (row : Row) (post : list Row) (c : string) (v : Value) :
  let run :=
    CellSuppression.aggregate username min_cell_size query params user password
      group_by_column w in
  audit_accepted w ->
  pg w (clock w) (mkStatement query params user password) = Rows (pre ++ row :: post) ->
  counts_are_numbers pre ->
  tested_column row c v ->
  Py.to_num v = None ->
  fst run =
    Raise (TypeError ("'<' not supported between instances of '" +++ Py.type_name v
                        +++ "' and 'int'")) /\
  query_audit (snd run) =
    mkAudit username query (VInt (Z.of_nat (List.length (pre ++ row :: post)))) false None
      :: query_audit w.
Proof.
  intros run Hacc Hpg Hpre Ht Hv. unfold run, CellSuppression.aggregate. step.
  rewrite gateway_rows with (rs := (pre ++ row :: post)%list) by assumption.
  assert (Htruthy : truthy (Some (pre ++ row :: post)%list) = true)
    by (destruct pre; reflexivity).
  rewrite Htruthy. cbn [orb negb]. cbv iota beta.
  rewrite (suppress_raises min_cell_size pre row post c v) by assumption.
  split; reflexivity.
Qed.

Lemma cell_suppression_non_number_raises_witness :
  fst (CellSuppression.aggregate "system" 3 Fixtures.salary_query None None None None
         (Fixtures.world
            (Fixtures.always [[("country", VStr "Norway"); ("emp_count", VInt 2)]]))) =
    Raise (TypeError "'<' not supported between instances of 'str' and 'int'").
Proof.
  exact (proj1 (cell_suppression_non_number_raises
                  (Fixtures.world
                     (Fixtures.always
                        [[("country", VStr "Norway"); ("emp_count", VInt 2)]]))
                  "system" 3 Fixtures.salary_query None None None None
                  [] [("country", VStr "Norway"); ("emp_count", VInt 2)] []
                  "country" (VStr "Norway")
                  (always_audit_accepted _) eq_refl (Forall_nil _)
                  (ex_intro _ [] (ex_intro _ [("emp_count", VInt 2)]
                     (conj eq_refl (conj eq_refl (Forall_nil _)))))
                  eq_refl)).
Defined.

(** ** The attacks on answers they do not expect *)

Lemma attack_query_returned (w : World) query params user password :
  InferenceAttack.execute_query query params user password w =
    (Ok (returned (pg w (clock w) (mkStatement query params user password))), tick w).
Proof.
  unfold InferenceAttack.execute_query, try_except, Database.execute_query.
  destruct (pg w (clock w) _); reflexivity.
Qed.

(** X16: the Differencing attack raises on a NULL average.  AVG over no
    rows is NULL, so an aggregate query that matches no employee returns one
    row whose average is None: the first query for a department without
    employees, the second for a target who is alone in the department.  The
    attack then raises TypeError on [float(None)] instead of returning a
    failure result. *)
Theorem differencing_null_average_raises `{PyRuntime} (w : World)
    (target_name department : string) (user password : option string) :
  let run := DifferencingAttack.attack target_name department user password w in
  let answer1 :=
    pg w (clock w)
      (mkStatement DifferencingAttack.query1 (Some [VStr department]) user password) in
  let answer2 :=
    pg w (S (clock w))
      (mkStatement DifferencingAttack.query2
         (Some [VStr department; VStr target_name]) user password) in
  let null_average (answer : Response) :=
    exists row rest,
      answer = Rows (row :: rest) /\ Py.getitem row "avg_salary" = Ok VNone in
  let type_error :=
    TypeError "float() argument must be a string or a real number, not 'NoneType'" in
  (null_average answer1 -> fst run = Raise type_error) /\
  (forall rows1 avg_with_target total_count,
      answer1 = Rows rows1 -> truthy (Some rows1) = true ->
      DifferencingAttack.float_field (Some rows1) "avg_salary" = Ok avg_with_target ->
      DifferencingAttack.field (Some rows1) "emp_count" = Ok total_count ->
      null_average answer2 ->
      fst run = Raise type_error).
Proof.
  intros run answer1 answer2 null_average type_error.
  unfold run, DifferencingAttack.attack. split.
  - intros (row & rest & Ha & Hnull). step. rewrite attack_query_returned.
    fold answer1. rewrite Ha. cbn [returned truthy negb].
    unfold DifferencingAttack.float_field. cbn [Py.first rbind]. rewrite Hnull.
    reflexivity.
  - intros rows1 a1 n H1 T1 F1 C1 (row & rest & Ha & Hnull). step.
    rewrite attack_query_returned. fold answer1. rewrite H1. cbn [returned].
    rewrite T1. cbn [negb]. rewrite F1, C1.
    rewrite attack_query_returned. cbn [clock tick pg]. fold answer2. rewrite Ha.
    cbn [returned truthy negb].
    unfold DifferencingAttack.float_field. cbn [Py.first rbind]. rewrite Hnull.
    reflexivity.
Qed.

Lemma differencing_null_average_raises_witness :
  fst (DifferencingAttack.attack (H := Fixtures.runtime) "Alice Johnson" "Engineering"
         None None
         (Fixtures.world
            (Fixtures.always [[("avg_salary", VNone); ("emp_count", VInt 0)]]))) =
    Raise (TypeError "float() argument must be a string or a real number, not 'NoneType'").
Proof.
  exact (proj1 (differencing_null_average_raises (H := Fixtures.runtime)
                  (Fixtures.world
                     (Fixtures.always [[("avg_salary", VNone); ("emp_count", VInt 0)]]))
                  "Alice Johnson" "Engineering" None None)
           (ex_intro _ _ (ex_intro _ _ (conj eq_refl eq_refl)))).
Defined.

(** ** The Tracker attack *)

Lemma gt_int_values (a b : Z) : Py.gt (VInt a) (VInt b) = Ok (b <? a).
Proof.
  unfold Py.gt. cbn [Py.to_num Py.num_compare]. rewrite !Z.mul_1_r.
  unfold Z.ltb. rewrite (Z.compare_antisym a b).
  destruct (a ?= b); reflexivity.
Qed.

Lemma count_or_0_no_rows (answer : Response) :
  no_rows answer -> TrackerAttack.count_or_0 (returned answer) = Ok (VInt 0).
Proof. destruct answer as [[|r rs]|msg]; [reflexivity|contradiction|reflexivity]. Qed.

Lemma verified_salary `{PyRuntime} (answer : Response) :
  verifiable answer ->
  exists actual_salary,
    (if truthy (returned answer)
     then let? x := DifferencingAttack.float_field (returned answer) "salary" in
          Ok (Some x)
     else Ok None) = Ok actual_salary.
Proof.
  destruct answer as [[|r rs]|msg]; cbn [returned truthy verifiable].
  - exists None. reflexivity.
  - intros [x ->]. exists (Some x). reflexivity.
  - exists None. reflexivity.
Qed.

Lemma tracker_run `{PyRuntime} (w : World) (target_name : string)
    (salary_threshold : float) (user password : option string)
    (rows : list Row) (department : Value) (c1 c2 : Z) :
  let answer1 :=
    pg w (S (clock w))
      (mkStatement TrackerAttack.query1 (Some [department; VFloat salary_threshold])
         user password) in
  let answer2 :=
    pg w (S (S (clock w)))
      (mkStatement TrackerAttack.query2
         (Some [department; VFloat salary_threshold; VStr target_name]) user password) in
  let answer3 :=
    pg w (S (S (S (clock w))))
      (mkStatement TrackerAttack.verify_query (Some [VStr target_name]) user password) in
  pg w (clock w)
    (mkStatement TrackerAttack.dept_query (Some [VStr target_name]) user password) =
    Rows rows ->
  truthy (Some rows) = true ->
  DifferencingAttack.field (Some rows) "department" = Ok department ->
  TrackerAttack.count_or_0 (returned answer1) = Ok (VInt c1) ->
  TrackerAttack.count_or_0 (returned answer2) = Ok (VInt c2) ->
  verifiable answer3 ->
  exists actual_salary,
    let actual_is_high :=
      match actual_salary with
      | Some x => if DifferencingAttack.nonzero actual_salary
                  then Some (salary_threshold <? x)%float else None
      | None => None
      end in
    TrackerAttack.attack target_name salary_threshold user password w =
      (Ok (TrackerAttack.mkResult "Tracker" true None (Some target_name)
             (Some salary_threshold) (Some (c2 <? c1)) actual_salary actual_is_high
             (match actual_is_high with
              | Some b => Some (Bool.eqb (c2 <? c1) b)
              | None => None
              end)
             (Some 2)),
       tick (tick (tick (tick w)))).
Proof.
  intros answer1 answer2 answer3 H0 T0 D C1 C2 Hv.
  destruct (verified_salary answer3 Hv) as [actual_salary Ha].
  exists actual_salary. cbv zeta.
  unfold TrackerAttack.attack. step.
  rewrite attack_query_returned, H0. cbn [returned]. rewrite T0. cbn [negb].
  rewrite D. rewrite attack_query_returned. cbn [clock tick pg]. fold answer1.
  rewrite C1. rewrite attack_query_returned. cbn [clock tick pg]. fold answer2.
  rewrite C2. rewrite gt_int_values.
  rewrite attack_query_returned. cbn [clock tick pg]. fold answer3.
  rewrite Ha. reflexivity.
Qed.

(** X17: what the Tracker attack infers, and what it sends.  When the
    lookup of the target's department returns a row, the attack reports
    success, and it infers that the target is a high earner exactly when the
    count of high earners in the department is greater than the count
    without the target.  It has then sent four statements to the store, the
    lookup and the verification included, while it reports queries_used = 2.
    When the verification returns a non-zero salary, the field correct tells
    whether the inference agrees with the comparison of that salary with the
    threshold.  The counts are taken to be ints, and the verification not to
    raise. *)
Theorem tracker_inference `{PyRuntime} (w : World) (target_name : string)
    (salary_threshold : float) (user password : option string)
    (rows : list Row) (department : Value) (c1 c2 : Z) :
  let run := TrackerAttack.attack target_name salary_threshold user password w in
  let answer1 :=
    pg w (S (clock w))
      (mkStatement TrackerAttack.query1 (Some [department; VFloat salary_threshold])
         user password) in
  let answer2 :=
    pg w (S (S (clock w)))
      (mkStatement TrackerAttack.query2
         (Some [department; VFloat salary_threshold; VStr target_name]) user password) in
  let answer3 :=
    pg w (S (S (S (clock w))))
      (mkStatement TrackerAttack.verify_query (Some [VStr target_name]) user password) in
  pg w (clock w)
    (mkStatement TrackerAttack.dept_query (Some [VStr target_name]) user password) =
    Rows rows ->
  truthy (Some rows) = true ->
  DifferencingAttack.field (Some rows) "department" = Ok department ->
  TrackerAttack.count_or_0 (returned answer1) = Ok (VInt c1) ->
  TrackerAttack.count_or_0 (returned answer2) = Ok (VInt c2) ->
  verifiable answer3 ->
  exists r,
    fst run = Ok r /\
    TrackerAttack.success r = true /\
    TrackerAttack.inferred_high_earner r = Some (c2 <? c1) /\
    TrackerAttack.queries_used r = Some 2 /\
    clock (snd run) = (4 + clock w)%nat /\
    (forall salary,
        TrackerAttack.actual_salary r = Some salary ->
        (salary =? 0)%float = false ->
        TrackerAttack.correct r =
          Some (Bool.eqb (c2 <? c1) (salary_threshold <? salary)%float)).
Proof.
  intros run answer1 answer2 answer3 H0 T0 D C1 C2 Hv.
  destruct (tracker_run w target_name salary_threshold user password rows department
              c1 c2 H0 T0 D C1 C2 Hv) as [actual_salary Hrun].
  cbv zeta in Hrun. unfold run. rewrite Hrun. eexists. split; [reflexivity|].
  cbn [fst snd TrackerAttack.success TrackerAttack.inferred_high_earner
         TrackerAttack.queries_used TrackerAttack.actual_salary TrackerAttack.correct].
  repeat split.
  intros salary -> Hnz. cbn [DifferencingAttack.nonzero]. rewrite Hnz. reflexivity.
Qed.

Lemma tracker_inference_witness :
  exists r,
    fst (TrackerAttack.attack (H := Fixtures.runtime) "Bob Smith" 90000 None None
           (Fixtures.world
              (Fixtures.tracked "Engineering" (Rows [[("high_earner_count", VInt 4)]])
                 (Rows [[("high_earner_count", VInt 3)]]) (VFloat 95000)))) = Ok r /\
    TrackerAttack.success r = true /\
    TrackerAttack.inferred_high_earner r = Some true /\
    TrackerAttack.queries_used r = Some 2 /\
    clock (snd (TrackerAttack.attack (H := Fixtures.runtime) "Bob Smith" 90000 None None
                  (Fixtures.world
                     (Fixtures.tracked "Engineering"
                        (Rows [[("high_earner_count", VInt 4)]])
                        (Rows [[("high_earner_count", VInt 3)]]) (VFloat 95000))))) =
      4%nat /\
    (forall salary,
        TrackerAttack.actual_salary r = Some salary ->
        (salary =? 0)%float = false ->
        TrackerAttack.correct r = Some (Bool.eqb true (90000 <? salary)%float)).
Proof.
  exact (tracker_inference (H := Fixtures.runtime)
           (Fixtures.world
              (Fixtures.tracked "Engineering" (Rows [[("high_earner_count", VInt 4)]])
                 (Rows [[("high_earner_count", VInt 3)]]) (VFloat 95000)))
           "Bob Smith" 90000 None None
           [[("department", VStr "Engineering")]] (VStr "Engineering") 4 3
           eq_refl eq_refl eq_refl eq_refl eq_refl
           (ex_intro _ 95000%float eq_refl)).
Defined.

(** X18: the Tracker attack reads a failed count as zero.  A count query
    that the store rejects, or that returns no rows, counts as 0 and the
    attack still reports success.  So when the count without the target
    fails and the department has at least one high earner, the target is
    reported as a high earner; and when the count over the whole department
    fails, the target is reported as no high earner: in both cases whatever
    the target earns.  The verification is assumed not to raise. *)
Theorem tracker_failed_count_reads_as_zero `{PyRuntime} (w : World)
    (target_name : string) (salary_threshold : float) (user password : option string)
    (rows : list Row) (department : Value) (c : Z) :
  let run := TrackerAttack.attack target_name salary_threshold user password w in
  let answer1 :=
    pg w (S (clock w))
      (mkStatement TrackerAttack.query1 (Some [department; VFloat salary_threshold])
         user password) in
  let answer2 :=
    pg w (S (S (clock w)))
      (mkStatement TrackerAttack.query2
         (Some [department; VFloat salary_threshold; VStr target_name]) user password) in
  let answer3 :=
    pg w (S (S (S (clock w))))
      (mkStatement TrackerAttack.verify_query (Some [VStr target_name]) user password) in
  let reports (is_high_earner : bool) :=
    exists r,
      fst run = Ok r /\ TrackerAttack.success r = true /\
      TrackerAttack.inferred_high_earner r = Some is_high_earner in
  pg w (clock w)
    (mkStatement TrackerAttack.dept_query (Some [VStr target_name]) user password) =
    Rows rows ->
  truthy (Some rows) = true ->
  DifferencingAttack.field (Some rows) "department" = Ok department ->
  verifiable answer3 ->
  (TrackerAttack.count_or_0 (returned answer1) = Ok (VInt c) -> 0 < c ->
   no_rows answer2 -> reports true) /\
  (no_rows answer1 ->
   TrackerAttack.count_or_0 (returned answer2) = Ok (VInt c) -> 0 <= c ->
   reports false).
Proof.
  intros run answer1 answer2 answer3 reports H0 T0 D Hv. split.
  - intros C1 Hpos Hno.
    destruct (tracker_run w target_name salary_threshold user password rows department
                c 0 H0 T0 D C1 (count_or_0_no_rows _ Hno) Hv) as [actual_salary Hrun].
    cbv zeta in Hrun. unfold reports, run. rewrite Hrun. eexists.
    split; [reflexivity|]. split; [reflexivity|].
    cbn [TrackerAttack.inferred_high_earner]. f_equal. apply Z.ltb_lt, Hpos.
  - intros Hno C2 Hnonneg.
    destruct (tracker_run w target_name salary_threshold user password rows department
                0 c H0 T0 D (count_or_0_no_rows _ Hno) C2 Hv) as [actual_salary Hrun].
    cbv zeta in Hrun. unfold reports, run. rewrite Hrun. eexists.
    split; [reflexivity|]. split; [reflexivity|].
    cbn [TrackerAttack.inferred_high_earner]. f_equal. apply Z.ltb_ge, Hnonneg.
Qed.

Lemma tracker_failed_count_reads_as_zero_witness :
  exists r,
    fst (TrackerAttack.attack (H := Fixtures.runtime) "Bob Smith" 90000 None None
           (Fixtures.world
              (Fixtures.tracked "Engineering" (Rows [[("high_earner_count", VInt 4)]])
                 (Rejected "permission denied") (VFloat 50000)))) = Ok r /\
    TrackerAttack.success r = true /\
    TrackerAttack.inferred_high_earner r = Some true.
Proof.
  exact (proj1 (tracker_failed_count_reads_as_zero (H := Fixtures.runtime)
                  (Fixtures.world
                     (Fixtures.tracked "Engineering"
                        (Rows [[("high_earner_count", VInt 4)]])
                        (Rejected "permission denied") (VFloat 50000)))
                  "Bob Smith" 90000 None None
                  [[("department", VStr "Engineering")]] (VStr "Engineering") 4
                  eq_refl eq_refl eq_refl (ex_intro _ 50000%float eq_refl))
           eq_refl eq_refl I).
Defined.

(** ** The Sum attack with one unknown salary *)

Lemma setitem_in (d : list (Value * float)) (key : Value) (u : float) (k : Value)
    (x : float) :
  In (k, x) (SumAttack.setitem d key u) ->
  In (k, x) d \/ (x = u /\ (k = key \/ exists y, In (k, y) d)).
Proof.
  induction d as [|[k0 y0] d IH]; cbn [SumAttack.setitem].
  - intros [[= <- <-]|[]]. right. split; [reflexivity|left; reflexivity].
  - destruct (SumAttack.key_eqb k0 key).
    + intros [[= <- <-]|Hin].
      * right. split; [reflexivity|]. right. exists y0. left. reflexivity.
      * left. right. exact Hin.
    + intros [[= <- <-]|Hin]; [left; left; reflexivity|].
      destruct (IH Hin) as [Hd|(-> & [->|(y & Hy)])].
      * left. right. exact Hd.
      * right. split; [reflexivity|left; reflexivity].
      * right. split; [reflexivity|]. right. exists y. right. exact Hy.
Qed.

Lemma setitem_has (d : list (Value * float)) (key : Value) (u : float) :
  (key = key -> SumAttack.key_eqb key key = true) ->
  exists k, SumAttack.key_eqb k key = true /\ In (k, u) (SumAttack.setitem d key u).
Proof.
  intros Hrefl. induction d as [|[k0 y0] d IH]; cbn [SumAttack.setitem].
  - exists key. split; [apply Hrefl; reflexivity|left; reflexivity].
  - destruct (SumAttack.key_eqb k0 key) eqn:E.
    + exists k0. split; [exact E|left; reflexivity].
    + destruct IH as (k & Hk & Hin). exists k. split; [exact Hk|right; exact Hin].
Qed.

Lemma setitem_keeps (d : list (Value * float)) (key : Value) (u : float) (k : Value) :
  (forall k' x, In (k', x) d -> x = u) ->
  In (k, u) d -> In (k, u) (SumAttack.setitem d key u).
Proof.
  intros Hall. induction d as [|[k0 y0] d IH]; [contradiction|].
  cbn [SumAttack.setitem]. intros Hin.
  assert (Hy0 : y0 = u) by (apply (Hall k0); left; reflexivity). subst y0.
  destruct (SumAttack.key_eqb k0 key).
  - destruct Hin as [[= <-]|Hin]; [left; reflexivity|right; exact Hin].
  - destruct Hin as [[= <-]|Hin]; [left; reflexivity|].
    right. apply IH; [|exact Hin]. intros k' x Hx. apply (Hall k'). right. exact Hx.
Qed.

Lemma key_eqb_str (s : string) : SumAttack.key_eqb (VStr s) (VStr s) = true.
Proof. unfold SumAttack.key_eqb. cbn [Py.to_num]. apply String.eqb_refl. Qed.

Lemma key_eqb_str_inv (k : Value) (s : string) :
  SumAttack.key_eqb k (VStr s) = true -> k = VStr s.
Proof.
  unfold SumAttack.key_eqb. destruct k; cbn [Py.to_num]; try discriminate.
  intros E. apply String.eqb_eq in E. now subst.
Qed.

Lemma known_in (known_salaries : list (string * float)) (s : string) :
  SumAttack.known known_salaries (VStr s) = true <-> In s (map fst known_salaries).
Proof.
  unfold SumAttack.known. rewrite existsb_exists, in_map_iff. split.
  - intros (kv & Hin & E). apply String.eqb_eq in E. exists kv. split; assumption.
  - intros (kv & E & Hin). exists kv. split; [exact Hin|]. apply String.eqb_eq, E.
Qed.

Lemma infer_spec `{PyRuntime} (known_salaries : list (string * float)) (u : float)
    (emps : list Row) :
  Forall (fun emp =>
            exists s, Py.getitem emp "name" = Ok (VStr s) /\
                      (~ In s (map fst known_salaries) -> listed_salary emp))
    emps ->
  forall acc,
    (forall k x, In (k, x) acc -> x = u) ->
    exists out,
      SumAttack.infer known_salaries u emps acc = Ok out /\
      forall k x,
        In (k, x) out <->
        In (k, x) acc \/
        (x = u /\ exists emp s, In emp emps /\ Py.getitem emp "name" = Ok (VStr s) /\
                                k = VStr s /\ ~ In s (map fst known_salaries)).
Proof.
  induction 1 as [|emp rest (s & Hname & Hsal) _ IH]; intros acc Hacc.
  - exists acc. split; [reflexivity|]. intros k x. split; [auto|].
    intros [Hin|(_ & emp & s & [] & _)]. exact Hin.
  - cbn [SumAttack.infer]. rewrite Hname. cbn [rbind].
    destruct (SumAttack.known known_salaries (VStr s)) eqn:Ek; cbn [negb].
    + apply known_in in Ek. destruct (IH acc Hacc) as (out & -> & Hout).
      exists out. split; [reflexivity|]. intros k x. rewrite Hout. split.
      * intros [Hin|(-> & e & s' & Hin & Hn & Hk & Hu)]; [left; exact Hin|].
        right. split; [reflexivity|]. exists e, s'. repeat split; auto. right. exact Hin.
      * intros [Hin|(-> & e & s' & [<-|Hin] & Hn & Hk & Hu)]; [left; exact Hin| |].
        -- rewrite Hname in Hn. injection Hn as <-. contradiction.
        -- right. split; [reflexivity|]. exists e, s'. repeat split; auto.
    + assert (Hunknown : ~ In s (map fst known_salaries)).
      { intros Hin. apply known_in in Hin. congruence. }
      destruct (Hsal Hunknown) as (sal & x0 & Hg & Hf). cbv zeta.
      rewrite Hg. cbn [rbind]. rewrite Hf. cbn [rbind].
      assert (Hacc' : forall k x, In (k, x) (SumAttack.setitem acc (VStr s) u) -> x = u).
      { intros k x Hin. apply setitem_in in Hin as [Hin|[-> _]]; [|reflexivity].
        apply (Hacc k x Hin). }
      destruct (IH _ Hacc') as (out & -> & Hout).
      exists out. split; [reflexivity|]. intros k x. rewrite Hout. split.
      * intros [Hin|(-> & e & s' & Hin & Hn & Hk & Hu)].
        -- apply setitem_in in Hin as [Hin|(-> & [->|(y & Hy)])].
           ++ left. exact Hin.
           ++ right. split; [reflexivity|]. exists emp, s. repeat split; auto.
              left. reflexivity.
           ++ left. rewrite <- (Hacc k y Hy). exact Hy.
        -- right. split; [reflexivity|]. exists e, s'. repeat split; auto.
           right. exact Hin.
      * intros [Hin|(-> & e & s' & [<-|Hin] & Hn & Hk & Hu)].
        -- left. pose proof (Hacc k x Hin) as ->. apply setitem_keeps; assumption.
        -- left. rewrite Hname in Hn. injection Hn as <-. subst k.
           destruct (setitem_has acc (VStr s) u (fun _ => key_eqb_str s))
             as (k' & Hk' & Hin').
           apply key_eqb_str_inv in Hk'. now subst k'.
        -- right. split; [reflexivity|]. exists e, s'. repeat split; auto.
Qed.

Lemma listed_employees_check `{PyRuntime} (names : list string) (emps : list Row) :
  forallb (listed_employee names) emps = true ->
  Forall (fun emp =>
            exists s, Py.getitem emp "name" = Ok (VStr s) /\
                      (~ In s names -> listed_salary emp))
    emps.
Proof.
  rewrite forallb_forall, Forall_forall. intros Hall emp Hin.
  specialize (Hall emp Hin). unfold listed_employee in Hall.
  destruct (Py.getitem emp "name") as [[| | | | |s|]|]; try discriminate.
  exists s. split; [reflexivity|]. intros Hnot.
  apply orb_prop in Hall as [Hex|Hsal].
  - exfalso. apply Hnot. apply existsb_exists in Hex as (t & Ht & E).
    apply String.eqb_eq in E. now subst.
  - unfold listed_salary.
    destruct (Py.getitem emp "salary") as [salary|]; [|discriminate].
    destruct (Py.to_float salary) as [x|] eqn:Ex; [|discriminate].
    exists salary, x. split; [reflexivity|exact Ex].
Qed.

(** X19: what the Sum attack infers.  When the department total and count
    are returned, exactly one employee more is counted than salaries are
    known, and the second query lists the employees, the attack reports
    success and unknown_sum = total_sum - known_sum, and inferred_salaries
    holds exactly the listed employees whose name is not among the known
    ones, each with unknown_sum as salary: one entry when the known names
    are all in the department, several with the same salary otherwise.  The
    names are taken to be text and the salaries of the unknown employees to
    be values that float() accepts. *)
Theorem sum_attack_one_unknown `{PyRuntime} (w : World) (department : string)
    (known_salaries : list (string * float)) (user password : option string)
    (rows : list Row) (total_sum : float) (total_count : Z) (emps : list Row) :
  let unknown_sum :=
    (total_sum - match SumAttack.sum_values known_salaries with
                 | VFloat x => x
                 | _ => 0
                 end)%float in
  pg w (clock w) (mkStatement SumAttack.query1 (Some [VStr department]) user password) =
    Rows rows ->
  truthy (Some rows) = true ->
  DifferencingAttack.float_field (Some rows) "total_salary" = Ok total_sum ->
  DifferencingAttack.field (Some rows) "emp_count" = Ok (VInt total_count) ->
  total_count - Z.of_nat (List.length known_salaries) = 1 ->
  pg w (S (clock w)) (mkStatement SumAttack.query2 (Some [VStr department]) user password) =
    Rows emps ->
  Forall (fun emp =>
            exists s, Py.getitem emp "name" = Ok (VStr s) /\
                      (~ In s (map fst known_salaries) -> listed_salary emp))
    emps ->
  exists r inferred,
    fst (SumAttack.attack department known_salaries user password w) = Ok r /\
    SumAttack.success r = true /\
    SumAttack.unknown_sum r = Some unknown_sum /\
    SumAttack.inferred_salaries r = Some inferred /\
    forall name salary,
      In (name, salary) inferred <->
      salary = unknown_sum /\
      exists emp s, In emp emps /\ Py.getitem emp "name" = Ok (VStr s) /\
                    name = VStr s /\ ~ In s (map fst known_salaries).
Proof.
  intros unknown_sum H1 T1 F1 C1 Hone H2 Hemps.
  destruct (infer_spec known_salaries unknown_sum emps Hemps [])
    as (inferred & Hinfer & Hspec); [intros k x []|].
  unfold SumAttack.attack. step.
  rewrite attack_query_rows with (rs := rows) by exact H1.
  rewrite T1. cbn [negb]. rewrite F1, C1.
  cbn [Py.sub_int]. rewrite Hone.
  change (Py.gt_int (VInt 1) 0) with (Ok (A := bool) true).
  change (Py.eq_int (VInt 1) 1) with true.
  assert (Hdiv : forall x, exists y, Py.float_div x (VInt 1) = Ok y).
  { intros x. eexists. reflexivity. }
  match goal with
  | |- context [Py.float_div ?x (VInt 1)] => destruct (Hdiv x) as [avg ->]
  end.
  cbn [rbind]. cbv iota beta.
  rewrite attack_query_rows with (rs := emps) by exact H2.
  fold unknown_sum. rewrite Hinfer.
  eexists _, inferred. split; [reflexivity|].
  cbn [SumAttack.success SumAttack.unknown_sum SumAttack.inferred_salaries].
  split; [reflexivity|]. split; [reflexivity|]. split; [reflexivity|].
  intros name salary. rewrite Hspec. split.
  - intros [[]|Hin]. exact Hin.
  - intros Hin. right. exact Hin.
Qed.

Lemma sum_attack_one_unknown_witness :
  exists r inferred,
    fst (SumAttack.attack (H := Fixtures.runtime) "Operations"
           [("Ethan Howard", 75000%float); ("Faye Ward", 68000%float);
            ("Greg Torres", 80000%float); ("Hana Lee", 55000%float)]
           None None (Fixtures.world Fixtures.operations)) = Ok r /\
    SumAttack.success r = true /\
    SumAttack.unknown_sum r = Some (350000 - (0 + 75000 + 68000 + 80000 + 55000))%float /\
    SumAttack.inferred_salaries r = Some inferred /\
    forall name salary,
      In (name, salary) inferred <->
      salary = (350000 - (0 + 75000 + 68000 + 80000 + 55000))%float /\
      exists emp s,
        In emp Fixtures.operations_staff /\
        Py.getitem emp "name" = Ok (VStr s) /\ name = VStr s /\
        ~ In s ["Ethan Howard"; "Faye Ward"; "Greg Torres"; "Hana Lee"].
Proof.
  exact (sum_attack_one_unknown (H := Fixtures.runtime)
           (Fixtures.world Fixtures.operations) "Operations"
           [("Ethan Howard", 75000%float); ("Faye Ward", 68000%float);
            ("Greg Torres", 80000%float); ("Hana Lee", 55000%float)]
           None None
           [[("total_salary", VDecimal 35000000 (-2)); ("emp_count", VInt 5)]]
           350000%float 5
           Fixtures.operations_staff
           eq_refl eq_refl eq_refl eq_refl eq_refl eq_refl
           (listed_employees_check (H := Fixtures.runtime)
              ["Ethan Howard"; "Faye Ward"; "Greg Torres"; "Hana Lee"]
              Fixtures.operations_staff eq_refl)).
Defined.

(** ** The Linear System attack *)

Lemma clock_ticks (k : nat) (w : World) : clock (ticks k w) = (k + clock w)%nat.
Proof.
  induction k as [|k IH]; [reflexivity|].
  cbn [ticks]. simpl. now rewrite IH.
Qed.

Lemma ticks_tick (k : nat) (w : World) : ticks k (tick w) = ticks (S k) w.
Proof.
  induction k as [|k IH]; [reflexivity|].
  cbn [ticks]. rewrite IH. reflexivity.
Qed.

Lemma ones_map (m b a : nat) :
  (a < b)%nat ->
  repeat 1 m = map (fun j => if Nat.eqb j a then 0 else 1) (seq b m).
Proof.
  revert b. induction m as [|m IH]; intros b Hab; [reflexivity|].
  cbn [repeat seq map]. destruct (Nat.eqb_spec b a) as [->|_]; [lia|].
  f_equal. apply IH. lia.
Qed.

Lemma set_index_map (n i a : nat) :
  (i < n)%nat ->
  LinearSystemAttack.set_index (repeat 1 n) i 0 =
    Ok (map (fun j => if Nat.eqb j (a + i) then 0 else 1) (seq a n)).
Proof.
  revert i a. induction n as [|n IH]; intros i a Hi; [lia|].
  cbn [repeat seq map]. destruct i as [|i].
  - cbn [LinearSystemAttack.set_index]. rewrite Nat.add_0_r, Nat.eqb_refl.
    rewrite <- ones_map by lia. reflexivity.
  - cbn [LinearSystemAttack.set_index]. rewrite (IH i (S a)) by lia. cbn [rbind].
    destruct (Nat.eqb_spec a (a + S i)) as [E|_]; [lia|].
    rewrite Nat.add_succ_r. reflexivity.
Qed.

Lemma set_index_exclusion (n i : nat) :
  (i < n)%nat -> LinearSystemAttack.set_index (repeat 1 n) i 0 = Ok (exclusion n i).
Proof. intros Hi. exact (set_index_map n i 0 Hi). Qed.

Lemma exclusions_all_answered `{PyRuntime} (target_department : string) (n : nat)
    (user password : option string) (employees : list Row) :
  forall (i : nat) (equations : list (list Z)) (constants consts : list float)
         (w : World),
    (i + List.length employees <= n)%nat ->
    List.length consts = List.length employees ->
    (forall k emp,
        nth_error employees k = Some emp ->
        exists c,
          exclusion_answered w target_department user password (k + clock w) emp c /\
          nth_error consts k = Some c) ->
    LinearSystemAttack.exclusions target_department n user password i employees
      equations constants w =
      (Ok ((equations ++ map (exclusion n) (seq i (List.length employees)))%list,
           (constants ++ consts)%list),
       ticks (List.length employees) w).
Proof.
  induction employees as [|emp rest IH]; intros i equations constants consts w Hn Hlen Hans.
  - destruct consts; [|discriminate]. cbn. rewrite !app_nil_r. reflexivity.
  - destruct consts as [|c consts]; [discriminate|].
    destruct (Hans 0%nat emp eq_refl)
      as (c' & (name & rows & avg & cnt & Hname & Hpg & Ht & Hf & Hc & Hm) & [= <-]).
    cbn [LinearSystemAttack.exclusions]. step. rewrite Hname.
    rewrite attack_query_rows with (rs := rows) by exact Hpg.
    rewrite Ht. cbn [List.length] in Hn.
    rewrite set_index_exclusion by lia. rewrite Hf, Hc, Hm.
    rewrite (IH (S i) _ _ consts (tick w)).
    + cbn [List.length seq map]. rewrite <- !app_assoc. cbn [app].
      rewrite ticks_tick. reflexivity.
    + lia.
    + cbn [List.length] in Hlen. lia.
    + intros k e Hk. destruct (Hans (S k) e Hk) as (ck & Hck & Hnth).
      exists ck. split; [|exact Hnth].
      cbn [clock tick pg]. rewrite <- Nat.add_succ_comm. exact Hck.
Qed.

Lemma compare_returns `{PyRuntime} (x : list float) (employees : list Row) :
  forall (i : nat) (results : list (Value * LinearSystemAttack.Inference)),
    (i + List.length employees <= List.length x)%nat ->
    Forall (fun emp => listed_salary emp /\ exists name, Py.getitem emp "name" = Ok name)
      employees ->
    exists out, LinearSystemAttack.compare x i employees results = Ok out.
Proof.
  induction employees as [|emp rest IH]; intros i results Hlen Hall.
  - exists results. reflexivity.
  - inversion Hall as [|? ? [(salary & a & Hs & Ha) (name & Hname)] Hrest]; subst.
    cbn [LinearSystemAttack.compare]. unfold LinearSystemAttack.index.
    cbn [List.length] in Hlen.
    destruct (nth_error x i) as [y|] eqn:Ex.
    2:{ apply nth_error_None in Ex. lia. }
    cbn [rbind]. rewrite Hs. cbn [rbind]. rewrite Ha. cbn [rbind]. rewrite Hname.
    cbn [rbind]. apply IH; [lia|exact Hrest].
Qed.
Lemma firstn_seq_le (k a m : nat) : (k <= m)%nat -> firstn k (seq a m) = seq a k.
Proof.
  revert a m. induction k as [|k IH]; intros a m Hk; [reflexivity|].
  destruct m as [|m]; [lia|]. cbn [seq firstn]. f_equal. apply IH. lia.
Qed.

Lemma gather_all_answered `{PyRuntime} (w : World) (target_department : string)
    (user password : option string) (emps avg_rows : list Row) (avg_sal c0 : float)
    (consts : list float) :
  let n := List.length emps in
  pg w (clock w)
    (mkStatement LinearSystemAttack.all_avg_query (Some [VStr target_department])
       user password) = Rows avg_rows ->
  truthy (Some avg_rows) = true ->
  DifferencingAttack.float_field (Some avg_rows) "avg_sal" = Ok avg_sal ->
  Py.float_mul avg_sal (VInt (Z.of_nat n)) = Ok c0 ->
  List.length consts = n ->
  (forall i emp,
      nth_error emps i = Some emp ->
      exists c,
        exclusion_answered w target_department user password (1 + i + clock w) emp c /\
        nth_error consts i = Some c) ->
  LinearSystemAttack.gather target_department n user password emps w =
    (Ok (repeat 1 n :: map (exclusion n) (seq 0 n), c0 :: consts), ticks n (tick w)).
Proof.
  intros n Hpg Ht Hf Hm Hlen Hans. unfold LinearSystemAttack.gather. step.
  rewrite attack_query_rows with (rs := avg_rows) by exact Hpg.
  rewrite Ht, Hf, Hm.
  rewrite (exclusions_all_answered target_department n user password emps 0
             [repeat 1 n] [c0] consts (tick w)).
  - reflexivity.
  - reflexivity.
  - exact Hlen.
  - intros k emp Hk. destruct (Hans k emp Hk) as (c & Hc & Hnth).
    exists c. split; [|exact Hnth]. cbn [clock tick].
    rewrite <- Nat.add_succ_comm. exact Hc.
Qed.

(** X20: the Linear System attack refuses a department of fewer than two
    employees.  When the list of employees is rejected, empty, or has a
    single row, the attack returns the failure "Not enough employees in
    department" and sends no further statement. *)
Theorem linear_system_needs_two_employees `{PyRuntime} `{NumpyLinalg} (w : World)
    (target_department : string) (user password : option string) :
  let answer :=
    pg w (clock w)
      (mkStatement LinearSystemAttack.emp_query (Some [VStr target_department])
         user password) in
  no_rows answer \/ (exists emp, answer = Rows [emp]) ->
  LinearSystemAttack.attack target_department user password w =
    (Ok (LinearSystemAttack.failed "Not enough employees in department"), tick w).
Proof.
  intros answer Hfew. unfold LinearSystemAttack.attack. step.
  rewrite attack_query_returned. fold answer.
  destruct Hfew as [Hno|[emp ->]]; [|reflexivity].
  destruct answer as [[|r rs]|msg]; [reflexivity|contradiction|reflexivity].
Qed.

Lemma linear_system_needs_two_employees_witness :
  LinearSystemAttack.attack (H := Fixtures.runtime) (H0 := Fixtures.solver) "Finance"
    None None
    (Fixtures.world (Fixtures.always [[("name", VStr "Ivy Chen"); ("salary", VInt 90000)]])) =
    (Ok (LinearSystemAttack.failed "Not enough employees in department"),
     tick (Fixtures.world
             (Fixtures.always [[("name", VStr "Ivy Chen"); ("salary", VInt 90000)]]))).
Proof.
  exact (linear_system_needs_two_employees (H := Fixtures.runtime) (H0 := Fixtures.solver)
           (Fixtures.world
              (Fixtures.always [[("name", VStr "Ivy Chen"); ("salary", VInt 90000)]]))
           "Finance" None None
           (or_intror (ex_intro _ _ eq_refl))).
Defined.

Lemma exclusion_answered_name `{PyRuntime} w target_department user password time emp c :
  exclusion_answered w target_department user password time emp c ->
  exists name, Py.getitem emp "name" = Ok name.
Proof. intros (name & _ & _ & _ & Hname & _). exists name. exact Hname. Qed.

(** X21: the equations of the Linear System attack.  For a department of n
    employees, n at least 2, whose aggregate queries are all answered, the
    attack gathers n + 1 equations, the sum over all employees and one
    exclusion per employee, and hands the solver the first n of them: the
    exclusion of the last employee is gathered and not used.  It has then
    sent n + 2 statements to the store.  When the solver fails it returns
    the failure "System is singular or unsolvable"; when the solver
    returns, it reports success with employee_count = n and with
    equations_used and queries_used n + 1, the number of equations
    gathered.  The salaries are assumed to be values that float()
    accepts. *)
Theorem linear_system_equations `{PyRuntime} `{NumpyLinalg} (w : World)
    (target_department : string) (user password : option string)
    (emps avg_rows : list Row) (avg_sal c0 : float) (consts : list float) :
  let n := List.length emps in
  let run := LinearSystemAttack.attack target_department user password w in
  let A := repeat 1 n :: map (exclusion n) (seq 0 (n - 1)) in
  let b := c0 :: firstn (n - 1) consts in
  pg w (clock w)
    (mkStatement LinearSystemAttack.emp_query (Some [VStr target_department])
       user password) = Rows emps ->
  (2 <= n)%nat ->
  pg w (S (clock w))
    (mkStatement LinearSystemAttack.all_avg_query (Some [VStr target_department])
       user password) = Rows avg_rows ->
  truthy (Some avg_rows) = true ->
  DifferencingAttack.float_field (Some avg_rows) "avg_sal" = Ok avg_sal ->
  Py.float_mul avg_sal (VInt (Z.of_nat n)) = Ok c0 ->
  List.length consts = n ->
  (forall i emp,
      nth_error emps i = Some emp ->
      exists c,
        exclusion_answered w target_department user password (2 + i + clock w) emp c /\
        nth_error consts i = Some c) ->
  Forall listed_salary emps ->
  clock (snd run) = (n + 2 + clock w)%nat /\
  match linalg_solve A b with
  | Some x =>
      exists r,
        fst run = Ok r /\
        LinearSystemAttack.success r = true /\
        LinearSystemAttack.employee_count r = Some (Z.of_nat n) /\
        LinearSystemAttack.equations_used r = Some (Z.of_nat n + 1) /\
        LinearSystemAttack.queries_used r = Some (Z.of_nat n + 1)
  | None =>
      fst run = Ok (LinearSystemAttack.failed "System is singular or unsolvable")
  end.
Proof.
  intros n run A b Hemps Hn Hpg Ht Hf Hm Hlen Hans Hsal.
  assert (Hgather :
            LinearSystemAttack.gather target_department n user password emps (tick w) =
              (Ok (repeat 1 n :: map (exclusion n) (seq 0 n), c0 :: consts),
               ticks n (tick (tick w)))).
  { apply gather_all_answered with (avg_rows := avg_rows) (avg_sal := avg_sal);
      try assumption.
    intros i emp Hi. destruct (Hans i emp Hi) as (c & Hc & Hnth).
    exists c. split; [|exact Hnth]. cbn [clock tick pg].
    replace (1 + i + S (clock w))%nat with (2 + i + clock w)%nat by lia. exact Hc. }
  assert (Hfirst : firstn n (repeat 1 n :: map (exclusion n) (seq 0 n)) = A).
  { unfold A. destruct n as [|m]; [lia|]. cbn [firstn]. f_equal.
    rewrite firstn_map. f_equal.
    replace (S m - 1)%nat with m by lia.
    apply firstn_seq_le. lia. }
  assert (Hfirstb : firstn n (c0 :: consts) = b).
  { unfold b. destruct n as [|m]; [lia|]. cbn [firstn].
    replace (S m - 1)%nat with m by lia. reflexivity. }
  assert (Hrun : run =
            (match linalg_solve A b with
             | Some x =>
                 match LinearSystemAttack.compare x 0 emps [] with
                 | Ok results =>
                     Ok (LinearSystemAttack.mkResult "Linear System" true None
                           (Some target_department) (Some (Z.of_nat n))
                           (Some (Z.of_nat (S n))) (Some results) (Some (Z.of_nat (S n))))
                 | Raise e => Raise e
                 end
             | None => Ok (LinearSystemAttack.failed "System is singular or unsolvable")
             end,
             ticks n (tick (tick w)))).
  { unfold run, LinearSystemAttack.attack. step.
    rewrite attack_query_rows with (rs := emps) by exact Hemps.
    assert (Htruthy : truthy (Some emps) = true).
    { destruct emps; [simpl in n; lia|reflexivity]. }
    rewrite Htruthy. cbn [negb orb].
    assert (Hlt : (Z.of_nat (List.length emps) <? 2) = false) by (apply Z.ltb_ge; lia).
    rewrite Hlt. fold n. rewrite Hgather.
    cbn [List.length]. rewrite length_map, length_seq.
    assert (Hle : (n <=? S n)%nat = true) by (apply Nat.leb_le; lia).
    rewrite Hle, Hfirst, Hfirstb.
    destruct (linalg_solve A b) as [x|]; [|reflexivity].
    destruct (LinearSystemAttack.compare x 0 emps []); reflexivity. }
  rewrite Hrun. cbn [fst snd]. split.
  - rewrite clock_ticks. cbn [clock tick]. lia.
  - destruct (linalg_solve A b) as [x|] eqn:Ex; [|reflexivity].
    apply linalg_solve_shape in Ex.
    assert (HlenA : List.length A = n).
    { unfold A. cbn [List.length]. rewrite length_map, length_seq. lia. }
    destruct (compare_returns x emps 0 []) as [results ->].
    + fold n. lia.
    + rewrite Forall_forall in *. intros emp Hin. split; [apply Hsal, Hin|].
      apply In_nth_error in Hin as [i Hi]. destruct (Hans i emp Hi) as (c & Hc & _).
      eapply exclusion_answered_name. exact Hc.
    + eexists. split; [reflexivity|].
      cbn [LinearSystemAttack.success LinearSystemAttack.employee_count
             LinearSystemAttack.equations_used LinearSystemAttack.queries_used].
      rewrite Nat2Z.inj_succ. repeat split; f_equal; lia.
Qed.
Lemma linear_system_equations_witness :
  let run :=
    LinearSystemAttack.attack (H := Fixtures.runtime) (H0 := Fixtures.solver) "Finance"
      None None (Fixtures.world Fixtures.finance) in
  clock (snd run) = 4%nat /\
  exists r,
    fst run = Ok r /\
    LinearSystemAttack.success r = true /\
    LinearSystemAttack.employee_count r = Some 2 /\
    LinearSystemAttack.equations_used r = Some 3 /\
    LinearSystemAttack.queries_used r = Some 3.
Proof.
  refine (linear_system_equations (H := Fixtures.runtime) (H0 := Fixtures.solver)
            (Fixtures.world Fixtures.finance) "Finance" None None
            Fixtures.finance_staff [[("avg_sal", VFloat 80000)]]
            80000%float (80000 * 2)%float [(70000 * 1)%float; (90000 * 1)%float]
            eq_refl _ eq_refl eq_refl eq_refl eq_refl eq_refl _ _).
  - simpl. lia.
  - intros [|[|[|i]]] emp E; simpl in E; try discriminate E; injection E as <-.
    + exists (70000 * 1)%float. split; [|reflexivity].
      exists (VStr "Ivy Chen"), [[("avg_sal", VFloat 70000); ("cnt", VInt 1)]],
        70000%float, (VInt 1).
      repeat split.
    + exists (90000 * 1)%float. split; [|reflexivity].
      exists (VStr "Jack Moore"), [[("avg_sal", VFloat 90000); ("cnt", VInt 1)]],
        90000%float, (VInt 1).
      repeat split.
  - repeat constructor; eexists _, _; split; reflexivity.
Defined.

(** ** The Linear System attack: the equations have one solution *)

Lemma dot_ones (x : list Z) : dot (repeat 1 (List.length x)) x = total x.
Proof.
  induction x as [|v x IH]; [reflexivity|].
  cbn [List.length repeat dot total fold_right]. fold (total x). rewrite IH. lia.
Qed.

Lemma dot_exclusion_from (x : list Z) :
  forall a i,
    (i < List.length x)%nat ->
    dot (map (fun j => if Nat.eqb j (a + i) then 0 else 1) (seq a (List.length x))) x =
      total x - nth i x 0.
Proof.
  induction x as [|v x IH]; intros a i Hi; [simpl in Hi; lia|].
  cbn [List.length seq map dot total fold_right nth]. fold (total x).
  destruct i as [|i].
  - rewrite Nat.add_0_r, Nat.eqb_refl. rewrite <- ones_map by lia.
    rewrite dot_ones. lia.
  - destruct (Nat.eqb_spec a (a + S i)) as [E|_]; [lia|].
    rewrite Nat.add_succ_r. change (S (a + i)) with (S a + i)%nat.
    rewrite IH by (simpl in Hi; lia). lia.
Qed.

Lemma dot_exclusion (x : list Z) (i : nat) :
  (i < List.length x)%nat ->
  dot (exclusion (List.length x) i) x = total x - nth i x 0.
Proof. intros Hi. exact (dot_exclusion_from x 0 i Hi). Qed.

Lemma total_single (x : list Z) :
  forall j,
    (forall i, (i < List.length x)%nat -> i <> j -> nth i x 0 = 0) ->
    total x = nth j x 0.
Proof.
  induction x as [|v x IH]; intros j Hz; [destruct j; reflexivity|].
  cbn [total fold_right]. fold (total x). destruct j as [|j].
  - cbn [nth]. rewrite (IH (List.length x)).
    + rewrite nth_overflow by lia. lia.
    + intros i Hi _. apply (Hz (S i)); [simpl; lia|discriminate].
  - cbn [nth]. rewrite (IH j).
    + assert (Hv : nth 0 (v :: x) 0 = 0) by (apply Hz; [simpl; lia|discriminate]).
      simpl in Hv. lia.
    + intros i Hi Hne. apply (Hz (S i)); [simpl; lia|congruence].
Qed.

Lemma total_const (x : list Z) (c : Z) :
  (forall i, (i < List.length x)%nat -> nth i x 0 = c) ->
  total x = Z.of_nat (List.length x) * c.
Proof.
  induction x as [|v x IH]; intros Hc; [reflexivity|].
  cbn [total fold_right List.length]. fold (total x). rewrite IH.
  - assert (Hv : nth 0 (v :: x) 0 = c) by (apply Hc; simpl; lia).
    simpl in Hv. lia.
  - intros i Hi. apply (Hc (S i)). simpl. lia.
Qed.

Lemma all_zero (x : list Z) :
  (forall i, (i < List.length x)%nat -> nth i x 0 = 0) -> Forall (fun v => v = 0) x.
Proof.
  induction x as [|v x IH]; intros Hz; constructor.
  - apply (Hz 0%nat). simpl. lia.
  - apply IH. intros i Hi. apply (Hz (S i)). simpl. lia.
Qed.

Lemma filter_full {A} (keep : A -> bool) (l : list A) :
  List.length (filter keep l) = List.length l -> filter keep l = l.
Proof.
  induction l as [|a l IH]; [reflexivity|]. cbn [filter].
  pose proof (filter_length_le keep l) as Hle.
  destruct (keep a); cbn [List.length]; intros Hlen; [|lia].
  f_equal. apply IH. lia.
Qed.

Lemma filter_misses_one {A} (keep : A -> bool) (l : list A) :
  S (List.length (filter keep l)) = List.length l ->
  exists j, forall i, In i l -> i <> j -> In i (filter keep l).
Proof.
  induction l as [|a l IH]; [discriminate|]. cbn [filter].
  destruct (keep a); cbn [List.length]; intros Hlen.
  - destruct IH as [j Hj]; [lia|]. exists j. intros i [<-|Hin] Hne.
    + left. reflexivity.
    + right. apply Hj; assumption.
  - rewrite filter_full by lia. exists a. intros i [<-|Hin] Hne; [contradiction|exact Hin].
Qed.

Lemma exclusions_shape `{PyRuntime} (target_department : string) (n : nat)
    (user password : option string) (employees : list Row) :
  forall (i : nat) (equations : list (list Z)) (constants : list float)
         (w w' : World) (equations' : list (list Z)) (constants' : list float),
    (i + List.length employees <= n)%nat ->
    LinearSystemAttack.exclusions target_department n user password i employees
      equations constants w = (Ok (equations', constants'), w') ->
    exists keep,
      equations' =
        (equations
           ++ map (exclusion n) (filter keep (seq i (List.length employees))))%list.
Proof.
  induction employees as [|emp rest IH];
    intros i equations constants w w' equations' constants' Hn Hrun.
  - apply ret_ok in Hrun as [[= -> ->] _]. exists (fun _ => true).
    cbn. now rewrite app_nil_r.
  - cbn [LinearSystemAttack.exclusions] in Hrun. cbn [List.length] in Hn.
    apply bind_ok in Hrun as (name & w1 & _ & Hrun).
    apply bind_ok in Hrun as (result & w2 & _ & Hrun).
    destruct (truthy result).
    + apply bind_ok in Hrun as (equation & w3 & Heq & Hrun).
      apply lift_ok in Heq as [Heq _]. rewrite set_index_exclusion in Heq by lia.
      injection Heq as <-.
      apply bind_ok in Hrun as (avg & w4 & _ & Hrun).
      apply bind_ok in Hrun as (cnt & w5 & _ & Hrun).
      apply bind_ok in Hrun as (c & w6 & _ & Hrun).
      apply IH in Hrun as [keep ->]; [|lia].
      exists (fun j => Nat.eqb j i || keep j). cbn [List.length seq filter].
      rewrite Nat.eqb_refl. cbn [orb map]. rewrite <- app_assoc. cbn [app].
      f_equal. f_equal. f_equal. apply filter_ext_in. intros j Hj.
      apply in_seq in Hj. destruct (Nat.eqb_spec j i); [lia|reflexivity].
    + apply IH in Hrun as [keep ->]; [|lia].
      exists (fun j => negb (Nat.eqb j i) && keep j). cbn [List.length seq filter].
      rewrite Nat.eqb_refl. cbn [negb andb]. f_equal. f_equal.
      apply filter_ext_in. intros j Hj.
      apply in_seq in Hj. destruct (Nat.eqb_spec j i); [lia|reflexivity].
Qed.

Lemma gather_shape `{PyRuntime} (target_department : string)
    (user password : option string) (employees : list Row) (w w' : World)
    (equations : list (list Z)) (constants : list float) :
  let n := List.length employees in
  LinearSystemAttack.gather target_department n user password employees w =
    (Ok (equations, constants), w') ->
  exists (first : bool) keep,
    equations =
      ((if first then [repeat 1 n] else [])
         ++ map (exclusion n) (filter keep (seq 0 n)))%list.
Proof.
  intros n Hrun. unfold LinearSystemAttack.gather in Hrun.
  apply bind_ok in Hrun as (result & w1 & _ & Hrun).
  apply bind_ok in Hrun as ([eqs cs] & w2 & Hfirst & Hrun).
  apply exclusions_shape in Hrun as [keep ->]; [|lia].
  destruct (truthy result).
  - apply bind_ok in Hfirst as (avg & w3 & _ & Hfirst).
    apply bind_ok in Hfirst as (c & w4 & _ & Hfirst).
    apply ret_ok in Hfirst as [[= -> ->] _]. exists true, keep. reflexivity.
  - apply ret_ok in Hfirst as [[= -> ->] _]. exists false, keep. reflexivity.
Qed.

Lemma regular_with_sum (n : nat) (rows : list (list Z)) (x : list Z) (j : nat) :
  List.length x = n ->
  In (repeat 1 n) rows ->
  (forall i, (i < n)%nat -> i <> j -> In (exclusion n i) rows) ->
  (forall row, In row rows -> dot row x = 0) ->
  Forall (fun v => v = 0) x.
Proof.
  intros Hlen Hones Hex Hzero. subst n.
  assert (Htotal : total x = 0).
  { rewrite <- dot_ones. apply Hzero, Hones. }
  assert (Hrest : forall i, (i < List.length x)%nat -> i <> j -> nth i x 0 = 0).
  { intros i Hi Hne. pose proof (Hzero _ (Hex i Hi Hne)) as Hd.
    rewrite dot_exclusion in Hd by exact Hi. lia. }
  apply all_zero. intros i Hi. destruct (Nat.eq_dec i j) as [->|Hne].
  - rewrite <- (total_single x j Hrest). exact Htotal.
  - apply Hrest; assumption.
Qed.

Lemma regular_without_sum (n : nat) (rows : list (list Z)) (x : list Z) :
  List.length x = n ->
  (2 <= n)%nat ->
  (forall i, (i < n)%nat -> In (exclusion n i) rows) ->
  (forall row, In row rows -> dot row x = 0) ->
  Forall (fun v => v = 0) x.
Proof.
  intros Hlen Hn Hex Hzero. subst n.
  assert (Heach : forall i, (i < List.length x)%nat -> nth i x 0 = total x).
  { intros i Hi. pose proof (Hzero _ (Hex i Hi)) as Hd.
    rewrite dot_exclusion in Hd by exact Hi. lia. }
  pose proof (total_const x (total x) Heach) as Htotal.
  assert (Hz : total x = 0) by nia.
  apply all_zero. intros i Hi. rewrite Heach by exact Hi. exact Hz.
Qed.

(** X22: the equations the Linear System attack hands to the solver have
    one solution.  Whichever of the aggregate queries the store answers,
    when the attack has gathered enough equations for a department of n
    employees, n at least 2, the n equations it passes on are independent:
    the only vector of integers at which all n left-hand sides are 0 is the
    zero vector.  The coefficient matrix is therefore never singular, and
    the failure "System is singular or unsolvable" is not reached for a
    solver that is exact. *)
Theorem linear_system_matrix_regular `{PyRuntime} (w w' : World)
    (target_department : string) (user password : option string)
    (employees : list Row) (equations : list (list Z)) (constants : list float)
    (x : list Z) :
  let n := List.length employees in
  LinearSystemAttack.gather target_department n user password employees w =
    (Ok (equations, constants), w') ->
  (2 <= n)%nat ->
  (n <= List.length equations)%nat ->
  List.length x = n ->
  (forall row, In row (firstn n equations) -> dot row x = 0) ->
  Forall (fun v => v = 0) x.
Proof.
  intros n Hrun Hn Henough Hlen Hzero.
  apply gather_shape in Hrun as (first & keep & ->). fold n in Hzero, Henough.
  set (F := filter keep (seq 0 n)) in *.
  assert (HF : (List.length F <= n)%nat).
  { pose proof (filter_length_le keep (seq 0 n)) as Hle.
    rewrite length_seq in Hle. exact Hle. }
  destruct first.
  - cbn [app] in Hzero, Henough. cbn [List.length] in Henough.
    rewrite length_map in Henough.
    destruct n as [|m] eqn:En; [lia|]. cbn [firstn] in Hzero.
    rewrite firstn_map in Hzero.
    assert (Hj : exists j, forall i, (i < S m)%nat -> i <> j -> In i (firstn m F)).
    { destruct (Nat.eq_dec (List.length F) (S m)) as [Hfull|Hless].
      - exists m. intros i Hi Hne.
        assert (HFseq : F = seq 0 (S m)).
        { apply filter_full. rewrite length_seq. exact Hfull. }
        rewrite HFseq, firstn_seq_le by lia.
        apply in_seq. lia.
      - assert (Hm : List.length F = m) by lia.
        rewrite firstn_all2 by lia.
        destruct (filter_misses_one keep (seq 0 (S m))) as [j Hmiss].
        { fold F. rewrite length_seq. lia. }
        exists j. intros i Hi Hne. apply Hmiss; [apply in_seq; lia|exact Hne]. }
    destruct Hj as [j Hj].
    apply (regular_with_sum (S m) (repeat 1 (S m) :: map (exclusion (S m)) (firstn m F))
             x j Hlen).
    + left. reflexivity.
    + intros i Hi Hne. right. apply in_map, Hj; assumption.
    + exact Hzero.
  - cbn [app] in Hzero, Henough. rewrite length_map in Henough.
    assert (Hfull : F = seq 0 n).
    { unfold F. apply filter_full. rewrite length_seq. fold F. lia. }
    rewrite firstn_all2 in Hzero by (rewrite length_map; lia).
    apply (regular_without_sum n (map (exclusion n) F) x Hlen Hn); [|exact Hzero].
    intros i Hi. apply in_map. rewrite Hfull. apply in_seq. lia.
Qed.

Lemma linear_system_matrix_regular_witness :
  fst (LinearSystemAttack.gather (H := Fixtures.runtime) "Finance" 2 None None
         Fixtures.finance_staff (tick (Fixtures.world Fixtures.finance))) =
    Ok ([[1; 1]; [0; 1]; [1; 0]],
        [(80000 * 2)%float; (70000 * 1)%float; (90000 * 1)%float]) /\
  Forall (fun v => v = 0) [0; 0].
Proof.
  split; [reflexivity|].
  refine (linear_system_matrix_regular (H := Fixtures.runtime)
            (tick (Fixtures.world Fixtures.finance)) _ "Finance" None None
            Fixtures.finance_staff _ _ [0; 0] eq_refl _ _ eq_refl _).
  - simpl. lia.
  - simpl. lia.
  - intros row Hin. simpl in Hin. destruct Hin as [<-|[<-|[]]]; reflexivity.
Defined.

(** ** The comparison of all strategies *)

Lemma confined_run {A} (f : Footprint) (c : M A) (w w' : World) (r : Result A) :
  confined f c -> c w = (r, w') -> within f w w'.
Proof. intros Hc Hrun. specialize (Hc w). rewrite Hrun in Hc. exact Hc. Qed.

Lemma within_pg (f : Footprint) (w w' : World) : within f w w' -> pg w' = pg w.
Proof. intros (Hpg & _). exact Hpg. Qed.

Lemma same_store (w w' : World) :
  pg w' = pg w ->
  (audit_accepted w -> audit_accepted w') /\
  (history_readable w -> history_readable w') /\
  (history_writable w -> history_writable w').
Proof.
  intros Hpg.
  unfold audit_accepted, history_readable, history_writable. rewrite Hpg. auto.
Qed.

Lemma within_history_same (f : Footprint) (w w' : World) :
  writes_history f = false -> within f w w' -> query_history w' = query_history w.
Proof.
  intros Hf (_ & _ & _ & _ & (h & Hh & Hh0) & _). rewrite Hh, (Hh0 Hf). reflexivity.
Qed.

Lemma compare_all_runs `{PyRuntime} (w w' : World) (username query : string)
    (params : option (list Value)) (user password : option string)
    (r : list (string * Outcome)) :
  AggregationComparator.compare_all username query params user password w = (Ok r, w') ->
  exists a b c d e w3 w4,
    r = [("no_protection", a); ("min_size", b); ("differential_privacy", c);
         ("overlap_control", d); ("cell_suppression", e)] /\
    within (mkFootprint true false true) w w3 /\
    OverlapControl.aggregate username default_overlap_threshold query params user
      password w3 = (Ok d, w4) /\
    within (mkFootprint true false true) w4 w' /\
    rows_absent_when_blocked a /\ rows_absent_when_blocked b /\
    rows_absent_when_blocked c /\ rows_absent_when_blocked d /\
    rows_absent_when_blocked e.
Proof.
  unfold AggregationComparator.compare_all. intros Hrun.
  apply bind_ok in Hrun as (a & w1 & Ha & Hrun).
  apply bind_ok in Hrun as (b & w2 & Hb & Hrun).
  apply bind_ok in Hrun as (c & w3 & Hc & Hrun).
  apply bind_ok in Hrun as (d & w4 & Hd & Hrun).
  apply bind_ok in Hrun as (e & w5 & He & Hrun).
  apply ret_ok in Hrun as [-> ->].
  exists a, b, c, d, e, w3, w4. split; [reflexivity|].
  split; [|split; [exact Hd|split]].
  - eapply within_trans; [|eapply within_trans].
    + eapply confined_run; [|exact Ha].
      apply confined_weaken_audit; [apply confined_no_protection|reflexivity].
    + eapply confined_run; [|exact Hb].
      apply confined_weaken_audit; [apply confined_minimum_size|reflexivity].
    + eapply confined_run; [|exact Hc].
      apply confined_differential_privacy; reflexivity.
  - eapply confined_run; [|exact He]. apply confined_cell_suppression. reflexivity.
  - repeat split.
    + eapply no_protection_outcome. exact Ha.
    + eapply minimum_size_outcome. exact Hb.
    + eapply differential_privacy_outcome. exact Hc.
    + eapply overlap_control_outcome. exact Hd.
    + eapply cell_suppression_outcome. exact He.
Qed.

Lemma overlap_leaves_similar `{PyRuntime} (w : World) (username : string)
    (threshold : float) (query : string) (params : option (list Value))
    (user password : option string) (rows : list Row) :
  audit_accepted w ->
  history_readable w ->
  history_writable w ->
  history_well_formed w ->
  pg w (S (clock w)) (mkStatement query params user password) = Rows rows ->
  truthy (Some rows) = true ->
  (threshold <? 1)%float = true ->
  exists o w',
    OverlapControl.aggregate username threshold query params user password w =
      (Ok o, w') /\
    history_well_formed w' /\
    exists e, In e (Database.recent username 20 (query_history w')) /\
              too_similar threshold (Database.hash_result_set rows) e.
Proof.
  intros Hacc Hread Hwrite Hwf Hpg Hrows Hbelow.
  destruct rows as [|r rs]; [discriminate|].
  pose proof (recent_well_formed w username 20 Hwf) as Hwf'.
  pose proof (sha256_hexdigest_shape (str_sorted_rows (r :: rs))) as Hcur.
  fold (Database.hash_result_set (r :: rs)) in Hcur.
  destruct (first_overlap_defined threshold (Database.hash_result_set (r :: rs))
              _ Hcur Hwf') as [[hit|] Hfirst].
  - eexists _, _. split;
      [apply (overlap_run_blocked w username threshold query params user password
                r rs hit); assumption|].
    split; [exact Hwf|].
    destruct (first_overlap_found _ _ _ _ Hfirst) as (e & h & Hin & Hh & Hov & Habove).
    exists e. split; [exact Hin|]. exists h, hit. repeat split; assumption.
  - eexists _, _. split;
      [apply (overlap_run_stored w username threshold query params user password
                r rs); assumption|].
    split.
    + unfold history_well_formed. cbn [query_history add_history tick add_audit].
      constructor; [|exact Hwf]. intros x [= <-]. exact Hcur.
    + eexists. split.
      * cbn [query_history add_history tick add_audit]. unfold Database.recent.
        cbn [filter h_username]. rewrite String.eqb_refl.
        change (Z.to_nat 20) with 20%nat. cbn [firstn]. left. reflexivity.
      * exists (Database.hash_result_set (r :: rs)), 1%float.
        split; [reflexivity|]. split; [apply overlap_same, Hcur|exact Hbelow].
Qed.

(** X24: a comparison repeated.  [compare_all] runs Overlap Control under
    the caller's name like a query of its own, so a comparison leaves the
    result in [query_history]: when a comparison of a query that returns
    rows is followed by a second comparison of the same query, the store
    answering it with the same rows, the overlap_control outcome of the
    second comparison is blocked.  The store is assumed to accept the
    statements on both tables, the stored hashes to be SHA-256 digests, and
    both comparisons to return. *)
Theorem compare_all_twice_blocks_overlap `{PyRuntime} (w : World)
    (username query : string) (params : option (list Value))
    (user password : option string) (rows : list Row)
    (r1 r2 : list (string * Outcome)) :
  let first := AggregationComparator.compare_all username query params user password w in
  let second :=
    AggregationComparator.compare_all username query params user password (snd first) in
  audit_accepted w ->
  history_readable w ->
  history_writable w ->
  history_well_formed w ->
  (forall n, pg w n (mkStatement query params user password) = Rows rows) ->
  truthy (Some rows) = true ->
  fst first = Ok r1 ->
  fst second = Ok r2 ->
  exists o, In ("overlap_control", o) r2 /\ blocked o = true /\ results o = None.
Proof.
  intros first second Hacc Hread Hwrite Hwf Hpg Hrows H1 H2.
  apply fst_run in H1 as [w5 H1]. unfold second in H2. unfold first in H1, H2.
  rewrite H1 in H2. cbn [snd] in H2. apply fst_run in H2 as [w10 H2].
  apply compare_all_runs in H1 as (a & b & c & d & e & w3 & w4 & _ & Hw3 & Hd & Hw5 & _).
  apply compare_all_runs in H2
    as (a' & b' & c' & d' & e' & w8 & w9 & -> & Hw8 & Hd' & _ & _).
  assert (Hpg3 : pg w3 = pg w) by exact (within_pg _ _ _ Hw3).
  pose proof (same_store w w3 Hpg3) as (Hacc3 & Hread3 & Hwrite3).
  pose proof (within_history_same (mkFootprint true false true) _ _ eq_refl Hw3)
    as Hhist3.
  destruct (overlap_leaves_similar w3 username default_overlap_threshold query params
              user password rows) as (o & w4' & Ho & Hwf4 & entry & Hin & Hsim).
  { apply Hacc3, Hacc. }
  { apply Hread3, Hread. }
  { apply Hwrite3, Hwrite. }
  { unfold history_well_formed. rewrite Hhist3. exact Hwf. }
  { rewrite Hpg3. apply Hpg. }
  { exact Hrows. }
  { reflexivity. }
  rewrite Hd in Ho. injection Ho as <- <-.
  assert (Hpg4 : pg w4 = pg w).
  { rewrite <- Hpg3. eapply within_pg. eapply confined_run; [|exact Hd].
    apply (confined_overlap_control (mkFootprint true true false)); reflexivity. }
  assert (Hw48 : within (mkFootprint true false true) w4 w8).
  { eapply within_trans; [exact Hw5|exact Hw8]. }
  assert (Hpg8 : pg w8 = pg w).
  { rewrite <- Hpg4. exact (within_pg _ _ _ Hw48). }
  pose proof (same_store w w8 Hpg8) as (Hacc8 & Hread8 & Hwrite8).
  pose proof (within_history_same (mkFootprint true false true) _ _ eq_refl Hw48)
    as Hhist8.
  destruct Hsim as (h & overlap & Hh & Hov & Habove).
  destruct (overlap_blocks w8 username default_overlap_threshold query params user
              password entry h rows overlap) as (o & Ho & Hb & Hres); auto.
  - unfold history_well_formed. rewrite Hhist8. exact Hwf4.
  - rewrite Hhist8. exact Hin.
  - rewrite Hpg8. apply Hpg.
  - rewrite Hd' in Ho. injection Ho as ->.
    exists o. split; [|split; assumption].
    right. right. right. left. reflexivity.
Qed.

Lemma compare_all_twice_blocks_overlap_witness :
  let w := Fixtures.world (Fixtures.always [[("count", VInt 9)]]) in
  let first :=
    AggregationComparator.compare_all (H := Fixtures.runtime) "system"
      Fixtures.salary_query None None None w in
  let second :=
    AggregationComparator.compare_all (H := Fixtures.runtime) "system"
      Fixtures.salary_query None None None (snd first) in
  exists r1 r2 o,
    fst first = Ok r1 /\ fst second = Ok r2 /\
    In ("overlap_control", o) r2 /\ blocked o = true /\ results o = None.
Proof.
  eexists _, _.
  assert (H1 : fst (AggregationComparator.compare_all (H := Fixtures.runtime) "system"
                      Fixtures.salary_query None None None
                      (Fixtures.world (Fixtures.always [[("count", VInt 9)]]))) = Ok _)
    by (vm_compute; reflexivity).
  assert (H2 : fst (AggregationComparator.compare_all (H := Fixtures.runtime) "system"
                      Fixtures.salary_query None None None
                      (snd (AggregationComparator.compare_all (H := Fixtures.runtime)
                              "system" Fixtures.salary_query None None None
                              (Fixtures.world (Fixtures.always [[("count", VInt 9)]])))))
                 = Ok _)
    by (vm_compute; reflexivity).
  destruct (compare_all_twice_blocks_overlap (H := Fixtures.runtime)
              (Fixtures.world (Fixtures.always [[("count", VInt 9)]]))
              "system" Fixtures.salary_query None None None [[("count", VInt 9)]] _ _
              (proj1 (always_accepts (Fixtures.world (Fixtures.always _)) _ eq_refl))
              (proj2 (always_accepts (Fixtures.world (Fixtures.always _)) _ eq_refl))
              (always_writable (Fixtures.world (Fixtures.always _)) _ eq_refl)
              (Forall_nil _) (fun _ => eq_refl) eq_refl H1 H2) as (o & Ho).
  exists o. split; [exact H1|]. split; [exact H2|exact Ho].
Defined.

(** ** Minimum Size Restriction: the count query itself *)

(** X25: a count query that the store rejects blocks the query.  Minimum
    Size Restriction sends the rewritten count query first; when the store
    rejects it, the outcome is blocked with the store's message and the
    query itself is never sent: the store has received the count query and
    the audit INSERT only, and the audit row carries the text of the count
    query, not of the query.  The store is assumed to accept the audit
    INSERT. *)
Theorem minimum_size_count_rejected `{PyRuntime} (w : World) (username : string)
    (min_size : Z) (query : string) (params : option (list Value))
    (user password : option string) (msg : string) :
  let count_query := MinimumSizeRestriction._convert_to_count_query query in
  audit_accepted w ->
  pg w (clock w) (mkStatement count_query params user password) = Rejected msg ->
  MinimumSizeRestriction.aggregate username min_size query params user password w =
    (Ok (mkOutcome "Minimum Size Restriction" true (Some msg) None None
           (Some ("min_size=" +++ PyStr.of_int min_size))),
     add_audit (mkAudit username count_query (VInt 0) true (Some msg)) (tick (tick w))).
Proof.
  intros count_query Hacc Hpg. unfold MinimumSizeRestriction.aggregate.
  fold count_query. step.
  rewrite gateway_rejected with (msg := msg) by assumption. reflexivity.
Qed.

Lemma minimum_size_count_rejected_witness :
  fst (MinimumSizeRestriction.aggregate (H := Fixtures.runtime) "system" 5
         Fixtures.bonus_query None None None
         (Fixtures.world
            (Fixtures.rejecting
               (MinimumSizeRestriction._convert_to_count_query Fixtures.bonus_query)
               "syntax error" [[("bonus", VInt 10)]]))) =
    Ok (mkOutcome "Minimum Size Restriction" true (Some "syntax error") None None
          (Some "min_size=5")).
Proof.
  exact (f_equal fst
           (minimum_size_count_rejected (H := Fixtures.runtime)
              (Fixtures.world
                 (Fixtures.rejecting
                    (MinimumSizeRestriction._convert_to_count_query Fixtures.bonus_query)
                    "syntax error" [[("bonus", VInt 10)]]))
              "system" 5 Fixtures.bonus_query None None None "syntax error"
              (fun n st m E => ltac:(unfold Fixtures.world, Fixtures.rejecting, pg;
                                     rewrite E; discriminate))
              eq_refl)).
Defined.

(** ** The count rewrite of a query with blanks before SELECT *)





